(** * decompiler_scraper: the decompilation pipeline and the file endpoint

    A shallow embedding of [src/app/api/decompile/route.ts] (class
    [WebDecompiler] and the [POST] handler), of the job registry
    ([jobStorage]) and of the file-content branch of the files endpoint
    ([GET]), together with the properties of the written specification
    that concern them.

    JavaScript strings are modelled as [string] (sequences of 8-bit code
    units); the regular expressions of the source run on [list ascii]
    through a small backtracking matcher with the priorities of the
    ECMAScript one (greedy quantifiers, left alternative first, leftmost
    match).  Objects used as dictionaries are [gmap string _], the map of
    their own properties; where a property is read under a name that comes
    from a request, the properties that every object inherits are read as
    well ([PlainObject]).  What axios hands as the data of a response is a
    text, or the value of a body that is a JSON text ([Data]). *)

From Stdlib Require Import Ascii String List Arith Lia Bool.
From stdpp Require Import gmap strings list fin_maps pretty sorting.

Local Open Scope string_scope.
Local Open Scope list_scope.

(* ===================================================================== *)
(** * Characters and strings *)
(* ===================================================================== *)

Module Chars.

Definition code (c : ascii) : nat := nat_of_ascii c.

Definition in_range (lo hi : ascii) (c : ascii) : bool :=
  ((code lo <=? code c) && (code c <=? code hi))%nat.

Definition is_upper : ascii -> bool := in_range "A"%char "Z"%char.
Definition is_lower : ascii -> bool := in_range "a"%char "z"%char.
Definition is_digit : ascii -> bool := in_range "0"%char "9"%char.

(** [[a-zA-Z0-9]] *)
Definition is_alnum (c : ascii) : bool := is_lower c || is_upper c || is_digit c.

(** [\s], and the characters removed by [String.prototype.trim]: TAB, LF,
    VT, FF, CR, space and (among the code units below 256) NBSP. *)
Definition is_space (c : ascii) : bool :=
  let n := code c in
  ((9 <=? n) && (n <=? 13) || (n =? 32) || (n =? 160))%nat.

Definition is_char (a : ascii) (c : ascii) : bool := Ascii.eqb a c.
Definition not_char (a : ascii) (c : ascii) : bool := negb (Ascii.eqb a c).

(** [String.prototype.toUpperCase] on one code unit (ASCII letters). *)
Definition toUpperCase (c : ascii) : ascii :=
  if is_lower c then ascii_of_nat (code c - 32) else c.

Definition LF : ascii := ascii_of_nat 10.

(** [String.prototype.toLowerCase] on one code unit below 256: the ASCII
    letters, and the capital letters of Latin-1 (the codes 192 to 222 but
    215, the multiplication sign). *)
Definition toLowerCase (c : ascii) : ascii :=
  let n := code c in
  if (is_upper c || ((192 <=? n) && (n <=? 222) && negb (n =? 215)))%nat
  then ascii_of_nat (n + 32) else c.

End Chars.

(* ===================================================================== *)
(** * Regular expressions of the source *)
(* ===================================================================== *)

Module Regex.
Import Chars.

(** The fragment of ECMAScript regular expressions the source uses:
    character classes, concatenation, alternation, [?] on a group, [*] on
    a character class, and one capture group. *)
Inductive regex : Type :=
| Eps : regex
| Cls : (ascii -> bool) -> regex
| Seq : regex -> regex -> regex
| Alt : regex -> regex -> regex
| Opt : regex -> regex
| StarC : (ascii -> bool) -> regex
| Group : regex -> regex.

Definition chr (a : ascii) : regex := Cls (is_char a).
Definition plus (p : ascii -> bool) : regex := Seq (Cls p) (StarC p).

Fixpoint lit_chars (l : list ascii) : regex :=
  match l with
  | [] => Eps
  | a :: l' => Seq (chr a) (lit_chars l')
  end.

Definition lit (s : string) : regex := lit_chars (list_ascii_of_string s).

Fixpoint seqs (rs : list regex) : regex :=
  match rs with
  | [] => Eps
  | r :: rs' => Seq r (seqs rs')
  end.

(** What was consumed between the input [s] and the remainder [s']. *)
Definition consumed (s s' : list ascii) : list ascii :=
  take (length s - length s') s.

Section Matcher.
Context {R : Type}.

  (** Greedy [p*]: the longest run first, then shorter ones. *)
Fixpoint star_cls (p : ascii -> bool) (s : list ascii)
           (k : list ascii -> option R) : option R :=
    match s with
    | c :: s' =>
        if p c then
          match star_cls p s' k with
          | Some x => Some x
          | None => k s
          end
        else k s
    | [] => k s
    end.

  (** Backtracking matcher in continuation-passing style.  [cap] is the
      content of capture group 1 ([None]: undefined). *)
Fixpoint rmatch (r : regex) (s : list ascii) (cap : option (list ascii))
           (k : list ascii -> option (list ascii) -> option R) : option R :=
    match r with
    | Eps => k s cap
    | Cls p =>
        match s with
        | c :: s' => if p c then k s' cap else None
        | [] => None
        end
    | Seq r1 r2 => rmatch r1 s cap (fun s1 c1 => rmatch r2 s1 c1 k)
    | Alt r1 r2 =>
        match rmatch r1 s cap k with
        | Some x => Some x
        | None => rmatch r2 s cap k
        end
    | Opt r1 =>
        match rmatch r1 s cap k with
        | Some x => Some x
        | None => k s cap
        end
    | StarC p => star_cls p s (fun s' => k s' cap)
    | Group r1 => rmatch r1 s cap (fun s' _ => k s' (Some (consumed s s')))
    end.
End Matcher.

(** One match attempt at the start of [s]: the remainder and group 1. *)
Definition match_at (r : regex) (s : list ascii)
  : option (list ascii * option (list ascii)) :=
  rmatch r s None (fun s' c => Some (s', c)).

(** A match object: [m[0]] and [m[1]]. *)
Record MatchResult : Type := mkMatch {
  m0 : list ascii;
  m1 : option (list ascii)
}.

(** The loop [m = re.exec(s); while (m !== null) { ...; m = re.exec(s) }]
    on a fresh global regular expression: all matches, leftmost first, each
    search resuming where the previous match ended.  [skip] counts the
    characters of the current match still to be passed.  (On an empty match
    the source loop would not advance; no pattern of the source matches the
    empty string, see [nullable].) *)
Fixpoint exec_all (r : regex) (s : list ascii) (skip : nat) : list MatchResult :=
  match s with
  | [] => []
  | _ :: s' =>
      match skip with
      | S n => exec_all r s' n
      | O =>
          match match_at r s with
          | Some (rest, cap) =>
              mkMatch (consumed s rest) cap
                :: exec_all r s' (length s - length rest - 1)
          | None => exec_all r s' 0
          end
      end
  end.

(** [s.replace(re, rep)] for a global [re] and a replacement text without
    [$] patterns.  After an empty match the search moves on by one
    character, which is copied. *)
Fixpoint replace_all (r : regex) (rep : list ascii) (s : list ascii) (skip : nat)
  : list ascii :=
  match s with
  | [] =>
      match skip, match_at r [] with
      | O, Some _ => rep
      | _, _ => []
      end
  | c :: s' =>
      match skip with
      | S n => replace_all r rep s' n
      | O =>
          match match_at r s with
          | Some (rest, _) =>
              match length s - length rest with
              | O => rep ++ c :: replace_all r rep s' 0
              | S n => rep ++ replace_all r rep s' n
              end
          | None => c :: replace_all r rep s' 0
          end
      end
  end.

(** Can [r] match the empty string? *)
Fixpoint nullable (r : regex) : bool :=
  match r with
  | Eps => true
  | Cls _ => false
  | Seq r1 r2 => nullable r1 && nullable r2
  | Alt r1 r2 => nullable r1 || nullable r2
  | Opt _ => true
  | StarC _ => true
  | Group r1 => nullable r1
  end.

(** Does [r] contain the capture group? *)
Fixpoint has_group (r : regex) : bool :=
  match r with
  | Eps | Cls _ | StarC _ => false
  | Seq r1 r2 | Alt r1 r2 => has_group r1 || has_group r2
  | Opt r1 => has_group r1
  | Group _ => true
  end.

(** Declarative reading: [Lang r w c c'] when [r] matches exactly the word
    [w], taking capture group 1 from [c] to [c']. *)
Inductive Lang : regex -> list ascii -> option (list ascii) -> option (list ascii) -> Prop :=
| LEps c : Lang Eps [] c c
| LCls (p : ascii -> bool) a c : p a = true -> Lang (Cls p) [a] c c
| LSeq r1 r2 w1 w2 c c1 c2 :
    Lang r1 w1 c c1 -> Lang r2 w2 c1 c2 -> Lang (Seq r1 r2) (w1 ++ w2) c c2
| LAltL r1 r2 w c c' : Lang r1 w c c' -> Lang (Alt r1 r2) w c c'
| LAltR r1 r2 w c c' : Lang r2 w c c' -> Lang (Alt r1 r2) w c c'
| LOptS r w c c' : Lang r w c c' -> Lang (Opt r) w c c'
| LOptN r c : Lang (Opt r) [] c c
| LStar (p : ascii -> bool) w c : forallb p w = true -> Lang (StarC p) w c c
| LGroup r w c c' : Lang r w c c' -> Lang (Group r) w c (Some w).

End Regex.

(* ===================================================================== *)
(** * String operations of the JavaScript runtime *)
(* ===================================================================== *)

Module Js.
Import Chars.

Definition chars (s : string) : list ascii := list_ascii_of_string s.
Definition str (l : list ascii) : string := string_of_list_ascii l.

(** The double quote, written by its code. *)
Definition DQUOTE : ascii := ascii_of_nat 34.

(** A string in a boolean position: every string but the empty one. *)
Definition truthy (s : string) : bool := negb (String.eqb s "").

(** [a || b] on strings. *)
Definition or_else (a b : string) : string := if truthy a then a else b.

Definition startsWith (s p : string) : bool := String.prefix p s.

(** [s.split(sep).pop()]: what follows the last separator, the whole
    string when there is none. *)
Definition split_pop (sep : ascii) (s : string) : string :=
  str (fold_left (fun acc c => if Ascii.eqb c sep then [] else acc ++ [c]) (chars s) []).

Fixpoint drop_chars (n : nat) (s : string) : string :=
  match n, s with
  | S n', String _ s' => drop_chars n' s'
  | _, _ => s
  end.

(** [s.replace(pat, rep)] with a string pattern: the first occurrence only. *)
Fixpoint replace_first (pat rep s : string) : string :=
  if String.prefix pat s then rep +:+ drop_chars (String.length pat) s
  else match s with
       | EmptyString => EmptyString
       | String c s' => String c (replace_first pat rep s')
       end.

Fixpoint trim_start (l : list ascii) : list ascii :=
  match l with
  | c :: l' => if is_space c then trim_start l' else l
  | [] => []
  end.

(** [s.trim()] *)
Definition trim (l : list ascii) : list ascii :=
  rev (trim_start (rev (trim_start l))).

(** The characters of [s] that are not white space. *)
Definition strip_ws (l : list ascii) : list ascii :=
  List.filter (fun c => negb (is_space c)) l.

Fixpoint is_prefix (p l : list ascii) : bool :=
  match p, l with
  | [], _ => true
  | a :: p', b :: l' => Ascii.eqb a b && is_prefix p' l'
  | _ :: _, [] => false
  end.

(** [s.endsWith(suffix)] *)
Definition endsWith (s suffix : string) : bool :=
  is_prefix (rev (chars suffix)) (rev (chars s)).

(** [s.toLowerCase()] *)
Definition lowercase (s : string) : string := str (map toLowerCase (chars s)).

End Js.

(* ===================================================================== *)
(** * Data model ([route.ts] lines 8-38 and [lib/storage]) *)
(* ===================================================================== *)

Inductive BundleType : Type := js | css.

Module BundleInfo.
Record t : Type := mk { url : string; type : BundleType; filename : string }.
End BundleInfo.

Module ExtractedComponent.
Record t : Type := mk { name : string; code : string; source : string }.
End ExtractedComponent.

Module ModuleInfo.
  (** [match_] is the field [match] of the source. *)
Record t : Type := mk { identifier : string; match_ : string; source : string }.
End ModuleInfo.

Module SourceMapInfo.
  (** The two fields the code reads.  A field that is absent is [None]; an
      array slot holding [null] is [None]. *)
Record t : Type := mk {
    sources : option (list (option string));
    sourcesContent : option (list (option string))
  }.
End SourceMapInfo.

Module Analysis.
Record t : Type := mk {
    jsFiles : nat;
    cssFiles : nat;
    components : nat;
    modules : nat
  }.
End Analysis.

Module DecompilationResult.
Record t : Type := mk {
    jobId : string;
    url : string;
    timestamp : nat;
    bundles : list BundleInfo.t;
    components : list ExtractedComponent.t;
    modules : list ModuleInfo.t;
    originalFiles : gmap string string;
    beautifiedFiles : gmap string string;
    analysis : Analysis.t
  }.

Definition with_timestamp (ts : nat) (r : t) : t :=
    mk (jobId r) (url r) ts (bundles r) (components r) (modules r)
       (originalFiles r) (beautifiedFiles r) (analysis r).
Definition with_bundles (bs : list BundleInfo.t) (r : t) : t :=
    mk (jobId r) (url r) (timestamp r) bs (components r) (modules r)
       (originalFiles r) (beautifiedFiles r) (analysis r).
Definition with_components (cs : list ExtractedComponent.t) (r : t) : t :=
    mk (jobId r) (url r) (timestamp r) (bundles r) cs (modules r)
       (originalFiles r) (beautifiedFiles r) (analysis r).
Definition with_modules (ms : list ModuleInfo.t) (r : t) : t :=
    mk (jobId r) (url r) (timestamp r) (bundles r) (components r) ms
       (originalFiles r) (beautifiedFiles r) (analysis r).
Definition with_originalFiles (m : gmap string string) (r : t) : t :=
    mk (jobId r) (url r) (timestamp r) (bundles r) (components r) (modules r)
       m (beautifiedFiles r) (analysis r).
Definition with_beautifiedFiles (m : gmap string string) (r : t) : t :=
    mk (jobId r) (url r) (timestamp r) (bundles r) (components r) (modules r)
       (originalFiles r) m (analysis r).
Definition with_analysis (a : Analysis.t) (r : t) : t :=
    mk (jobId r) (url r) (timestamp r) (bundles r) (components r) (modules r)
       (originalFiles r) (beautifiedFiles r) a.
End DecompilationResult.

(** An element of the parsed document: its tag name and its attributes. *)
Record Element : Type := mkElement {
  tagName : string;
  attribs : list (string * string)
}.

(** What axios hands as [response.data].  The body of an answer is handed
    as its text, unless that text is a JSON text: the default
    [transformResponse] of axios then hands the value of it, a text again
    when the body is a JSON string, a value that is not a text otherwise
    (an object for a source map).  Of a value that is not a text the model
    keeps [shown], what [String(value)] is: the text [[object Object]] for
    an object. *)
Inductive Data : Type :=
| Text (text : string)
| Parsed (shown : string).

(** An HTTP response as the code reads it. *)
Record Response : Type := mkResponse {
  status : nat;
  payload : Data
}.

(** [String(response.data)]: the text that was handed, and what
    [JSON.parse], which converts its argument to a text, sees of a value
    that was handed parsed.  The files of a result record are declared as
    texts; the pipeline is modelled for data of that type. *)
Definition data (response : Response) : string :=
  match payload response with
  | Text text => text
  | Parsed shown => shown
  end.

(* ===================================================================== *)
(** * The patterns of the structural extractor *)
(* ===================================================================== *)

Module Patterns.
Import Chars Regex Js.

(** Each pattern is preceded by its source text; there a blank is put
    between a star and a closing parenthesis that follows it. *)

(** [[a-zA-Z_$]] and [[a-zA-Z0-9_$]] *)
Definition is_ident_start (c : ascii) : bool :=
  is_lower c || is_upper c || is_char "_" c || is_char "$" c.
Definition is_ident_char (c : ascii) : bool :=
  is_alnum c || is_char "_" c || is_char "$" c.

(** A quote character (double or single), and the class of the others. *)
Definition is_quote (c : ascii) : bool := is_char DQUOTE c || is_char "'" c.
Definition not_quote (c : ascii) : bool := negb (is_quote c).

(** [[^from]] *)
Definition not_from (c : ascii) : bool :=
  negb (is_char "f" c || is_char "r" c || is_char "o" c || is_char "m" c).

(** [([A-Z][a-zA-Z0-9]* )] *)
Definition component_name : regex := Group (Seq (Cls is_upper) (StarC is_alnum)).

(** [/function\s+([A-Z][a-zA-Z0-9]* )\s*\([^)]*\)\s*\{[^}]*return\s+[^}]*jsx?[^}]*\}/g] *)
Definition function_component : regex :=
  seqs [lit "function"; plus is_space; component_name; StarC is_space;
        chr "("; StarC (not_char ")"); chr ")"; StarC is_space;
        chr "{"; StarC (not_char "}"); lit "return"; plus is_space;
        StarC (not_char "}"); lit "js"; Opt (chr "x"); StarC (not_char "}");
        chr "}"].

(** [/const\s+([A-Z][a-zA-Z0-9]* )\s*=\s*\([^)]*\)\s*=>\s*\{[^}]*return[^}]*jsx?[^}]*\}/g] *)
Definition arrow_component : regex :=
  seqs [lit "const"; plus is_space; component_name; StarC is_space;
        chr "="; StarC is_space; chr "("; StarC (not_char ")"); chr ")";
        StarC is_space; lit "=>"; StarC is_space;
        chr "{"; StarC (not_char "}"); lit "return";
        StarC (not_char "}"); lit "js"; Opt (chr "x"); StarC (not_char "}");
        chr "}"].

(** [/class\s+([A-Z][a-zA-Z0-9]* )\s+extends\s+[^{]*\{[^}]*render\s*\(\s*\)\s*\{[^}]*return[^}]*\}/g] *)
Definition class_component : regex :=
  seqs [lit "class"; plus is_space; component_name; plus is_space;
        lit "extends"; plus is_space; StarC (not_char "{");
        chr "{"; StarC (not_char "}"); lit "render"; StarC is_space;
        chr "("; StarC is_space; chr ")"; StarC is_space;
        chr "{"; StarC (not_char "}"); lit "return"; StarC (not_char "}");
        chr "}"].

Definition component_patterns : list regex :=
  [function_component; arrow_component; class_component].

(** [/export\s+(?:default\s+)?(?:function|class|const|let|var)\s+([a-zA-Z_$][a-zA-Z0-9_$]* )/g] *)
Definition export_declaration : regex :=
  seqs [lit "export"; plus is_space;
        Opt (Seq (lit "default") (plus is_space));
        Alt (lit "function") (Alt (lit "class") (Alt (lit "const")
          (Alt (lit "let") (lit "var"))));
        plus is_space;
        Group (Seq (Cls is_ident_start) (StarC is_ident_char))].

(** [/module\.exports\s*=\s*([^;]+)/g] *)
Definition module_exports : regex :=
  seqs [lit "module.exports"; StarC is_space; chr "="; StarC is_space;
        Group (plus (not_char ";"))].

(** [/exports\.([a-zA-Z_$][a-zA-Z0-9_$]* )\s*=/g] *)
Definition named_exports : regex :=
  seqs [lit "exports."; Group (Seq (Cls is_ident_start) (StarC is_ident_char));
        StarC is_space; chr "="].

(** [/import\s+(?:[^from]+from\s+)?Q([^Q]+)Q/g], where [Q] stands for the
    class of the two quote characters. *)
Definition import_path : regex :=
  seqs [lit "import"; plus is_space;
        Opt (seqs [plus not_from; lit "from"; plus is_space]);
        Cls is_quote; Group (plus not_quote); Cls is_quote].

(** [/require\(Q([^Q]+)Q\)/g], with [Q] as above. *)
Definition require_path : regex :=
  seqs [lit "require("; Cls is_quote; Group (plus not_quote); Cls is_quote;
        chr ")"].

Definition modulePatterns : list regex :=
  [export_declaration; module_exports; named_exports; import_path; require_path].

(** [/\n\s*\n/g] *)
Definition blank_lines : regex :=
  seqs [chr LF; StarC is_space; chr LF].

End Patterns.

(* ===================================================================== *)
(** * The platform: network, clock and the libraries the code calls *)
(* ===================================================================== *)

(** What the pipeline consumes from outside the repository.  [World] is the
    state of the network and of the clock; a request may change it, and the
    same URL may answer differently at different times. *)
Class Platform : Type := {
  World : Type;
  (** [axios.get(url, { timeout, headers })]: the URL, the timeout in
      milliseconds, whether the desktop-browser [User-Agent] header is
      sent.  [None]: the call throws (transport error, timeout, or a
      status outside 2xx).  The payload of the response is the body as
      axios hands it: parsed already when the body is a JSON text. *)
  axios_get : string -> N -> bool -> World -> option Response * World;
  (** [new URL(input, base).href], or [new URL(input).href] without a
      base; [None]: the constructor throws. *)
  URL_href : string -> option string -> option string;
  (** [cheerio.load(html)]: the elements of the document, in document
      order. *)
  cheerio_load : string -> list Element;
  (** [beautify(js, options)] of js-beautify with the options of the
      source; [None]: it throws. *)
  beautify : string -> option string;
  (** [JSON.parse(text)] read at type [SourceMapInfo]; [None]: it throws,
      as it does on every text that is no JSON text; [[object Object]] is
      one. *)
  JSON_parse : string -> option SourceMapInfo.t;
  (** [Date.now()] *)
  Date_now : World -> nat
}.

(** Computations that read and change the world and may throw an [Error]
    with a message. *)
Inductive Outcome (A : Type) : Type :=
| Ok : A -> Outcome A
| Throw : string -> Outcome A.
Arguments Ok {A} _.
Arguments Throw {A} _.

Module Exc.
Section Monad.
Context `{Platform}.

Definition M (A : Type) : Type := World -> Outcome A * World.

Definition ret {A} (a : A) : M A := fun w => (Ok a, w).

Definition bind {A B} (m : M A) (f : A -> M B) : M B :=
  fun w =>
    match m w with
    | (Ok a, w') => f a w'
    | (Throw e, w') => (Throw e, w')
    end.

Definition throw {A} (msg : string) : M A := fun w => (Throw msg, w).

(** [try { m } catch (error) { handler(error) }] *)
Definition try_catch {A} (m : M A) (handler : string -> M A) : M A :=
  fun w =>
    match m w with
    | (Ok a, w') => (Ok a, w')
    | (Throw e, w') => handler e w'
    end.

(** [await axios.get(...)] *)
Definition get (url : string) (timeout : N) (browser : bool) : M Response :=
  fun w =>
    match axios_get url timeout browser w with
    | (Some resp, w') => (Ok resp, w')
    | (None, w') => (Throw "Request failed", w')
    end.

Definition now : M nat := fun w => (Ok (Date_now w), w).

(** [for (const x of xs) { await body(x) }], threading the object the body
    mutates. *)
Fixpoint for_of {A S} (xs : list A) (body : A -> S -> M S) (s : S) : M S :=
  match xs with
  | [] => ret s
  | x :: xs' => bind (body x s) (for_of xs' body)
  end.

End Monad.
End Exc.

Notation "'let*' x ':=' m 'in' k" := (Exc.bind m (fun x => k))
  (at level 10, x name, m at level 100, k at level 200).

(* ===================================================================== *)
(** * class WebDecompiler ([route.ts] lines 42-310) *)
(* ===================================================================== *)

Module WebDecompiler.
Import Chars Regex Js Patterns Exc.
Import DecompilationResult.

Section Methods.
Context `{Platform}.

(** The two private fields of the object. *)
Record t : Type := mk {
  baseUrl : string;
  results : DecompilationResult.t
}.

Definition with_results (r : DecompilationResult.t) (this : t) : t :=
  mk (baseUrl this) r.

(** The object the constructor builds at time [ts] (lines 46-64). *)
Definition fresh (url jobId : string) (ts : nat) : t :=
  mk url (DecompilationResult.mk jobId url ts [] [] [] ∅ ∅ (Analysis.mk 0 0 0 0)).

Definition constructor (url jobId : string) : M t :=
  let* ts := now in
  ret (fresh url jobId ts).

(** [$(element).attr(name)] *)
Fixpoint attr (attrs : list (string * string)) (name : string) : option string :=
  match attrs with
  | [] => None
  | (k, v) :: attrs' => if String.eqb k name then Some v else attr attrs' name
  end.

Definition has_attr (e : Element) (name : string) : bool :=
  match attr (attribs e) name with Some _ => true | None => false end.

(** The attribute selector [[name=value]] for an attribute whose values
    HTML compares without regard to case, as [rel] is: the selector engine
    of cheerio tests [attr.length === value.length] and
    [attr.toLowerCase() === value.toLowerCase()]. *)
Definition attr_is (e : Element) (name value : string) : bool :=
  match attr (attribs e) name with
  | Some v =>
      Nat.eqb (String.length v) (String.length value)
      && String.eqb (lowercase v) (lowercase value)
  | None => false
  end.

(** [$('script[src]')] *)
Definition is_script_src (e : Element) : bool :=
  String.eqb (tagName e) "script" && has_attr e "src".

(** [$('link[rel=stylesheet]')]: [rel] is [stylesheet] in any mix of
    upper and lower case. *)
Definition is_stylesheet_link (e : Element) : bool :=
  String.eqb (tagName e) "link" && attr_is e "rel" "stylesheet".

Definition select (sel : Element -> bool) (doc : list Element) : list Element :=
  List.filter sel doc.

(** [src.startsWith('/') ? new URL(src, this.baseUrl).href : src] *)
Definition fullUrl (this : t) (src : string) : option string :=
  if startsWith src "/" then URL_href src (Some (baseUrl this)) else Some src.

(** The callback of the two [.each] loops (lines 79-90 and 93-104):
    [attrName] is [src] or [href], [placeholder] the name used when the
    reference has no last path segment. *)
Definition push_bundle (this : t) (ty : BundleType) (attrName placeholder : string)
    (element : Element) (bundles : list BundleInfo.t) : M (list BundleInfo.t) :=
  match attr (attribs element) attrName with
  | Some src =>
      if truthy src then
        match fullUrl this src with
        | Some u =>
            ret (bundles ++
                 [BundleInfo.mk u ty (or_else (split_pop "/" src) placeholder)])
        | None => throw "Invalid URL"
        end
      else ret bundles
  | None => ret bundles
  end.

(** Lines 75-104: the bundles of a parsed document. *)
Definition collect_bundles (this : t) (doc : list Element) : M (list BundleInfo.t) :=
  let* bundles := for_of (select is_script_src doc)
                         (push_bundle this js "src" "script.js") [] in
  for_of (select is_stylesheet_link doc)
         (push_bundle this css "href" "style.css") bundles.

Definition analyzeHTML (this : t) : M (list BundleInfo.t * t) :=
  try_catch
    (let* response := get (baseUrl this) 15000%N true in
     let doc := cheerio_load (data response) in
     let* bundles := collect_bundles this doc in
     let r := results this in
     let r := with_originalFiles (<["index.html" := data response]> (originalFiles r)) r in
     let r := with_bundles bundles r in
     ret (bundles, with_results r this))
    (fun _ => throw "Failed to analyze HTML structure").

(** [css.replace(/\{/g, ...) ... .trim()] (lines 181-190) *)
Definition beautifyCSS (css : string) : string :=
  let s := chars css in
  let s := replace_all (chr "{") (chars " {" ++ [LF] ++ chars "  ") s 0 in
  let s := replace_all (chr "}") ([LF] ++ chars "}" ++ [LF]) s 0 in
  let s := replace_all (chr ";") (chars ";" ++ [LF] ++ chars "  ") s 0 in
  let s := replace_all (chr ",") (chars "," ++ [LF] ++ chars "  ") s 0 in
  let s := replace_all blank_lines [LF] s 0 in
  str (trim s).

(** The body of the [while] loop of [extractReactComponents]: what one
    match pushes. *)
Definition component_of (sourceFile : string) (m : MatchResult)
  : list ExtractedComponent.t :=
  match m1 m with
  | Some (c :: cs) =>
      if Ascii.eqb c (toUpperCase c)
      then [ExtractedComponent.mk (str (c :: cs)) (str (m0 m)) sourceFile]
      else []
  | _ => []
  end.

Definition found_components (jsContent sourceFile : string)
  : list ExtractedComponent.t :=
  flat_map (fun pattern =>
              flat_map (component_of sourceFile)
                       (exec_all pattern (chars jsContent) 0))
           component_patterns.

Definition extractReactComponents (jsContent sourceFile : string)
    (r : DecompilationResult.t) : DecompilationResult.t :=
  let r := with_components (components r ++ found_components jsContent sourceFile) r in
  let a := analysis r in
  with_analysis
    (Analysis.mk (Analysis.jsFiles a) (Analysis.cssFiles a)
                 (length (components r)) (Analysis.modules a)) r.

Definition module_of (sourceFile : string) (m : MatchResult) : list ModuleInfo.t :=
  match m1 m with
  | Some (c :: cs) => [ModuleInfo.mk (str (c :: cs)) (str (m0 m)) sourceFile]
  | _ => []
  end.

Definition found_modules (jsContent sourceFile : string) : list ModuleInfo.t :=
  flat_map (fun pattern =>
              flat_map (module_of sourceFile)
                       (exec_all pattern (chars jsContent) 0))
           modulePatterns.

Definition extractModules (jsContent sourceFile : string)
    (r : DecompilationResult.t) : DecompilationResult.t :=
  let r := with_modules (modules r ++ found_modules jsContent sourceFile) r in
  let a := analysis r in
  with_analysis
    (Analysis.mk (Analysis.jsFiles a) (Analysis.cssFiles a)
                 (Analysis.components a) (length (modules r))) r.

Definition incr_jsFiles (r : DecompilationResult.t) : DecompilationResult.t :=
  let a := analysis r in
  with_analysis
    (Analysis.mk (S (Analysis.jsFiles a)) (Analysis.cssFiles a)
                 (Analysis.components a) (Analysis.modules a)) r.

Definition incr_cssFiles (r : DecompilationResult.t) : DecompilationResult.t :=
  let a := analysis r in
  with_analysis
    (Analysis.mk (Analysis.jsFiles a) (S (Analysis.cssFiles a))
                 (Analysis.components a) (Analysis.modules a)) r.

Definition downloadAndDecompileJS (bundle : BundleInfo.t) (this : t) : M t :=
  try_catch
    (let* response := get (BundleInfo.url bundle) 30000%N true in
     let jsContent := data response in
     let filename := BundleInfo.filename bundle in
     let r := results this in
     let r := with_originalFiles (<[filename := jsContent]> (originalFiles r)) r in
     match beautify jsContent with
     | Some beautifiedJs =>
         let r := with_beautifiedFiles
                    (<["beautified_" +:+ filename := beautifiedJs]> (beautifiedFiles r)) r in
         let r := incr_jsFiles r in
         let r := extractReactComponents beautifiedJs filename r in
         let r := extractModules beautifiedJs filename r in
         ret (with_results r this)
     | None =>
         let r := with_beautifiedFiles
                    (<["raw_" +:+ filename := jsContent]> (beautifiedFiles r)) r in
         ret (with_results r this)
     end)
    (fun _ => ret this).

Definition downloadAndDecompileCSS (bundle : BundleInfo.t) (this : t) : M t :=
  try_catch
    (let* response := get (BundleInfo.url bundle) 30000%N true in
     let cssContent := data response in
     let filename := BundleInfo.filename bundle in
     let r := results this in
     let r := with_originalFiles (<[filename := cssContent]> (originalFiles r)) r in
     let beautifiedCss := beautifyCSS cssContent in
     let r := with_beautifiedFiles
                (<["beautified_" +:+ filename := beautifiedCss]> (beautifiedFiles r)) r in
     let r := incr_cssFiles r in
     ret (with_results r this))
    (fun _ => ret this).

(** The text stored for a recovered source (line 277). *)
Definition recovered_text (originalUrl sourcePath content : string) : string :=
  "// Recovered from source map: " +:+ originalUrl +:+ str [LF] +:+
  "// Original path: " +:+ sourcePath +:+ str [LF; LF] +:+ content.

(** The body of the [for] loop of [extractFromSourceMap] at index [i]. *)
Definition recover_at (originalUrl : string)
    (sources sourcesContent : list (option string))
    (files : gmap string string) (i : nat) : gmap string string :=
  match mjoin (sources !! i), mjoin (sourcesContent !! i) with
  | Some sourcePath, Some content =>
      if truthy content && truthy sourcePath then
        let cleanPath :=
          replace_first "./" ""
            (replace_first "../" "" (replace_first "webpack://" "" sourcePath)) in
        let filename := "source_" +:+ or_else (split_pop "/" cleanPath) "unknown.js" in
        <[filename := recovered_text originalUrl sourcePath content]> files
      else files
  | _, _ => files
  end.

Definition extractFromSourceMap (sourceMap : SourceMapInfo.t) (originalUrl : string)
    (this : t) : t :=
  match SourceMapInfo.sources sourceMap, SourceMapInfo.sourcesContent sourceMap with
  | Some sources, Some sourcesContent =>
      let r := results this in
      let files := fold_left (recover_at originalUrl sources sourcesContent)
                             (seq 0 (length sources)) (originalFiles r) in
      with_results (with_originalFiles files r) this
  | _, _ => this
  end.

(** The body of the loop of [trySourceMapRecovery] (lines 247-259).
    [JSON.parse(response.data)] is applied to what axios handed: to the
    text of a body that is no JSON text, and to [String(value)] when the
    body was a JSON text and axios handed its value. *)
Definition recover_bundle (bundle : BundleInfo.t) (this : t) : M t :=
  match BundleInfo.type bundle with
  | js =>
      try_catch
        (let* response := get (BundleInfo.url bundle +:+ ".map") 10000%N false in
         if Nat.eqb (status response) 200 then
           match JSON_parse (data response) with
           | Some sourceMap =>
               ret (extractFromSourceMap sourceMap (BundleInfo.url bundle) this)
           | None => throw "Unexpected token in JSON"
           end
         else ret this)
        (fun _ => ret this)
  | css => ret this
  end.

Definition trySourceMapRecovery (this : t) : M t :=
  for_of (bundles (results this)) recover_bundle this.

Definition process_bundle (bundle : BundleInfo.t) (this : t) : M t :=
  match BundleInfo.type bundle with
  | js => downloadAndDecompileJS bundle this
  | css => downloadAndDecompileCSS bundle this
  end.

Definition runFullDecompilation (this : t) : M DecompilationResult.t :=
  try_catch
    (let* found := analyzeHTML this in
     let bundles := fst found in
     let this := snd found in
     if Nat.eqb (length bundles) 0 then throw "No bundles found to decompile"
     else
       let* this := trySourceMapRecovery this in
       let* this := for_of bundles process_bundle this in
       ret (results this))
    (fun error => throw error).

End Methods.
End WebDecompiler.

(* ===================================================================== *)
(** * The job registry ([lib/storage]) and the two request handlers *)
(* ===================================================================== *)

Module jobStorage.
Section Registry.
Context `{Platform}.

(** [storage.set(jobId, { ...result, timestamp: Date.now() })] *)
Definition save (jobId : string) (result : DecompilationResult.t)
    (storage : gmap string DecompilationResult.t) (w : World)
  : gmap string DecompilationResult.t :=
  <[jobId := DecompilationResult.with_timestamp (Date_now w) result]> storage.

(** [storage.get(jobId) || null] *)
Definition get (jobId : string) (storage : gmap string DecompilationResult.t)
  : option DecompilationResult.t :=
  storage !! jobId.

(** The comparison of [list]: [b.timestamp - a.timestamp] is not positive,
    the more recent record first. *)
Definition newer_first (a b : DecompilationResult.t) : Prop :=
  DecompilationResult.timestamp b <= DecompilationResult.timestamp a.

#[export] Instance newer_first_dec : RelDecision newer_first.
Proof. intros a b. unfold newer_first. apply _. Defined.

(** [storage.clear()] *)
Definition clear (storage : gmap string DecompilationResult.t)
  : gmap string DecompilationResult.t := ∅.

(** [storage.delete(jobId)]: whether the key was there, and the map
    without it. *)
Definition delete (jobId : string) (storage : gmap string DecompilationResult.t)
  : bool * gmap string DecompilationResult.t :=
  (bool_decide (is_Some (storage !! jobId)), base.delete jobId storage).

(** [Array.from(storage.values()).sort((a, b) => b.timestamp - a.timestamp)].
    The records are enumerated in the order of the keys of the map, not in
    the order of their insertion: the order among records of one timestamp
    is not the one of the source. *)
Definition list (storage : gmap string DecompilationResult.t)
  : Datatypes.list DecompilationResult.t :=
  merge_sort newer_first (snd <$> map_to_list storage).

End Registry.
End jobStorage.

Module DecompilationRequest.
(** A field that is missing from the body is the empty string here: both
    are rejected by the first test of [POST]. *)
Record t : Type := mk { url : string; jobId : string }.
End DecompilationRequest.

(** What [POST] answers. *)
Inductive PostResponse : Type :=
| PostError (status : nat) (error : string) (details : option string)
| PostSuccess (jobId : string) (jsFiles cssFiles components modules bundles files : nat).

Inductive Category : Type := original | beautified | components_category.

Record FileItem : Type := mkFileItem {
  item_name : string;
  item_size : nat;
  item_category : Category
}.

(** The files of a result record are plain objects: a name that is no
    key of such an object is still read when [Object.prototype] has a
    property of that name. *)
Module PlainObject.
Import Js.

(** The properties of [Object.prototype], each with its [length]: the
    number of parameters of a method; the accessor [__proto__] gives the
    prototype itself, an object without a [length]. *)
Definition prototype : list (string * option nat) :=
  [("constructor", Some 1); ("__defineGetter__", Some 2);
   ("__defineSetter__", Some 2); ("hasOwnProperty", Some 1);
   ("__lookupGetter__", Some 1); ("__lookupSetter__", Some 1);
   ("isPrototypeOf", Some 1); ("propertyIsEnumerable", Some 1);
   ("toString", Some 0); ("valueOf", Some 0); ("__proto__", None);
   ("toLocaleString", Some 0)].

Fixpoint find {A} (name : string) (table : list (string * A)) : option A :=
  match table with
  | [] => None
  | (k, v) :: table' => if String.eqb k name then Some v else find name table'
  end.

(** What [files[name]] is when it is not [undefined]: the text under the
    key [name], or else the property the object inherits. *)
Inductive Property : Type :=
| OwnText (text : string)
| Inherited (length : option nat).

(** [files[name]] *)
Definition get (files : gmap string string) (name : string) : option Property :=
  match files !! name with
  | Some text => Some (OwnText text)
  | None => Inherited <$> find name prototype
  end.

(** A property in a boolean position: a method and the prototype are
    objects, which count as true. *)
Definition truthy_property (p : Property) : bool :=
  match p with
  | OwnText text => truthy text
  | Inherited _ => true
  end.

End PlainObject.

(** What [GET] of the files endpoint answers.  [GetProperty] is the file
    answer for an inherited property: its content is no text (the JSON of
    the answer leaves a method out), its size is the [length] of the
    property, left out as well when there is none. *)
Inductive GetResponse : Type :=
| GetError (status : nat) (error : string)
| GetFile (name content : string) (category : Category) (size : nat)
| GetProperty (name : string) (category : Category) (size : option nat)
| GetListing (jobId url : string) (files : list FileItem)
             (analysis : Analysis.t) (bundles : list BundleInfo.t).

Module Handlers.
Import Js Exc.
Section Handlers.
Context `{Platform}.

(** Lines 334-335: a fresh decompiler object, run once. *)
Definition run_job (url jobId : string) : M DecompilationResult.t :=
  let* decompiler := WebDecompiler.constructor url jobId in
  WebDecompiler.runFullDecompilation decompiler.

(** [POST] of [route.ts] (lines 312-363), on a parsed body. *)
Definition POST (body : DecompilationRequest.t)
    (storage : gmap string DecompilationResult.t) (w : World)
  : PostResponse * gmap string DecompilationResult.t * World :=
  let url := DecompilationRequest.url body in
  let jobId := DecompilationRequest.jobId body in
  if negb (truthy url) || negb (truthy jobId) then
    (PostError 400 "URL and jobId are required" None, storage, w)
  else
    match URL_href url None with
    | None => (PostError 400 "Invalid URL provided" None, storage, w)
    | Some _ =>
        match run_job url jobId w with
        | (Ok results, w') =>
            let a := DecompilationResult.analysis results in
            (PostSuccess jobId
               (Analysis.jsFiles a) (Analysis.cssFiles a)
               (Analysis.components a) (Analysis.modules a)
               (length (DecompilationResult.bundles results))
               (size (DecompilationResult.originalFiles results)
                + size (DecompilationResult.beautifiedFiles results)),
             jobStorage.save jobId results storage w', w')
        | (Throw message, w') =>
            (PostError 500 "Decompilation failed" (Some message), storage, w')
        end
    end.

(** [files[name]] in a boolean position, then read: a key whose content is
    the empty string counts as absent, and a name that is no key counts as
    present when the object inherits a property of that name. *)
Definition lookup_truthy (files : gmap string string) (name : string)
  : option PlainObject.Property :=
  match PlainObject.get files name with
  | Some content =>
      if PlainObject.truthy_property content then Some content else None
  | None => None
  end.

(** The file answer (lines 47-55): [content.length] is the length of a
    text, and the [length] of an inherited property. *)
Definition serve (name : string) (content : PlainObject.Property)
    (category : Category) : GetResponse :=
  match content with
  | PlainObject.OwnText text => GetFile name text category (String.length text)
  | PlainObject.Inherited length => GetProperty name category length
  end.

Definition component_item (index : nat) (c : ExtractedComponent.t) : FileItem :=
  mkFileItem (ExtractedComponent.name c +:+ "_" +:+ pretty index +:+ ".jsx")
             (String.length (ExtractedComponent.code c)) components_category.

(** Lines 58-98 of the files endpoint: the listing.  The order in which
    the keys of the two maps are enumerated is not modelled. *)
Definition listing (jobId : string) (result : DecompilationResult.t) : GetResponse :=
  let files :=
    map (fun kv => mkFileItem (fst kv) (String.length (snd kv)) original)
        (map_to_list (DecompilationResult.originalFiles result)) ++
    map (fun kv => mkFileItem (fst kv) (String.length (snd kv)) beautified)
        (map_to_list (DecompilationResult.beautifiedFiles result)) ++
    imap component_item (DecompilationResult.components result) in
  GetListing jobId (DecompilationResult.url result) files
             (DecompilationResult.analysis result)
             (DecompilationResult.bundles result).

(** [if (fileName)]: the query parameter is present and not empty. *)
Definition requested (fileName : option string) : option string :=
  match fileName with
  | Some name => if truthy name then Some name else None
  | None => None
  end.

(** [GET] of the files endpoint (the route that serves the files of a
    job); [fileName] is the query parameter [file]. *)
Definition GET (storage : gmap string DecompilationResult.t)
    (jobId : string) (fileName : option string) : GetResponse :=
  match jobStorage.get jobId storage with
  | None => GetError 404 "Job not found"
  | Some result =>
      match requested fileName with
      | Some name =>
          match lookup_truthy (DecompilationResult.originalFiles result) name with
          | Some content => serve name content original
          | None =>
              match lookup_truthy (DecompilationResult.beautifiedFiles result) name with
              | Some content => serve name content beautified
              | None => GetError 404 "File not found"
              end
          end
      | None => listing jobId result
      end
  end.

End Handlers.
End Handlers.

(* ===================================================================== *)
(** * Notions of the specification *)
(* ===================================================================== *)

Module Spec.
Import Chars Js Exc.
Section Notions.
Context `{Platform}.

Fixpoint scheme_rest (l : list ascii) : bool :=
  match l with
  | [] => false
  | c :: l' =>
      if is_char ":" c then true
      else if is_alnum c || is_char "+" c || is_char "-" c || is_char "." c
           then scheme_rest l'
           else false
  end.

(** An absolute URL starts with a scheme and a colon (RFC 3986, 3.1 and
    4.3): a letter, then letters, digits, [+], [-] or [.], then [:]. *)
Definition is_absolute_URL (u : string) : bool :=
  match chars u with
  | c :: l => (is_lower c || is_upper c) && scheme_rest l
  | [] => false
  end.

(** Discovery as section 4.1 words it: one pass over the document, each
    script or stylesheet reference taken where it stands. *)
Definition discover_in_document_order (this : WebDecompiler.t) (doc : list Element)
  : M (list BundleInfo.t) :=
  for_of doc
    (fun e bundles =>
       if WebDecompiler.is_script_src e
       then WebDecompiler.push_bundle this js "src" "script.js" e bundles
       else if WebDecompiler.is_stylesheet_link e
       then WebDecompiler.push_bundle this css "href" "style.css" e bundles
       else ret bundles)
    [].

Definition is_type (ty : BundleType) (b : BundleInfo.t) : bool :=
  match ty, BundleInfo.type b with
  | js, js | css, css => true
  | _, _ => false
  end.

(** The bundles of kind [ty] that have an entry in the beautified-files
    map, under either prefix (section 3, BeautifiedAsset). *)
Definition recorded (ty : BundleType) (r : DecompilationResult.t) : nat :=
  length
    (List.filter
       (fun b => is_type ty b &&
                 (bool_decide (is_Some (DecompilationResult.beautifiedFiles r
                                          !! ("beautified_" +:+ BundleInfo.filename b)))
                  || bool_decide (is_Some (DecompilationResult.beautifiedFiles r
                                          !! ("raw_" +:+ BundleInfo.filename b)))))
       (DecompilationResult.bundles r)).

(** The bundles of kind [ty], among [bs], stored under the [beautified_]
    prefix in [files]. *)
Definition stored_beautified (ty : BundleType) (bs : list BundleInfo.t)
    (files : gmap string string) : nat :=
  length
    (List.filter
       (fun b => is_type ty b &&
                 bool_decide (is_Some (files !! ("beautified_" +:+ BundleInfo.filename b))))
       bs).

(** The two counters that are recomputed from their lists. *)
Definition counters_ok (r : DecompilationResult.t) : Prop :=
  Analysis.components (DecompilationResult.analysis r) = length (DecompilationResult.components r) /\
  Analysis.modules (DecompilationResult.analysis r) = length (DecompilationResult.modules r).

(** What processing one bundle can do to the result record. *)
Inductive bundle_effect (b : BundleInfo.t) (r r' : DecompilationResult.t) : Prop :=
| Dropped : r' = r -> bundle_effect b r r'
| Beautified (text : string) :
    DecompilationResult.beautifiedFiles r' =
      <["beautified_" +:+ BundleInfo.filename b := text]> (DecompilationResult.beautifiedFiles r) ->
    Analysis.jsFiles (DecompilationResult.analysis r') =
      Analysis.jsFiles (DecompilationResult.analysis r) + (if is_type js b then 1 else 0) ->
    Analysis.cssFiles (DecompilationResult.analysis r') =
      Analysis.cssFiles (DecompilationResult.analysis r) + (if is_type css b then 1 else 0) ->
    bundle_effect b r r'
| Raw (text : string) :
    DecompilationResult.beautifiedFiles r' =
      <["raw_" +:+ BundleInfo.filename b := text]> (DecompilationResult.beautifiedFiles r) ->
    Analysis.jsFiles (DecompilationResult.analysis r') = Analysis.jsFiles (DecompilationResult.analysis r) ->
    Analysis.cssFiles (DecompilationResult.analysis r') = Analysis.cssFiles (DecompilationResult.analysis r) ->
    bundle_effect b r r'.

(** Every key of the beautified-files map was written for one of the
    bundles [bs], under one of the two prefixes. *)
Definition keys_from (bs : list BundleInfo.t) (files : gmap string string) : Prop :=
  forall k, is_Some (files !! k) ->
    exists b, b ∈ bs /\
      (k = "beautified_" +:+ BundleInfo.filename b \/
       k = "raw_" +:+ BundleInfo.filename b).

(** The file counters agree with the [beautified_] entries of [bs]. *)
Definition file_counters_ok (bs : list BundleInfo.t) (r : DecompilationResult.t) : Prop :=
  Analysis.jsFiles (DecompilationResult.analysis r)
    = stored_beautified js bs (DecompilationResult.beautifiedFiles r) /\
  Analysis.cssFiles (DecompilationResult.analysis r)
    = stored_beautified css bs (DecompilationResult.beautifiedFiles r).

(** The bundle [b] is the one created for the reference that [element]
    carries in its attribute [attrName]. *)
Definition describes (this : WebDecompiler.t) (ty : BundleType)
    (attrName placeholder : string) (element : Element) (b : BundleInfo.t) : Prop :=
  exists ref,
    WebDecompiler.attr (attribs element) attrName = Some ref /\
    WebDecompiler.fullUrl this ref = Some (BundleInfo.url b) /\
    BundleInfo.type b = ty /\
    BundleInfo.filename b = or_else (split_pop "/" ref) placeholder.

(** Every reference of [elements] is usable: not empty, and resolvable. *)
Definition all_resolvable (this : WebDecompiler.t) (attrName : string)
    (elements : list Element) : Prop :=
  forall element ref,
    element ∈ elements ->
    WebDecompiler.attr (attribs element) attrName = Some ref ->
    ref <> "" /\ is_Some (WebDecompiler.fullUrl this ref).




(** Nothing, or a character outside the class [p], comes first. *)
Definition starts_outside (p : ascii -> bool) (l : list ascii) : Prop :=
  match l with
  | [] => True
  | c :: _ => p c = false
  end.

End Notions.
End Spec.

(** Unfolding the operations of the monad. *)
Ltac unfold_monad :=
  unfold Exc.bind, Exc.ret, Exc.throw, Exc.try_catch, Exc.get, Exc.now in *.

(* ===================================================================== *)
(** * A platform for examples: a site given by tables *)
(* ===================================================================== *)

Module Fake.
Import Chars Js.

Record Site : Type := mkSite {
  (** the answers of the URLs that answer, status and body; a request for
      any other URL fails *)
  pages : list (string * Response);
  (** the parse of the root document *)
  document : list Element;
  (** the formatter *)
  formatter : string -> option string;
  (** the JSON texts of the site, and the source maps they parse as *)
  source_maps : list (string * SourceMapInfo.t)
}.

Fixpoint assoc {A} (k : string) (l : list (string * A)) : option A :=
  match l with
  | [] => None
  | (k', v) :: l' => if String.eqb k' k then Some v else assoc k l'
  end.

(** Scheme and authority of a URL: up to the third slash. *)
Fixpoint take_origin (slashes : nat) (l : list ascii) : list ascii :=
  match l with
  | [] => []
  | c :: l' =>
      if is_char "/" c then
        match slashes with
        | O => []
        | S n => c :: take_origin n l'
        end
      else c :: take_origin slashes l'
  end.

(** Resolution for the simple cases of the examples: an absolute input is
    kept, a path-absolute input replaces the path of the base. *)
Definition href (input : string) (base : option string) : option string :=
  if Spec.is_absolute_URL input then Some input
  else match base with
       | Some b =>
           if startsWith input "/"
           then Some (str (take_origin 2 (chars b)) +:+ input)
           else Some (b +:+ input)
       | None => None
       end.

(** The default [transformResponse] of axios on an answer of the site: a
    body that is one of the JSON texts of the site, all of them objects, is
    handed parsed and shows as [[object Object]]; any other body is handed
    as its text. *)
Definition handed (site : Site) (answer : Response) : Response :=
  match payload answer with
  | Text body =>
      match assoc body (source_maps site) with
      | Some _ => mkResponse (status answer) (Parsed "[object Object]")
      | None => answer
      end
  | Parsed _ => answer
  end.

(** The world counts the requests made; the clock shows that count. *)
Definition platform (site : Site) : Platform := {|
  World := nat;
  axios_get := fun url _ _ w => (handed site <$> assoc url (pages site), S w);
  URL_href := href;
  cheerio_load := fun _ => document site;
  beautify := formatter site;
  JSON_parse := fun text => assoc text (source_maps site);
  Date_now := fun w => w
|}.

Definition script (src : string) : Element := mkElement "script" [("src", src)].
Definition stylesheet (h : string) : Element :=
  mkElement "link" [("rel", "stylesheet"); ("href", h)].
Definition ok_page (body : string) : Response := mkResponse 200 (Text body).

End Fake.

(* ===================================================================== *)
(** * Example sites and jobs *)
(* ===================================================================== *)

Module Examples.
Import Chars Js Fake.

Definition root : string := "https://example.com/".

(** A root document whose only asset is a style sheet with an empty body. *)
Definition empty_stylesheet_site : Site :=
  mkSite [(root, ok_page "<link rel=stylesheet href=/style.css>");
          ("https://example.com/style.css", ok_page "")]
         [stylesheet "/style.css"]
         (fun s => Some s) [].

(** The registry after that site was submitted as job [job1]. *)
Definition registry_after_empty_stylesheet : gmap string DecompilationResult.t :=
  snd (fst (@Handlers.POST (platform empty_stylesheet_site)
              (DecompilationRequest.mk root "job1") ∅ 0)).

(** A document that names its script by a path relative to the document. *)
Definition relative_script_doc : list Element := [script "js/app.js"].

(** A decompiler for a root URL that ends in a directory. *)
Definition app_decompiler (results : DecompilationResult.t) : WebDecompiler.t :=
  WebDecompiler.mk "https://example.com/app/" results.

(** A document with its style sheet in the head and its script at the end
    of the body. *)
Definition stylesheet_first_doc : list Element :=
  [stylesheet "/style.css"; script "/bundle.js"].

Definition stylesheet_first_site : Site :=
  mkSite [(root, ok_page "<link rel=stylesheet href=/style.css><script src=/bundle.js>");
          ("https://example.com/bundle.js",
           ok_page "function Header(){return jsx}");
          ("https://example.com/style.css", ok_page "a{b:c;d:e}")]
         stylesheet_first_doc
         (fun s => Some s) [].





(** A site whose root document cannot be retrieved. *)
Definition unreachable_site : Site := mkSite [] [] (fun s => Some s) [].


(** A root document with one script on which the formatter throws. *)
Definition unformattable_script_site : Site :=
  mkSite [(root, ok_page "<script src=/bundle.js>");
          ("https://example.com/bundle.js", ok_page "function Header(){return jsx}")]
         [script "/bundle.js"]
         (fun _ => None) [].

(** Two scripts with the same file name; only the second one answers. *)
Definition same_name_scripts_site : Site :=
  mkSite [(root, ok_page "<script src=/a/app.js></script><script src=/b/app.js></script>");
          ("https://example.com/b/app.js", ok_page "var b = 1;")]
         [script "/a/app.js"; script "/b/app.js"]
         (fun s => Some s) [].

Definition bundle_js : BundleInfo.t :=
  BundleInfo.mk "https://example.com/bundle.js" js "bundle.js".

Definition style_css : BundleInfo.t :=
  BundleInfo.mk "https://example.com/style.css" css "style.css".

(** The record a run returned, if it returned one. *)
Definition returned (run : Outcome DecompilationResult.t * nat)
  : option DecompilationResult.t :=
  match run with
  | (Ok r, _) => Some r
  | (Throw _, _) => None
  end.

(** The result of the job for [stylesheet_first_site]. *)
Definition stylesheet_first_result : DecompilationResult.t :=
  DecompilationResult.mk "job1" root 0 [bundle_js; style_css]
    [ExtractedComponent.mk "Header" "function Header(){return jsx}" "bundle.js"] []
    (<["style.css" := "a{b:c;d:e}"]>
       (<["bundle.js" := "function Header(){return jsx}"]>
          {["index.html" := "<link rel=stylesheet href=/style.css><script src=/bundle.js>"]}))
    (<["beautified_style.css" := WebDecompiler.beautifyCSS "a{b:c;d:e}"]>
       {["beautified_bundle.js" := "function Header(){return jsx}"]})
    (Analysis.mk 1 1 1 0).


End Examples.

(* ===================================================================== *)
(** * The download endpoint and the file explorer *)
(* ===================================================================== *)

Module Report.
(** The object written to [analysis_report.json]. *)
Record t : Type := mk {
  url : string;
  timestamp : string;
  analysis : Analysis.t;
  bundles : list BundleInfo.t;
  totalFiles : nat;
  extractedComponents : nat;
  extractedModules : nat
}.
End Report.

(** What the download endpoint takes from the runtime. *)
Class Renderer : Type := {
  (** [JSON.stringify(result.modules, null, 2)] *)
  JSON_stringify_modules : list ModuleInfo.t -> string;
  (** [JSON.stringify(reportContent, null, 2)] *)
  JSON_stringify_report : Report.t -> string;
  (** [new Date(timestamp).toISOString()] *)
  Date_toISOString : nat -> string;
  (** [new Date(timestamp).toLocaleString()] *)
  Date_toLocaleString : nat -> string;
  (** [new URL(url).hostname]; [None]: the constructor throws. *)
  URL_hostname : string -> option string
}.

(** What [GET] of the download endpoint answers: an error, or the archive
    (its file entries, by path) under a file name.  The folder entries of
    the archive and its bytes are not modelled. *)
Inductive DownloadResponse : Type :=
| DownloadError (status : nat) (error : string)
| DownloadZip (filename : string) (zip : gmap string string).

Module Download.
Import Chars Regex Js.
Section Route.
Context `{Renderer}.

(** [folder.file(filename, content)] for every entry of [files]; [folder]
    is the path of the folder with its closing slash. *)
Definition add_folder (folder : string) (files zip : gmap string string)
  : gmap string string :=
  map_fold (fun filename content z => <[folder +:+ filename := content]> z) zip files.

Definition component_filename (index : nat) (component : ExtractedComponent.t)
  : string :=
  ExtractedComponent.name component +:+ "_" +:+ pretty index +:+ ".jsx".

Definition component_text (component : ExtractedComponent.t) : string :=
  "// Extracted from: " +:+ ExtractedComponent.source component +:+ String LF
  ("// Component: " +:+ ExtractedComponent.name component +:+ String LF (String LF
  (ExtractedComponent.code component))).

(** [result.components.forEach((component, index) => ...)], from [index]
    on. *)
Fixpoint add_components (index : nat) (components : list ExtractedComponent.t)
    (zip : gmap string string) : gmap string string :=
  match components with
  | [] => zip
  | component :: rest =>
      add_components (S index) rest
        (<["extracted/components/" +:+ component_filename index component
           := component_text component]> zip)
  end.

Definition reportContent (result : DecompilationResult.t) : Report.t :=
  Report.mk (DecompilationResult.url result)
    (Date_toISOString (DecompilationResult.timestamp result))
    (DecompilationResult.analysis result)
    (DecompilationResult.bundles result)
    (size (DecompilationResult.originalFiles result)
     + size (DecompilationResult.beautifiedFiles result))
    (length (DecompilationResult.components result))
    (length (DecompilationResult.modules result)).

(** The lines of a template, each closed by a line feed. *)
Definition template (ls : Datatypes.list string) : string :=
  fold_right (fun l acc => l +:+ String LF acc) "" ls.

Definition readmeContent (result : DecompilationResult.t) : string :=
  let a := DecompilationResult.analysis result in
  template
    ["# Decompilation Results";
     "";
     "Source URL: " +:+ DecompilationResult.url result;
     "Generated: " +:+ Date_toLocaleString (DecompilationResult.timestamp result);
     "";
     "## Analysis Summary";
     "- JavaScript files: " +:+ pretty (Analysis.jsFiles a);
     "- CSS files: " +:+ pretty (Analysis.cssFiles a);
     "- React components: " +:+ pretty (Analysis.components a);
     "- Modules: " +:+ pretty (Analysis.modules a);
     "";
     "## Structure";
     "- `original/` - Original minified files";
     "- `beautified/` - Beautified versions";
     "- `extracted/components/` - Extracted React components";
     "- `extracted/modules/` - Module information";
     "- `analysis_report.json` - Detailed analysis";
     "";
     "## Note";
     "This is a best-effort decompilation. Some functionality may be missing or incomplete."].

(** The archive before [generateAsync] (lines 20-84). *)
Definition build_zip (result : DecompilationResult.t) : gmap string string :=
  let zip := add_folder "original/" (DecompilationResult.originalFiles result) ∅ in
  let zip := add_folder "beautified/" (DecompilationResult.beautifiedFiles result) zip in
  let zip := add_components 0 (DecompilationResult.components result) zip in
  let zip := <["extracted/modules/modules.json"
               := JSON_stringify_modules (DecompilationResult.modules result)]> zip in
  let zip := <["analysis_report.json" := JSON_stringify_report (reportContent result)]> zip in
  <["README.md" := readmeContent result]> zip.

(** [hostname.replace(/[^a-zA-Z0-9]/g, '_')] *)
Definition sanitize (hostname : string) : string :=
  str (replace_all (Cls (fun c => negb (is_alnum c))) (chars "_") (chars hostname) 0).

(** [GET] of the download endpoint.  Every exception ends in the status
    500; the one the model keeps is the one of [new URL(result.url)].  The
    contents of the record are texts, as its type declares them; on a
    content that is no text [generateAsync] would reject, with the status
    500 as well. *)
Definition GET (storage : gmap string DecompilationResult.t) (jobId : string)
  : DownloadResponse :=
  match jobStorage.get jobId storage with
  | None => DownloadError 404 "Job not found"
  | Some result =>
      let zip := build_zip result in
      match URL_hostname (DecompilationResult.url result) with
      | Some hostname =>
          DownloadZip ("decompiled_" +:+ sanitize hostname +:+ "_" +:+ jobId +:+ ".zip") zip
      | None => DownloadError 500 "Failed to generate download"
      end
  end.

End Route.
End Download.

Module FileExplorer.
Import Js.

(** The icons of [getFileIcon], by the name of their component. *)
Inductive Icon : Type := FileCode | Palette | Code | Package | FileText.

Definition is_components (category : Category) : bool :=
  match category with components_category => true | _ => false end.

Definition getFileIcon (fileName : string) (category : Category) : Icon :=
  if endsWith fileName ".js" || endsWith fileName ".jsx" then FileCode
  else if endsWith fileName ".css" then Palette
  else if endsWith fileName ".html" then Code
  else if is_components category then Package
  else FileText.

Definition same_category (a b : Category) : bool :=
  match a, b with
  | original, original | beautified, beautified
  | components_category, components_category => true
  | _, _ => false
  end.

(** [filterFilesByCategory]; [jobData] is [None] until the listing has been
    loaded. *)
Definition filterFilesByCategory (jobData : option (Datatypes.list FileItem))
    (category : Category) : Datatypes.list FileItem :=
  match jobData with
  | None => []
  | Some files => List.filter (fun file => same_category (item_category file) category) files
  end.

(** [(num / den).toFixed(1)] for [den] a power of two and [num] below
    2^53: the quotient is then exact, and its decimal text with one digit
    after the point is that of the nearest tenth, the larger one of two
    nearest ones. *)
Definition toFixed1 (num den : N) : string :=
  let n := ((10 * num + den / 2) / den)%N in
  pretty (n / 10)%N +:+ "." +:+ pretty (n mod 10)%N.

(** [formatFileSize]; a size that is missing is [None].  The sizes are
    lengths of texts, which are below 2^53. *)
Definition formatFileSize (size : option nat) : string :=
  match size with
  | None => "Unknown"
  | Some size =>
      let size := N.of_nat size in
      if (size =? 0)%N then "Unknown"
      else if (size <? 1024)%N then pretty size +:+ " B"
      else if (size <? 1024 * 1024)%N then toFixed1 size 1024 +:+ " KB"
      else toFixed1 size (1024 * 1024) +:+ " MB"
  end.

(** The files of a listing answer, as the explorer keeps them. *)
Definition files_of (response : GetResponse) : option (Datatypes.list FileItem) :=
  match response with
  | GetListing _ _ files _ _ => Some files
  | _ => None
  end.

End FileExplorer.

(** Properties of texts used in the statements below. *)
Module Text.
Import Chars Js.

(** No slash in [s]. *)
Definition no_slash (s : string) : Prop :=
  forallb (not_char "/") (chars s) = true.

(** Only letters, digits and underscores in [s]. *)
Definition word_chars (s : string) : Prop :=
  forallb (fun c => is_alnum c || is_char "_" c) (chars s) = true.

(** Only decimal digits in [s]. *)
Definition digits (s : string) : Prop :=
  forallb is_digit (chars s) = true.

(** [l] holds a line feed, blanks, and a line feed again. *)
Definition has_blank_line (l : Datatypes.list ascii) : Prop :=
  exists pre ws post,
    forallb is_space ws = true /\ l = pre ++ [LF] ++ ws ++ [LF] ++ post.

(** No line feed before the first character that is not white space. *)
Fixpoint calm (l : Datatypes.list ascii) : bool :=
  match l with
  | [] => true
  | c :: l' =>
      if is_char LF c then false else if is_space c then calm l' else true
  end.

(** Scanning for a blank line; [seen]: a line feed has been passed, and
    white space only since. *)
Fixpoint blank_free (seen : bool) (l : Datatypes.list ascii) : bool :=
  match l with
  | [] => true
  | c :: l' =>
      if is_char LF c then (if seen then false else blank_free true l')
      else if is_space c then blank_free seen l'
      else blank_free false l'
  end.

End Text.

(** Examples for the registry, the files endpoint and the download
    endpoint. *)
Module MoreExamples.
Import Chars Js Fake Examples.

(** A URL constructor that rejects a reference with an empty host. *)
Definition strict_href (input : string) (base : option string) : option string :=
  if String.eqb input "//" then None else href input base.

Definition strict_platform (site : Site) : Platform := {|
  World := nat;
  axios_get := fun url _ _ w => (handed site <$> assoc url (pages site), S w);
  URL_href := strict_href;
  cheerio_load := fun _ => document site;
  beautify := formatter site;
  JSON_parse := fun text => assoc text (source_maps site);
  Date_now := fun w => w
|}.

(** A root document whose second script has a source without a host. *)
Definition empty_host_site : Site :=
  mkSite [(root, ok_page "<script src=/bundle.js></script><script src=//></script>")]
         [script "/bundle.js"; script "//"]
         (fun s => Some s) [].

(** A text between double quotes. *)
Definition quoted (s : string) : string := String DQUOTE (s +:+ String DQUOTE "").

(** The JSON text of a source map with the one source [./src/App.js]. *)
Definition App_map_json : string :=
  "{" +:+ quoted "version" +:+ ":3," +:+
  quoted "sources" +:+ ":[" +:+ quoted "./src/App.js" +:+ "]," +:+
  quoted "sourcesContent" +:+ ":[" +:+ quoted "export default App" +:+ "]}".

(** What [JSON.parse] makes of that text. *)
Definition App_map : SourceMapInfo.t :=
  SourceMapInfo.mk (Some [Some "./src/App.js"]) (Some [Some "export default App"]).

(** A root document with one script, which is retrieved, and next to the
    script its source map, which is retrieved too. *)
Definition source_map_site : Site :=
  mkSite [(root, ok_page "<script src=/bundle.js>");
          ("https://example.com/bundle.js", ok_page "function Header(){return jsx}");
          ("https://example.com/bundle.js.map", ok_page App_map_json)]
         [script "/bundle.js"]
         (fun s => Some s)
         [(App_map_json, App_map)].

(** A document whose style sheet is linked with a capital letter in
    [rel]. *)
Definition capital_rel_doc : list Element :=
  [mkElement "link" [("rel", "Stylesheet"); ("href", "/upper.css")]].

(** The answer, the registry and the world after [stylesheet_first_site]
    was submitted as job [job1]. *)
Definition submitted : PostResponse * gmap string DecompilationResult.t * nat :=
  @Handlers.POST (platform stylesheet_first_site)
     (DecompilationRequest.mk root "job1") ∅ 0.

Definition registry : gmap string DecompilationResult.t := snd (fst submitted).

(** The record of that job as the registry holds it. *)
Definition stored_result : DecompilationResult.t :=
  DecompilationResult.with_timestamp 4 stylesheet_first_result.

(** The component of that job. *)
Definition Header : ExtractedComponent.t :=
  ExtractedComponent.mk "Header" "function Header(){return jsx}" "bundle.js".

(** The record of a job whose only asset is a style sheet with an empty
    body. *)
Definition empty_stylesheet_result : DecompilationResult.t :=
  DecompilationResult.mk "job1" root 0 [style_css] [] []
    (<["style.css" := ""]> {["index.html" := "<link rel=stylesheet href=/style.css>"]})
    {["beautified_style.css" := ""]}
    (Analysis.mk 0 1 0 0).

(** The host of an absolute URL without port and user: what stands between
    the second and the third slash. *)
Definition hostname (u : string) : option string :=
  if Spec.is_absolute_URL u
  then Some (split_pop "/" (str (take_origin 2 (chars u))))
  else None.

(** A renderer that writes counts and numbers where the runtime writes
    JSON and dates. *)
Definition renderer : Renderer := {|
  JSON_stringify_modules := fun modules => "modules: " +:+ pretty (length modules);
  JSON_stringify_report := fun report => "report: " +:+ Report.url report;
  Date_toISOString := pretty;
  Date_toLocaleString := pretty;
  URL_hostname := hostname
|}.

End MoreExamples.

(* ===================================================================== *)
(** * The matcher against the declarative reading *)
(* ===================================================================== *)

Section RegexFacts.
Import Chars Regex.

Lemma consumed_app (w s' : list ascii) : consumed (w ++ s') s' = w.
Proof.
  unfold consumed. rewrite length_app.
  replace (length w + length s' - length s') with (length w) by lia.
  apply take_app_length.
Qed.

Lemma star_cls_sound {R} p s (k : list ascii -> option R) x :
  star_cls p s k = Some x ->
  exists w s', s = w ++ s' /\ forallb p w = true /\ k s' = Some x.
Proof.
  induction s as [|a s IH]; simpl.
  - intros Hk. exists [], []. auto.
  - destruct (p a) eqn:Hp.
    + destruct (star_cls p s k) as [y|] eqn:Hs.
      * intros [= ->]. destruct (IH eq_refl) as (w & s' & -> & Hw & Hk).
        exists (a :: w), s'. simpl. rewrite Hp, Hw. auto.
      * intros Hk. exists [], (a :: s). auto.
    + intros Hk. exists [], (a :: s). auto.
Qed.


(** Every answer of the matcher comes from a word of the language. *)
Lemma rmatch_sound {R} r : forall s cap (k : _ -> _ -> option R) x,
  rmatch r s cap k = Some x ->
  exists w s' cap', s = w ++ s' /\ Lang r w cap cap' /\ k s' cap' = Some x.
Proof.
  induction r as [|p|r1 IH1 r2 IH2|r1 IH1 r2 IH2|r1 IH1|p|r1 IH1];
    simpl; intros s cap k x Hm.
  - exists [], s, cap. split; [done|]. split; [constructor|done].
  - destruct s as [|c s]; [done|]. destruct (p c) eqn:Hp; [|done].
    exists [c], s, cap. split; [done|]. split; [by constructor|done].
  - apply IH1 in Hm as (w1 & s1 & c1 & -> & HL1 & Hm).
    apply IH2 in Hm as (w2 & s2 & c2 & -> & HL2 & Hm).
    exists (w1 ++ w2), s2, c2. rewrite <- app_assoc.
    split; [done|]. split; [by econstructor|done].
  - destruct (rmatch r1 s cap k) as [y|] eqn:H1.
    + injection Hm as ->. apply IH1 in H1 as (w & s' & c' & -> & HL & Hk).
      exists w, s', c'. split; [done|]. split; [by apply LAltL|done].
    + apply IH2 in Hm as (w & s' & c' & -> & HL & Hk).
      exists w, s', c'. split; [done|]. split; [by apply LAltR|done].
  - destruct (rmatch r1 s cap k) as [y|] eqn:H1.
    + injection Hm as ->. apply IH1 in H1 as (w & s' & c' & -> & HL & Hk).
      exists w, s', c'. split; [done|]. split; [by apply LOptS|done].
    + exists [], s, cap. split; [done|]. split; [apply LOptN|done].
  - apply star_cls_sound in Hm as (w & s' & -> & Hw & Hk).
    exists w, s', cap. split; [done|]. split; [by constructor|done].
  - apply IH1 in Hm as (w & s' & c' & -> & HL & Hk).
    rewrite consumed_app in Hk.
    exists w, s', (Some w). split; [done|]. split; [by econstructor|done].
Qed.


Lemma match_at_sound r s rest cap :
  match_at r s = Some (rest, cap) ->
  exists w, s = w ++ rest /\ Lang r w None cap.
Proof.
  unfold match_at. intros Hm.
  apply rmatch_sound in Hm as (w & s' & c' & -> & HL & [= -> ->]). eauto.
Qed.


(** A pattern that is not nullable only matches non-empty words. *)
Lemma Lang_nonempty r w c c' : Lang r w c c' -> nullable r = false -> w <> [].
Proof.
  induction 1; simpl; intros Hn; try discriminate.
  - apply andb_false_iff in Hn as [Hn|Hn].
    + intros Hw. apply app_eq_nil in Hw as [Hw _]. by apply IHLang1.
    + intros Hw. apply app_eq_nil in Hw as [_ Hw]. by apply IHLang2.
  - apply orb_false_iff in Hn as [Hn _]. auto.
  - apply orb_false_iff in Hn as [_ Hn]. auto.
  - auto.
Qed.

(** A match of a pattern that is not nullable consumes at least one
    character, so the search of [exec_all] always advances. *)
Lemma match_at_consumes r s rest cap :
  nullable r = false -> match_at r s = Some (rest, cap) -> length rest < length s.
Proof.
  intros Hn (w & -> & HL)%match_at_sound.
  pose proof (Lang_nonempty _ _ _ _ HL Hn) as Hw.
  rewrite length_app. destruct w; [done|]. simpl. lia.
Qed.

(** No pattern of the two extraction loops matches the empty string. *)
Lemma extraction_patterns_not_nullable :
  Forall (fun r => nullable r = false)
         (Patterns.component_patterns ++ Patterns.modulePatterns).
Proof. repeat constructor. Qed.

End RegexFacts.

(* ===================================================================== *)
(** * The CSS beautifier *)
(* ===================================================================== *)

Section BeautifyCSS.
Import Chars Regex Js Patterns.

Lemma strip_ws_app (a b : list ascii) : strip_ws (a ++ b) = strip_ws a ++ strip_ws b.
Proof. apply List.filter_app. Qed.

Lemma strip_ws_rev (l : list ascii) : strip_ws (rev l) = rev (strip_ws l).
Proof.
  induction l as [|c l IH]; [done|]. simpl rev.
  rewrite strip_ws_app, IH. simpl. destruct (is_space c); simpl; [|done].
  by rewrite app_nil_r.
Qed.

Lemma strip_ws_spaces (l : list ascii) : forallb is_space l = true -> strip_ws l = [].
Proof.
  induction l as [|c l IH]; [done|]. simpl.
  intros [Hc Hl]%andb_true_iff. rewrite Hc. simpl. auto.
Qed.

Lemma strip_ws_trim_start (l : list ascii) : strip_ws (trim_start l) = strip_ws l.
Proof.
  induction l as [|c l IH]; [done|]. simpl.
  destruct (is_space c) eqn:Hc; simpl; [done|]. by rewrite Hc.
Qed.

Lemma strip_ws_trim (l : list ascii) : strip_ws (trim l) = strip_ws l.
Proof.
  unfold trim.
  by rewrite strip_ws_rev, strip_ws_trim_start, strip_ws_rev,
             strip_ws_trim_start, rev_involutive.
Qed.

Lemma replace_all_skip r rep (u s : list ascii) :
  replace_all r rep (u ++ s) (length u) = replace_all r rep s 0.
Proof. induction u as [|a u IH]; [done|]. simpl. apply IH. Qed.

(** A global replacement that trades every match for a text with the same
    non-blank characters keeps the non-blank characters of the whole. *)
Lemma strip_ws_replace_all r rep :
  (forall w c c', Lang r w c c' -> strip_ws w = strip_ws rep) ->
  forall s, strip_ws (replace_all r rep s 0) = strip_ws s.
Proof.
  intros Hrep s.
  remember (length s) as n eqn:Hn.
  revert s Hn. induction n as [n IH] using lt_wf_ind. intros s ->.
  destruct s as [|c s'].
  - simpl. destruct (match_at r []) as [[rest cap]|] eqn:Hm; [|done].
    apply match_at_sound in Hm as (w & Hw & HL).
    symmetry in Hw. apply app_eq_nil in Hw as [-> ->].
    by rewrite <- (Hrep _ _ _ HL).
  - cbn [replace_all].
    assert (Hcons : forall l, strip_ws (c :: l) = strip_ws [c] ++ strip_ws l)
      by (intros l; apply (strip_ws_app [c] l)).
    destruct (match_at r (c :: s')) as [[rest cap]|] eqn:Hm.
    + apply match_at_sound in Hm as (w & Hw & HL).
      rewrite Hw, length_app.
      replace (length w + length rest - length rest) with (length w) by lia.
      destruct w as [|a w'].
      * simpl in Hw. subst rest. cbn [length app].
        rewrite strip_ws_app, <- (Hrep _ _ _ HL), (Hcons s'), (Hcons (replace_all _ _ _ _)).
        change (strip_ws [] ++ ?x) with x.
        f_equal. eapply IH; [|reflexivity]. simpl. lia.
      * simpl in Hw. injection Hw as -> ->. cbn [length].
        rewrite replace_all_skip, strip_ws_app, <- (Hrep _ _ _ HL).
        change (a :: w' ++ rest) with ((a :: w') ++ rest).
        rewrite strip_ws_app. f_equal.
        eapply IH; [|reflexivity]. simpl. rewrite length_app. lia.
    + rewrite (Hcons s'), (Hcons (replace_all _ _ _ _)).
      f_equal. eapply IH; [|reflexivity]. simpl. lia.
Qed.

Lemma Lang_chr a w c c' : Lang (chr a) w c c' -> w = [a].
Proof.
  unfold chr. inversion 1; subst.
  match goal with H : is_char _ _ = true |- _ => apply Ascii.eqb_eq in H as -> end.
  done.
Qed.

Lemma Lang_blank_lines w c c' : Lang blank_lines w c c' -> strip_ws w = [].
Proof.
  unfold blank_lines. simpl. intros HL.
  inversion HL as [| |? ? w1 u1 ? ? ? H1 HL1| | | | | |]; subst.
  inversion HL1 as [| |? ? w2 u2 ? ? ? H2 HL2| | | | | |]; subst.
  inversion HL2 as [| |? ? w3 u3 ? ? ? H3 HL3| | | | | |]; subst.
  inversion HL3; subst.
  apply Lang_chr in H1 as ->. apply Lang_chr in H3 as ->.
  inversion H2; subst.
  rewrite strip_ws_app, (strip_ws_app w2), (strip_ws_spaces w2) by assumption.
  reflexivity.
Qed.

Lemma chars_str (l : list ascii) : chars (str l) = l.
Proof. apply list_ascii_of_string_of_list_ascii. Qed.

(** The beautifier adds and removes white space only. *)
Lemma beautifyCSS_keeps_tokens (css : string) :
  strip_ws (chars (WebDecompiler.beautifyCSS css)) = strip_ws (chars css).
Proof.
  unfold WebDecompiler.beautifyCSS.
  rewrite chars_str, strip_ws_trim.
  rewrite strip_ws_replace_all
    by (intros w c c' HL; by rewrite (Lang_blank_lines _ _ _ HL)).
  rewrite !strip_ws_replace_all; [done|..];
    intros w c c' HL; by rewrite (Lang_chr _ _ _ _ HL).
Qed.

(** C8. The CSS beautifier has no error path: it returns a text for every
    input; and beautifying its output again changes white space only, the
    sequence of the other characters stays the same. *)
Theorem beautifyCSS_total_and_idempotent_up_to_whitespace (css : string) :
  exists out,
    WebDecompiler.beautifyCSS css = out /\
    strip_ws (chars (WebDecompiler.beautifyCSS out)) = strip_ws (chars out).
Proof.
  exists (WebDecompiler.beautifyCSS css). split; [done|].
  apply beautifyCSS_keeps_tokens.
Qed.

End BeautifyCSS.

(* ===================================================================== *)
(** * The pipeline *)
(* ===================================================================== *)

Section Pipeline.
Import Chars Regex Js Patterns Exc.
Import DecompilationResult.
Context `{Platform}.

Lemma truthy_true (s : string) : truthy s = true <-> s <> "".
Proof.
  unfold truthy. rewrite negb_true_iff. apply String.eqb_neq.
Qed.

(** ** Source-map recovery *)

(** Handed a source map with sources [./src/App.js] and a non-empty
    content at the same index, [extractFromSourceMap] stores, in
    [originalFiles] itself (next to the retrieved assets, whose entries
    stay), an entry under the key [source_App.js]; its text is the recovery
    header, naming the bundle URL and the original path, followed by the
    content. *)
Lemma extractFromSourceMap_stores_source_App_js
    (content originalUrl : string) (this : WebDecompiler.t) :
  content <> "" ->
  let sourceMap := SourceMapInfo.mk (Some [Some "./src/App.js"]) (Some [Some content]) in
  let text := WebDecompiler.recovered_text originalUrl "./src/App.js" content in
  let this' := WebDecompiler.extractFromSourceMap sourceMap originalUrl this in
  originalFiles (WebDecompiler.results this')
    = <["source_App.js" := text]> (originalFiles (WebDecompiler.results this))
  /\ originalFiles (WebDecompiler.results this') !! "source_App.js" = Some text
  /\ startsWith text "// Recovered from source map: " = true
  /\ text = "// Recovered from source map: " +:+ originalUrl +:+ str [LF]
            +:+ "// Original path: ./src/App.js" +:+ str [LF; LF] +:+ content.
Proof.
  intros Hc. cbn zeta.
  assert (Hfiles :
    originalFiles (WebDecompiler.results
      (WebDecompiler.extractFromSourceMap
         (SourceMapInfo.mk (Some [Some "./src/App.js"]) (Some [Some content]))
         originalUrl this))
    = <["source_App.js" := WebDecompiler.recovered_text originalUrl "./src/App.js" content]>
        (originalFiles (WebDecompiler.results this))).
  { unfold WebDecompiler.extractFromSourceMap. simpl.
    unfold WebDecompiler.recover_at. simpl.
    apply truthy_true in Hc. rewrite Hc. reflexivity. }
  split; [exact Hfiles|]. split; [rewrite Hfiles; apply lookup_insert_eq|].
  split; [|reflexivity].
  unfold startsWith, WebDecompiler.recovered_text. simpl.
  by destruct originalUrl.
Qed.

(** A source map that axios hands parsed is not recovered: [JSON.parse]
    sees the conversion of the value to a text, which is no JSON text for
    an object, throws, and the loop goes on to the next bundle. *)
Lemma parsed_map_is_not_recovered (bundle : BundleInfo.t) (this : WebDecompiler.t)
    (w w1 : World) (response : Response) (shown : string) :
  BundleInfo.type bundle = js ->
  axios_get (BundleInfo.url bundle +:+ ".map") 10000 false w = (Some response, w1) ->
  payload response = Parsed shown ->
  JSON_parse shown = None ->
  WebDecompiler.recover_bundle bundle this w = (Ok this, w1).
Proof.
  intros Hjs Hget Hpayload Hparse.
  unfold WebDecompiler.recover_bundle. rewrite Hjs.
  unfold Exc.try_catch, Exc.bind, Exc.get, Exc.ret, Exc.throw. rewrite Hget.
  destruct (Nat.eqb (status response) 200); [|done].
  unfold data. by rewrite Hpayload, Hparse.
Qed.

(** A map that is handed as a text which is the JSON text of a source
    map, as for a body that holds that text as a JSON string, is
    recovered. *)
Lemma text_map_is_recovered (bundle : BundleInfo.t) (this : WebDecompiler.t)
    (w w1 : World) (text : string) (sourceMap : SourceMapInfo.t) :
  BundleInfo.type bundle = js ->
  axios_get (BundleInfo.url bundle +:+ ".map") 10000 false w
    = (Some (mkResponse 200 (Text text)), w1) ->
  JSON_parse text = Some sourceMap ->
  WebDecompiler.recover_bundle bundle this w
  = (Ok (WebDecompiler.extractFromSourceMap sourceMap (BundleInfo.url bundle) this), w1).
Proof.
  intros Hjs Hget Hparse.
  unfold WebDecompiler.recover_bundle. rewrite Hjs.
  unfold Exc.try_catch, Exc.bind, Exc.get, Exc.ret, Exc.throw. rewrite Hget.
  cbn [status data payload Nat.eqb]. by rewrite Hparse.
Qed.

End Pipeline.

(** C9 (the code at the failing input). The site answers the request for
    [bundle.js.map] with the status 200 and the JSON text of a source map
    whose sources are [./src/App.js], with a content that is not empty.
    axios hands that map parsed; [JSON.parse(response.data)] then sees the
    text [[object Object]] and throws, the [catch] of the loop takes the
    error, and the job returns a record whose [originalFiles] holds the
    root document and the bundle and no entry [source_App.js].
    [extractFromSourceMap] itself, handed that map, stores the entry. *)
Theorem retrieved_source_map_is_not_recovered :
  let H := Fake.platform MoreExamples.source_map_site in
  Fake.assoc "https://example.com/bundle.js.map" (Fake.pages MoreExamples.source_map_site)
    = Some (mkResponse 200 (Text MoreExamples.App_map_json)) /\
  JSON_parse MoreExamples.App_map_json
    = Some (SourceMapInfo.mk (Some [Some "./src/App.js"])
                             (Some [Some "export default App"])) /\
  (forall w, axios_get "https://example.com/bundle.js.map" 10000 false w
             = (Some (mkResponse 200 (Parsed "[object Object]")), S w)) /\
  JSON_parse "[object Object]" = None /\
  (forall this w,
     WebDecompiler.recover_bundle Examples.bundle_js this w = (Ok this, S w)) /\
  (exists r,
     Handlers.run_job Examples.root "job1" 0 = (Ok r, 3) /\
     DecompilationResult.originalFiles r
       = <["bundle.js" := "function Header(){return jsx}"]>
           {["index.html" := "<script src=/bundle.js>"]} /\
     DecompilationResult.originalFiles r !! "source_App.js" = None) /\
  DecompilationResult.originalFiles
    (WebDecompiler.results
       (WebDecompiler.extractFromSourceMap MoreExamples.App_map
          "https://example.com/bundle.js"
          (WebDecompiler.fresh Examples.root "job1" 0)))
    !! "source_App.js"
  = Some (WebDecompiler.recovered_text "https://example.com/bundle.js"
            "./src/App.js" "export default App").
Proof.
  intros H.
  split; [by vm_compute|]. split; [by vm_compute|].
  assert (Hget : forall w, axios_get "https://example.com/bundle.js.map" 10000 false w
                           = (Some (mkResponse 200 (Parsed "[object Object]")), S w))
    by (intros w; by vm_compute).
  split; [exact Hget|]. split; [by vm_compute|]. split.
  - intros this w.
    apply (parsed_map_is_not_recovered Examples.bundle_js this w (S w)
             (mkResponse 200 (Parsed "[object Object]")) "[object Object]");
      [done|apply Hget|done|by vm_compute].
  - split; [|by vm_compute].
    eexists. split; [by vm_compute|]. split; by vm_compute.
Qed.

(* ===================================================================== *)
(** * Processing the bundles *)
(* ===================================================================== *)

Section Bundles.
Import Chars Regex Js Patterns Exc Spec.
Import DecompilationResult.
Context `{Platform}.

Lemma extract_counters_ok (text file : string) (r : DecompilationResult.t) :
  counters_ok
    (WebDecompiler.extractModules text file
       (WebDecompiler.extractReactComponents text file r)).
Proof. split; reflexivity. Qed.

(** Processing a bundle never throws, keeps the bundle list and the
    recomputed counters, and has one of the three effects above. *)
Lemma process_bundle_effect (b : BundleInfo.t) (this : WebDecompiler.t) (w : World) :
  exists this' w',
    WebDecompiler.process_bundle b this w = (Ok this', w') /\
    WebDecompiler.baseUrl this' = WebDecompiler.baseUrl this /\
    bundles (WebDecompiler.results this') = bundles (WebDecompiler.results this) /\
    (counters_ok (WebDecompiler.results this) ->
     counters_ok (WebDecompiler.results this')) /\
    bundle_effect b (WebDecompiler.results this) (WebDecompiler.results this').
Proof.
  unfold WebDecompiler.process_bundle.
  destruct b as [u ty fn]. destruct ty; simpl.
  - unfold WebDecompiler.downloadAndDecompileJS. unfold_monad. simpl.
    destruct (axios_get u 30000 true w) as [[resp|] w'].
    + destruct (beautify (data resp)) as [text|].
      * eexists _, _. split; [reflexivity|]. simpl.
        split; [done|]. split; [done|].
        split; [intros _; apply extract_counters_ok|].
        eapply Beautified; simpl; [reflexivity|lia|lia].
      * eexists _, _. split; [reflexivity|]. simpl.
        split; [done|]. split; [done|]. split; [done|].
        eapply Raw; simpl; reflexivity.
    + eexists _, _. split; [reflexivity|].
      split; [done|]. split; [done|]. split; [done|]. by apply Dropped.
  - unfold WebDecompiler.downloadAndDecompileCSS. unfold_monad. simpl.
    destruct (axios_get u 30000 true w) as [[resp|] w'].
    + eexists _, _. split; [reflexivity|]. simpl.
      split; [done|]. split; [done|]. split; [done|].
      eapply Beautified; simpl; [reflexivity|lia|lia].
    + eexists _, _. split; [reflexivity|].
      split; [done|]. split; [done|]. split; [done|]. by apply Dropped.
Qed.

(** A loop whose body never throws never throws. *)
Lemma for_of_total {A S} (body : A -> S -> M S) :
  (forall x s w, exists s' w', body x s w = (Ok s', w')) ->
  forall xs s w, exists s' w', for_of xs body s w = (Ok s', w').
Proof.
  intros Hbody xs. induction xs as [|x xs IH]; intros s w; simpl.
  - unfold_monad. eauto.
  - unfold Exc.bind. destruct (Hbody x s w) as (s1 & w1 & ->). apply IH.
Qed.

Lemma process_all_total (bs : list BundleInfo.t) (this : WebDecompiler.t) (w : World) :
  exists this' w', for_of bs WebDecompiler.process_bundle this w = (Ok this', w').
Proof.
  apply for_of_total. intros b s w0.
  destruct (process_bundle_effect b s w0) as (s' & w' & Hrun & _). eauto.
Qed.

End Bundles.

(* ===================================================================== *)
(** * The file counters *)
(* ===================================================================== *)

Section FileCounters.
Import Chars Js Exc Spec.
Import DecompilationResult.
Context `{Platform}.

Lemma beautified_key_inj (a b : string) :
  "beautified_" +:+ a = "beautified_" +:+ b -> a = b.
Proof. intros Heq. by simplify_eq/=. Qed.

Lemma beautified_key_not_raw (a b : string) :
  "beautified_" +:+ a <> "raw_" +:+ b.
Proof. intros Heq. by simplify_eq/=. Qed.

Lemma stored_beautified_snoc ty bs b files :
  stored_beautified ty (bs ++ [b]) files =
  stored_beautified ty bs files +
  (if is_type ty b && bool_decide (is_Some (files !! ("beautified_" +:+ BundleInfo.filename b)))
   then 1 else 0).
Proof.
  unfold stored_beautified. rewrite List.filter_app, length_app. simpl.
  by destruct (is_type ty b && _).
Qed.

(** An entry written under another key does not change the count. *)
Lemma stored_beautified_insert ty bs k v files :
  (forall b, b ∈ bs -> "beautified_" +:+ BundleInfo.filename b <> k) ->
  stored_beautified ty bs (<[k := v]> files) = stored_beautified ty bs files.
Proof.
  intros Hk. unfold stored_beautified. f_equal.
  apply List.filter_ext_in. intros b Hb%list_elem_of_In.
  by rewrite lookup_insert_ne by (symmetry; by apply Hk).
Qed.

(** A bundle whose file name is new has no [beautified_] entry yet. *)
Lemma fresh_beautified_key bs b files :
  keys_from bs files ->
  BundleInfo.filename b ∉ (BundleInfo.filename <$> bs) ->
  files !! ("beautified_" +:+ BundleInfo.filename b) = None.
Proof.
  intros Hkeys Hnew.
  destruct (files !! _) as [v|] eqn:Hv; [|done].
  destruct (Hkeys _ (mk_is_Some _ _ Hv)) as (b0 & Hb0 & [Heq|Heq]).
  - apply beautified_key_inj in Heq. exfalso. apply Hnew.
    rewrite Heq. by apply list_elem_of_fmap_2.
  - by apply beautified_key_not_raw in Heq.
Qed.

Lemma keys_from_mono bs b files : keys_from bs files -> keys_from (bs ++ [b]) files.
Proof.
  intros Hk k Hs. destruct (Hk k Hs) as (b0 & Hb0 & Hcase).
  exists b0. split; [|done]. apply elem_of_app. by left.
Qed.

Lemma keys_from_insert bs b k v files :
  keys_from bs files ->
  k = "beautified_" +:+ BundleInfo.filename b \/ k = "raw_" +:+ BundleInfo.filename b ->
  keys_from (bs ++ [b]) (<[k := v]> files).
Proof.
  intros Hk Hcase k' Hs. destruct (decide (k = k')) as [<-|Hne].
  - exists b. split; [|done]. apply elem_of_app. right. by apply list_elem_of_singleton.
  - rewrite lookup_insert_ne in Hs by done. by apply (keys_from_mono bs b files Hk).
Qed.

(** One more bundle processed: the agreement extends to it, provided its
    file name was not used before. *)
Lemma file_counters_step done b r r' :
  BundleInfo.filename b ∉ (BundleInfo.filename <$> done) ->
  keys_from done (beautifiedFiles r) ->
  file_counters_ok done r ->
  bundle_effect b r r' ->
  keys_from (done ++ [b]) (beautifiedFiles r') /\ file_counters_ok (done ++ [b]) r'.
Proof.
  intros Hnew Hkeys [Hjs Hcss] Heff.
  assert (Hold : forall b0, b0 ∈ done ->
            "beautified_" +:+ BundleInfo.filename b0 <> "beautified_" +:+ BundleInfo.filename b).
  { intros b0 Hb0 Heq%beautified_key_inj. apply Hnew. rewrite <- Heq.
    by apply list_elem_of_fmap_2. }
  pose proof (fresh_beautified_key _ _ _ Hkeys Hnew) as Hfresh.
  destruct Heff as [->|text Hbf Hj Hc|text Hbf Hj Hc].
  - split; [by apply keys_from_mono|].
    unfold file_counters_ok. rewrite !stored_beautified_snoc, Hfresh.
    rewrite bool_decide_eq_false_2 by (by intros [? ?]).
    rewrite !andb_false_r. lia.
  - split; [rewrite Hbf; apply keys_from_insert; auto|].
    unfold file_counters_ok. rewrite Hbf, !stored_beautified_snoc.
    rewrite lookup_insert_eq, bool_decide_eq_true_2 by eauto.
    rewrite !andb_true_r, !stored_beautified_insert by done. lia.
  - split; [rewrite Hbf; apply keys_from_insert; auto|].
    unfold file_counters_ok. rewrite Hbf, !stored_beautified_snoc.
    rewrite lookup_insert_ne by (apply not_eq_sym, beautified_key_not_raw).
    rewrite Hfresh, bool_decide_eq_false_2 by (by intros [? ?]).
    rewrite !andb_false_r.
    rewrite !stored_beautified_insert
      by (intros; apply beautified_key_not_raw). lia.
Qed.

(** The loop over the bundles keeps the agreement, the recomputed counters
    and the bundle list. *)
Lemma process_all_counters todo : forall done this w this' w',
  NoDup (BundleInfo.filename <$> (done ++ todo)) ->
  keys_from done (beautifiedFiles (WebDecompiler.results this)) ->
  file_counters_ok done (WebDecompiler.results this) ->
  for_of todo WebDecompiler.process_bundle this w = (Ok this', w') ->
  file_counters_ok (done ++ todo) (WebDecompiler.results this').
Proof.
  induction todo as [|b todo IH]; intros done this w this' w' Hnd Hkeys Hok Hrun.
  - simpl in Hrun. unfold_monad. injection Hrun as <- <-. by rewrite app_nil_r.
  - simpl in Hrun. unfold Exc.bind in Hrun.
    destruct (process_bundle_effect b this w) as (this1 & w1 & Hstep & _ & _ & _ & Heff).
    rewrite Hstep in Hrun.
    assert (Hnew : BundleInfo.filename b ∉ (BundleInfo.filename <$> done)).
    { rewrite fmap_app, fmap_cons in Hnd.
      apply NoDup_app in Hnd as (_ & Hdisj & _).
      intros Hin. apply (Hdisj _ Hin). by left. }
    destruct (file_counters_step _ _ _ _ Hnew Hkeys Hok Heff) as [Hkeys1 Hok1].
    replace (done ++ b :: todo) with ((done ++ [b]) ++ todo) in *
      by (by rewrite <- app_assoc).
    eapply IH; eauto.
Qed.

Lemma process_all_frame todo : forall this w this' w',
  for_of todo WebDecompiler.process_bundle this w = (Ok this', w') ->
  bundles (WebDecompiler.results this') = bundles (WebDecompiler.results this) /\
  (counters_ok (WebDecompiler.results this) ->
   counters_ok (WebDecompiler.results this')).
Proof.
  induction todo as [|b todo IH]; intros this w this' w' Hrun.
  - simpl in Hrun. unfold_monad. by injection Hrun as <- <-.
  - simpl in Hrun. unfold Exc.bind in Hrun.
    destruct (process_bundle_effect b this w) as (this1 & w1 & Hstep & _ & Hbs & Hc & _).
    rewrite Hstep in Hrun. apply IH in Hrun as [Hbs' Hc'].
    split; [congruence|auto].
Qed.

End FileCounters.

(* ===================================================================== *)
(** * Discovery and source-map recovery inside a job *)
(* ===================================================================== *)

Section Stages.
Import Chars Js Exc Spec.
Import DecompilationResult.
Context `{Platform}.

(** A loop whose body leaves the world alone leaves the world alone. *)
Lemma for_of_same_world {A S} (body : A -> S -> M S) :
  (forall x s w o w', body x s w = (o, w') -> w' = w) ->
  forall xs s w o w', for_of xs body s w = (o, w') -> w' = w.
Proof.
  intros Hbody xs. induction xs as [|x xs IH]; intros s w o w' Hrun; simpl in Hrun.
  - unfold_monad. by injection Hrun as _ <-.
  - unfold Exc.bind in Hrun. destruct (body x s w) as [[s1|e] w1] eqn:Hb.
    + apply Hbody in Hb as ->. by eapply IH.
    + apply Hbody in Hb as ->. by injection Hrun as _ <-.
Qed.

Lemma push_bundle_same_world this ty a p e bs w o w' :
  WebDecompiler.push_bundle this ty a p e bs w = (o, w') -> w' = w.
Proof.
  unfold WebDecompiler.push_bundle.
  destruct (WebDecompiler.attr _ _) as [src|]; [|unfold_monad; congruence].
  destruct (truthy src); [|unfold_monad; congruence].
  destruct (WebDecompiler.fullUrl this src); unfold_monad; congruence.
Qed.

(** Collecting the bundles of a parsed document makes no request. *)
Lemma collect_bundles_same_world this doc w o w' :
  WebDecompiler.collect_bundles this doc w = (o, w') -> w' = w.
Proof.
  unfold WebDecompiler.collect_bundles, Exc.bind.
  destruct (for_of _ _ [] w) as [[bs|e] w1] eqn:H1; intros Hrun.
  - apply for_of_same_world in H1 as ->; [|intros; by eapply push_bundle_same_world].
    apply for_of_same_world in Hrun; [done|intros; by eapply push_bundle_same_world].
  - injection Hrun as _ <-.
    apply for_of_same_world in H1; [done|intros; by eapply push_bundle_same_world].
Qed.

(** [analyzeHTML] succeeds exactly when the root document is retrieved and
    every reference resolves; it then records the document and the
    bundles. *)
Lemma analyzeHTML_ok this w found w' :
  WebDecompiler.analyzeHTML this w = (Ok found, w') ->
  exists response,
    axios_get (WebDecompiler.baseUrl this) 15000 true w = (Some response, w') /\
    WebDecompiler.collect_bundles this (cheerio_load (data response)) w'
      = (Ok (fst found), w') /\
    snd found =
      WebDecompiler.with_results
        (with_bundles (fst found)
           (with_originalFiles
              (<["index.html" := data response]>
                 (originalFiles (WebDecompiler.results this)))
              (WebDecompiler.results this)))
        this.
Proof.
  unfold WebDecompiler.analyzeHTML. unfold_monad.
  destruct (axios_get _ _ _ w) as [[response|] w1]; [|done].
  destruct (WebDecompiler.collect_bundles this _ w1) as [[bs|e] w2] eqn:Hc; [|done].
  pose proof (collect_bundles_same_world _ _ _ _ _ Hc) as ->.
  intros [= <- <-]. exists response. auto.
Qed.

Lemma analyzeHTML_throws this w e w' :
  WebDecompiler.analyzeHTML this w = (Throw e, w') ->
  e = "Failed to analyze HTML structure".
Proof.
  unfold WebDecompiler.analyzeHTML. unfold_monad.
  destruct (axios_get _ _ _ w) as [[response|] w1]; [|congruence].
  destruct (WebDecompiler.collect_bundles this _ w1) as [[bs|e1] w2]; congruence.
Qed.

(** When the root document cannot be retrieved, [analyzeHTML] throws. *)
Lemma analyzeHTML_fetch_fails this w w1 :
  axios_get (WebDecompiler.baseUrl this) 15000 true w = (None, w1) ->
  WebDecompiler.analyzeHTML this w = (Throw "Failed to analyze HTML structure", w1).
Proof.
  intros Hget. unfold WebDecompiler.analyzeHTML. unfold_monad. by rewrite Hget.
Qed.

Lemma with_originalFiles_id (r : DecompilationResult.t) :
  with_originalFiles (originalFiles r) r = r.
Proof. by destruct r. Qed.

Lemma extractFromSourceMap_frame sm u this :
  WebDecompiler.baseUrl (WebDecompiler.extractFromSourceMap sm u this)
    = WebDecompiler.baseUrl this /\
  exists files,
    WebDecompiler.results (WebDecompiler.extractFromSourceMap sm u this)
      = with_originalFiles files (WebDecompiler.results this).
Proof.
  unfold WebDecompiler.extractFromSourceMap.
  destruct (SourceMapInfo.sources sm), (SourceMapInfo.sourcesContent sm); simpl;
    (split; [done|]); eauto using eq_sym, with_originalFiles_id.
Qed.

Lemma recover_bundle_frame b this w :
  exists this' w' files,
    WebDecompiler.recover_bundle b this w = (Ok this', w') /\
    WebDecompiler.baseUrl this' = WebDecompiler.baseUrl this /\
    WebDecompiler.results this' = with_originalFiles files (WebDecompiler.results this).
Proof.
  unfold WebDecompiler.recover_bundle.
  destruct (BundleInfo.type b); unfold_monad.
  - destruct (axios_get _ _ _ w) as [[resp|] w1].
    + destruct (Nat.eqb (status resp) 200).
      * destruct (JSON_parse (data resp)) as [sm|].
        -- destruct (extractFromSourceMap_frame sm (BundleInfo.url b) this)
             as [Hb [files Hr]].
           eexists _, _, files. eauto.
        -- eexists _, _, _. split; [done|]. split; [done|].
           symmetry. apply with_originalFiles_id.
      * eexists _, _, _. split; [done|]. split; [done|].
        symmetry. apply with_originalFiles_id.
    + eexists _, _, _. split; [done|]. split; [done|].
      symmetry. apply with_originalFiles_id.
  - eexists _, _, _. split; [done|]. split; [done|].
    symmetry. apply with_originalFiles_id.
Qed.

(** Source-map recovery never throws and only touches [originalFiles]. *)
Lemma recovery_frame (bs : list BundleInfo.t) : forall this w,
  exists this' w' files,
    for_of bs WebDecompiler.recover_bundle this w = (Ok this', w') /\
    WebDecompiler.baseUrl this' = WebDecompiler.baseUrl this /\
    WebDecompiler.results this' = with_originalFiles files (WebDecompiler.results this).
Proof.
  induction bs as [|b bs IH]; intros this w; simpl.
  - unfold_monad. eexists _, _, _. split; [done|]. split; [done|].
    symmetry. apply with_originalFiles_id.
  - unfold Exc.bind at 1.
    destruct (recover_bundle_frame b this w) as (this1 & w1 & files1 & -> & Hb1 & Hr1).
    destruct (IH this1 w1) as (this' & w' & files & Hrun & Hb & Hr).
    exists this', w', files. split; [exact Hrun|]. split; [congruence|].
    rewrite Hr, Hr1. by destruct (WebDecompiler.results this).
Qed.

Lemma trySourceMapRecovery_frame this w :
  exists this' w' files,
    WebDecompiler.trySourceMapRecovery this w = (Ok this', w') /\
    WebDecompiler.baseUrl this' = WebDecompiler.baseUrl this /\
    WebDecompiler.results this' = with_originalFiles files (WebDecompiler.results this).
Proof. apply recovery_frame. Qed.

End Stages.

(* ===================================================================== *)
(** * The orchestrator and the submission handler *)
(* ===================================================================== *)

Section Orchestrator.
Import Chars Js Exc Spec.
Import DecompilationResult.
Context `{Platform}.

(** The result record once discovery has run on a fresh decompiler. *)
Lemma run_job_ok url jobId w r w' :
  Handlers.run_job url jobId w = (Ok r, w') ->
  exists response w1 bs files this2 w2 this3,
    axios_get url 15000 true w = (Some response, w1) /\
    bs <> [] /\
    WebDecompiler.results this2 =
      DecompilationResult.mk jobId url (Date_now w) bs [] [] files ∅ (Analysis.mk 0 0 0 0) /\
    for_of bs WebDecompiler.process_bundle this2 w2 = (Ok this3, w') /\
    r = WebDecompiler.results this3.
Proof.
  unfold Handlers.run_job, WebDecompiler.constructor, WebDecompiler.runFullDecompilation.
  unfold Exc.bind at 1 2. unfold Exc.now, Exc.ret at 1, Exc.try_catch, Exc.bind at 1.
  set (this0 := WebDecompiler.fresh url jobId _).
  destruct (WebDecompiler.analyzeHTML this0 w) as [[found|e] w1] eqn:Ha;
    [|unfold Exc.throw; congruence].
  apply analyzeHTML_ok in Ha as (response & Hget & _ & Hthis1).
  destruct found as [bs this1]. simpl in Hthis1. cbn [fst snd].
  destruct (Nat.eqb (length bs) 0) eqn:Hlen; [unfold Exc.throw; simpl; congruence|].
  unfold Exc.bind at 1.
  destruct (trySourceMapRecovery_frame this1 w1) as (this2 & w2 & files & -> & _ & Hr2).
  unfold Exc.bind.
  destruct (process_all_total bs this2 w2) as (this3 & w3 & Hloop). rewrite Hloop.
  unfold Exc.ret. intros [= <- <-].
  exists response, w1, bs, files, this2, w2, this3.
  split; [exact Hget|]. split; [by intros ->|].
  split; [|done]. rewrite Hr2, Hthis1. reflexivity.
Qed.

(** C4 (amended). When the orchestrator returns its result, the component
    and module counters equal the lengths of their lists; and, when the
    discovered bundles have pairwise distinct file names, the JS and CSS
    file counters equal the numbers of JS and CSS bundles that have an
    entry under the [beautified_] prefix in the beautified-files map. *)
Theorem counters_at_hand_off url jobId w r w' :
  Handlers.run_job url jobId w = (Ok r, w') ->
  Analysis.components (analysis r) = length (components r) /\
  Analysis.modules (analysis r) = length (modules r) /\
  (NoDup (BundleInfo.filename <$> bundles r) ->
   Analysis.jsFiles (analysis r) = stored_beautified js (bundles r) (beautifiedFiles r) /\
   Analysis.cssFiles (analysis r) = stored_beautified css (bundles r) (beautifiedFiles r)).
Proof.
  intros Hrun.
  apply run_job_ok in Hrun
    as (response & w1 & bs & files & this2 & w2 & this3 & _ & _ & Hr2 & Hloop & ->).
  destruct (process_all_frame _ _ _ _ _ Hloop) as [Hbs Hc].
  rewrite Hr2 in Hbs, Hc. simpl in Hbs.
  destruct Hc as [Hcomp Hmod]; [by split|].
  split; [exact Hcomp|]. split; [exact Hmod|].
  rewrite Hbs. intros Hnd.
  apply (process_all_counters bs [] this2 w2 this3 w'); [done| | |done].
  - rewrite Hr2. intros k [v Hv]. simpl in Hv. by rewrite lookup_empty in Hv.
  - rewrite Hr2. split; reflexivity.
Qed.

End Orchestrator.

Section Failures.
Import Chars Js Exc Spec.
Import DecompilationResult.
Context `{Platform}.

(** Once discovery has found at least one bundle the job runs to its end:
    recovery, then every bundle in turn, and the record is returned. *)
Lemma run_job_complete url jobId w response w1 bs :
  axios_get url 15000 true w = (Some response, w1) ->
  WebDecompiler.collect_bundles (WebDecompiler.fresh url jobId (Date_now w))
    (cheerio_load (data response)) w1 = (Ok bs, w1) ->
  bs <> [] ->
  exists this2 w2 this3 w3,
    WebDecompiler.trySourceMapRecovery
      (WebDecompiler.mk url
         (DecompilationResult.mk jobId url (Date_now w) bs [] []
            {["index.html" := data response]} ∅ (Analysis.mk 0 0 0 0))) w1
      = (Ok this2, w2) /\
    for_of bs WebDecompiler.process_bundle this2 w2 = (Ok this3, w3) /\
    Handlers.run_job url jobId w = (Ok (WebDecompiler.results this3), w3).
Proof.
  intros Hget Hcollect Hne.
  set (this1 := WebDecompiler.mk url _).
  destruct (trySourceMapRecovery_frame this1 w1) as (this2 & w2 & files & Hrec & _ & _).
  destruct (process_all_total bs this2 w2) as (this3 & w3 & Hloop).
  exists this2, w2, this3, w3. split; [exact Hrec|]. split; [exact Hloop|].
  unfold Handlers.run_job, WebDecompiler.constructor, WebDecompiler.runFullDecompilation.
  unfold Exc.bind at 1 2. unfold Exc.now, Exc.ret at 1, Exc.try_catch, Exc.bind at 1.
  unfold WebDecompiler.analyzeHTML, Exc.try_catch, Exc.bind at 1, Exc.get.
  cbn [WebDecompiler.baseUrl WebDecompiler.fresh]. rewrite Hget.
  unfold Exc.bind at 1. rewrite Hcollect.
  unfold Exc.ret at 1. cbn [fst snd].
  destruct bs as [|b bs]; [done|]. cbn [length Nat.eqb].
  unfold Exc.bind at 1.
  change (WebDecompiler.with_results _ _) with this1.
  rewrite Hrec. unfold Exc.bind at 1. rewrite Hloop. reflexivity.
Qed.

(** C3. If the root document cannot be retrieved, or discovery finds no
    bundle, the submission is answered by an error that carries a message,
    and the registry is left as it was: nothing is saved, so a job id that
    had no entry still has none.  When the request passed validation the
    answer is the status 500 with the reason of the failure as its
    details. *)
Theorem fatal_failure_aborts_the_job
    (body : DecompilationRequest.t) (storage : gmap string DecompilationResult.t)
    (w : World) :
  let url := DecompilationRequest.url body in
  let jobId := DecompilationRequest.jobId body in
  (exists w1, axios_get url 15000 true w = (None, w1)) \/
  (exists response w1,
     axios_get url 15000 true w = (Some response, w1) /\
     WebDecompiler.collect_bundles (WebDecompiler.fresh url jobId (Date_now w))
       (cheerio_load (data response)) w1 = (Ok [], w1)) ->
  exists status error details w',
    Handlers.POST body storage w = (PostError status error details, storage, w') /\
    error <> "" /\
    (jobStorage.get jobId storage = None ->
     jobStorage.get jobId (snd (fst (Handlers.POST body storage w))) = None) /\
    (url <> "" -> jobId <> "" -> is_Some (URL_href url None) ->
     status = 500 /\
     (details = Some "Failed to analyze HTML structure" \/
      details = Some "No bundles found to decompile")).
Proof.
  intros url jobId Hfatal. unfold Handlers.POST. fold url. fold jobId.
  destruct (truthy url) eqn:Hu; simpl.
  2:{ eexists _, _, _, _. split; [reflexivity|]. split; [done|]. split; [done|].
      intros Hne. apply truthy_true in Hne. congruence. }
  destruct (truthy jobId) eqn:Hj; simpl.
  2:{ eexists _, _, _, _. split; [reflexivity|]. split; [done|]. split; [done|].
      intros _ Hne. apply truthy_true in Hne. congruence. }
  destruct (URL_href url None) as [href|] eqn:Hhref.
  2:{ eexists _, _, _, _. split; [reflexivity|]. split; [done|]. split; [done|].
      intros _ _ [? ?]. congruence. }
  assert (Hrun : exists message w',
            Handlers.run_job url jobId w = (Throw message, w') /\
            (message = "Failed to analyze HTML structure" \/
             message = "No bundles found to decompile")).
  { unfold Handlers.run_job, WebDecompiler.constructor, WebDecompiler.runFullDecompilation.
    unfold Exc.bind at 1 2. unfold Exc.now, Exc.ret at 1, Exc.try_catch, Exc.bind at 1.
    destruct Hfatal as [[w1 Hget]|(response & w1 & Hget & Hcollect)].
    - rewrite (analyzeHTML_fetch_fails _ _ w1) by exact Hget.
      unfold Exc.throw. eauto.
    - unfold WebDecompiler.analyzeHTML, Exc.try_catch, Exc.bind at 1, Exc.get.
      cbn [WebDecompiler.baseUrl WebDecompiler.fresh]. rewrite Hget.
      unfold Exc.bind at 1. rewrite Hcollect.
      unfold Exc.ret at 1, Exc.throw. cbn. eauto. }
  destruct Hrun as (message & w' & -> & Hmsg).
  eexists _, _, _, _. split; [reflexivity|]. split; [done|]. split; [done|].
  intros _ _ _. split; [done|]. destruct Hmsg as [-> | ->]; auto.
Qed.

End Failures.

Section PerBundleFailures.
Import Chars Js Exc Spec.
Import DecompilationResult.
Context `{Platform}.



End PerBundleFailures.

(* ===================================================================== *)
(** * Bundle discovery *)
(* ===================================================================== *)

Section Discovery.
Import Chars Js Exc Spec.
Context `{Platform}.

(** A reference that starts with a slash is resolved against the root
    URL by the platform. *)
Lemma fullUrl_path_absolute this ref :
  startsWith ref "/" = true ->
  WebDecompiler.fullUrl this ref = URL_href ref (Some (WebDecompiler.baseUrl this)).
Proof. intros Hs. unfold WebDecompiler.fullUrl. by rewrite Hs. Qed.

(** Any other reference is kept as it is written. *)
Lemma fullUrl_other this ref :
  startsWith ref "/" = false -> WebDecompiler.fullUrl this ref = Some ref.
Proof. intros Hs. unfold WebDecompiler.fullUrl. by rewrite Hs. Qed.

(** C1 (the code at the failing input). For the root URL
    [https://example.com/app/] and a document whose script has the source
    [js/app.js], a reference relative to the document, the bundle created
    has the reference itself as its URL; that text has no scheme, so it is
    not an absolute URL, and the resolver of the platform was not asked. *)
Theorem relative_reference_is_left_unresolved
    (results : DecompilationResult.t) (w : World) :
  WebDecompiler.collect_bundles (Examples.app_decompiler results)
    Examples.relative_script_doc w
    = (Ok [BundleInfo.mk "js/app.js" js "app.js"], w)
  /\ is_absolute_URL "js/app.js" = false.
Proof. split; reflexivity. Qed.

Lemma push_bundle_pushes this ty attrName placeholder e acc (w : World) ref u :
  WebDecompiler.attr (attribs e) attrName = Some ref ->
  ref <> "" ->
  WebDecompiler.fullUrl this ref = Some u ->
  WebDecompiler.push_bundle this ty attrName placeholder e acc w
    = (Ok (acc ++ [BundleInfo.mk u ty (or_else (split_pop "/" ref) placeholder)]), w).
Proof.
  intros Hattr Hne%truthy_true Hu. unfold WebDecompiler.push_bundle.
  by rewrite Hattr, Hne, Hu.
Qed.

Lemma push_bundle_skips this ty attrName placeholder e acc (w : World) :
  WebDecompiler.attr (attribs e) attrName = None ->
  WebDecompiler.push_bundle this ty attrName placeholder e acc w = (Ok acc, w).
Proof. intros Hattr. unfold WebDecompiler.push_bundle. by rewrite Hattr. Qed.

Lemma push_all this ty attrName placeholder (w : World) (elements : list Element) :
  all_resolvable this attrName elements ->
  forall acc, exists bs,
    for_of elements (WebDecompiler.push_bundle this ty attrName placeholder) acc w
      = (Ok (acc ++ bs), w) /\
    Forall2 (describes this ty attrName placeholder)
      (List.filter (fun e => WebDecompiler.has_attr e attrName) elements) bs.
Proof.
  induction elements as [|e elements IH]; intros Hres acc.
  - exists []. rewrite app_nil_r. split; [reflexivity|constructor].
  - assert (Hres' : all_resolvable this attrName elements).
    { intros e' ref He'. apply Hres. by right. }
    cbn [for_of List.filter]. unfold Exc.bind, WebDecompiler.has_attr.
    destruct (WebDecompiler.attr (attribs e) attrName) as [ref|] eqn:Hattr.
    + destruct (Hres e ref ltac:(by left) Hattr) as [Hne [u Hu]].
      rewrite (push_bundle_pushes _ _ _ _ _ _ _ ref u) by done.
      destruct (IH Hres' (acc ++ [BundleInfo.mk u ty (or_else (split_pop "/" ref) placeholder)]))
        as (bs & -> & Hall).
      eexists (_ :: bs). rewrite <- app_assoc. split; [reflexivity|].
      constructor; [|exact Hall]. exists ref. by rewrite Hattr, Hu.
    + rewrite push_bundle_skips by done. apply (IH Hres' acc).
Qed.

Lemma script_src_has_src (doc : list Element) :
  List.filter (fun e => WebDecompiler.has_attr e "src")
    (WebDecompiler.select WebDecompiler.is_script_src doc)
  = WebDecompiler.select WebDecompiler.is_script_src doc.
Proof.
  unfold WebDecompiler.select. induction doc as [|e doc IH]; [done|]. simpl.
  destruct (WebDecompiler.is_script_src e) eqn:He; [|done]. simpl.
  unfold WebDecompiler.is_script_src in He. apply andb_true_iff in He as [_ ->].
  by rewrite IH.
Qed.

(** C2 (amended). For a root document with N script references with a
    source attribute and M stylesheet links with an href attribute, every
    reference non-empty and resolvable, discovery returns exactly N + M
    bundles: first one per script reference, in document order, then one
    per stylesheet reference, in document order. *)
Theorem discovery_lists_scripts_then_stylesheets
    (this : WebDecompiler.t) (doc : list Element) (w : World) :
  let scripts := WebDecompiler.select WebDecompiler.is_script_src doc in
  let links :=
    List.filter (fun e => WebDecompiler.has_attr e "href")
      (WebDecompiler.select WebDecompiler.is_stylesheet_link doc) in
  all_resolvable this "src" scripts ->
  all_resolvable this "href" links ->
  exists js_bundles css_bundles,
    WebDecompiler.collect_bundles this doc w = (Ok (js_bundles ++ css_bundles), w) /\
    length (js_bundles ++ css_bundles) = length scripts + length links /\
    Forall2 (describes this js "src" "script.js") scripts js_bundles /\
    Forall2 (describes this css "href" "style.css") links css_bundles.
Proof.
  intros scripts links Hs Hl.
  destruct (push_all this js "src" "script.js" w scripts Hs []) as (jsb & Hrun1 & Hall1).
  assert (Hl' : all_resolvable this "href"
                  (WebDecompiler.select WebDecompiler.is_stylesheet_link doc)).
  { intros e ref He Hattr. apply (Hl e ref); [|done].
    apply list_elem_of_In, List.filter_In. split; [by apply list_elem_of_In|].
    unfold WebDecompiler.has_attr. by rewrite Hattr. }
  destruct (push_all this css "href" "style.css" w _ Hl' jsb) as (cssb & Hrun2 & Hall2).
  exists jsb, cssb.
  unfold WebDecompiler.collect_bundles, Exc.bind. fold scripts. rewrite Hrun1.
  simpl app. rewrite Hrun2. split; [done|].
  unfold scripts in Hall1. rewrite script_src_has_src in Hall1.
  split; [|done].
  rewrite length_app. f_equal.
  - symmetry. eapply Forall2_length, Hall1.
  - symmetry. eapply Forall2_length, Hall2.
Qed.

End Discovery.

(* ===================================================================== *)
(** * The file-content endpoint *)
(* ===================================================================== *)

Section FileContent.
Import Js.
Import DecompilationResult.


(** On files that are not empty the lookup is the one of the map. *)
Lemma lookup_truthy_nonempty (files : gmap string string) (name content : string) :
  files !! name = Some content -> content <> "" ->
  Handlers.lookup_truthy files name = Some (PlainObject.OwnText content).
Proof.
  intros Hf Hc%truthy_true.
  unfold Handlers.lookup_truthy, PlainObject.get. rewrite Hf. simpl. by rewrite Hc.
Qed.

(** C10 (the code at the failing input). After the job [job1] for a site
    whose style sheet [/style.css] has an empty body, [style.css] is a key
    of [originalFiles] (with the empty text), and the endpoint, asked for
    that file, answers [File not found]. *)
Theorem empty_file_is_reported_missing :
  (exists result,
     Examples.registry_after_empty_stylesheet !! "job1" = Some result /\
     originalFiles result !! "style.css" = Some "") /\
  Handlers.GET Examples.registry_after_empty_stylesheet "job1" (Some "style.css")
    = GetError 404 "File not found".
Proof.
  split; [|by vm_compute].
  eexists. split; [by vm_compute|by vm_compute].
Qed.

End FileContent.

(* ===================================================================== *)
(** * Component extraction *)
(* ===================================================================== *)

Section LangInversion.
Import Chars Regex Js Patterns Spec.

Lemma Lang_seq_inv r1 r2 w c c2 :
  Lang (Seq r1 r2) w c c2 ->
  exists w1 w2 c1, w = w1 ++ w2 /\ Lang r1 w1 c c1 /\ Lang r2 w2 c1 c2.
Proof. inversion 1; subst. eauto 6. Qed.

Lemma Lang_cls_inv p w c c' :
  Lang (Cls p) w c c' -> exists a, w = [a] /\ p a = true /\ c' = c.
Proof. inversion 1; subst. eauto. Qed.

Lemma Lang_star_inv p w c c' :
  Lang (StarC p) w c c' -> forallb p w = true /\ c' = c.
Proof. inversion 1; subst. eauto. Qed.

Lemma Lang_plus_inv p w c c' :
  Lang (plus p) w c c' -> w <> [] /\ forallb p w = true /\ c' = c.
Proof.
  unfold plus. intros (w1 & w2 & c1 & -> & H1 & H2)%Lang_seq_inv.
  apply Lang_cls_inv in H1 as (a & -> & Ha & ->).
  apply Lang_star_inv in H2 as (Hw & ->).
  split; [done|]. split; [|done]. simpl. by rewrite Ha, Hw.
Qed.

Lemma Lang_lit_chars_inv l w c c' :
  Lang (lit_chars l) w c c' -> w = l /\ c' = c.
Proof.
  revert w c. induction l as [|a l IH]; simpl; intros w c HL.
  - by inversion HL; subst.
  - apply Lang_seq_inv in HL as (w1 & w2 & c1 & -> & H1 & H2).
    apply Lang_chr in H1 as Hw1. subst w1.
    apply Lang_cls_inv in H1 as (? & _ & _ & ->).
    apply IH in H2 as [-> ->]. done.
Qed.

Lemma Lang_lit_inv s w c c' : Lang (lit s) w c c' -> w = chars s /\ c' = c.
Proof. apply Lang_lit_chars_inv. Qed.

(** A pattern without the group leaves the capture as it is. *)
Lemma Lang_capture_unchanged r w c c' :
  Lang r w c c' -> has_group r = false -> c' = c.
Proof.
  induction 1; simpl; intros Hg; try done.
  - apply orb_false_iff in Hg as [H1 H2]. rewrite IHLang2, IHLang1; done.
  - apply orb_false_iff in Hg as [H1 _]. auto.
  - apply orb_false_iff in Hg as [_ H2]. auto.
  - auto.
Qed.





(** What a pattern that starts with a keyword, blanks and the component
    name reads and captures. *)
Lemma keyword_pattern_capture kw rest_pattern w cap :
  has_group (seqs rest_pattern) = false ->
  Lang (seqs (lit kw :: plus is_space :: component_name :: rest_pattern)) w None cap ->
  exists u a n wr,
    w = chars kw ++ u ++ (a :: n) ++ wr /\
    cap = Some (a :: n) /\
    u <> [] /\ forallb is_space u = true /\
    is_upper a = true /\ forallb is_alnum n = true /\
    Lang (seqs rest_pattern) wr (Some (a :: n)) (Some (a :: n)).
Proof.
  intros Hg HL. cbn [seqs] in HL.
  apply Lang_seq_inv in HL as (w1 & wa & c1 & -> & H1 & HL).
  apply Lang_lit_inv in H1 as [-> ->].
  apply Lang_seq_inv in HL as (u & wb & c2 & -> & H2 & HL).
  apply Lang_plus_inv in H2 as (Hu & Hus & ->).
  apply Lang_seq_inv in HL as (nm & wr & c3 & -> & H3 & HL).
  unfold component_name in H3. inversion H3 as [| | | | | | | |? ? ? c4 H3']; subst.
  apply Lang_seq_inv in H3' as (x & n & c5 & -> & Hx & Hn).
  apply Lang_cls_inv in Hx as (a & -> & Ha & ->).
  apply Lang_star_inv in Hn as (Hn & ->).
  pose proof (Lang_capture_unchanged _ _ _ _ HL Hg) as ->.
  exists u, a, n, wr. simpl. auto 10.
Qed.

(** Two runs of a class that end where something outside the class
    starts are the same run. *)
Lemma run_unique p : forall a b x y,
  forallb p a = true -> forallb p b = true ->
  starts_outside p x -> starts_outside p y ->
  a ++ x = b ++ y -> a = b /\ x = y.
Proof.
  induction a as [|c a IH]; intros b x y Ha Hb Hx Hy Heq.
  - destruct b as [|d b]; [done|]. simpl in *. subst x. simpl in Hx.
    apply andb_true_iff in Hb as [Hd _]. congruence.
  - destruct b as [|d b].
    + simpl in *. subst y. simpl in Hy.
      apply andb_true_iff in Ha as [Hc _]. congruence.
    + simpl in *. injection Heq as -> Heq.
      apply andb_true_iff in Ha as [_ Ha]. apply andb_true_iff in Hb as [_ Hb].
      destruct (IH b x y Ha Hb Hx Hy Heq) as [-> ->]. done.
Qed.





End LangInversion.

Section Components.
Import Chars Regex Js Patterns Spec.

(** The rest of the first pattern, after the name. *)
Lemma function_component_unfold :
  function_component =
  seqs (lit "function" :: plus is_space :: component_name ::
        [StarC is_space; chr "("; StarC (not_char ")"); chr ")"; StarC is_space;
         chr "{"; StarC (not_char "}"); lit "return"; plus is_space;
         StarC (not_char "}"); lit "js"; Opt (chr "x"); StarC (not_char "}");
         chr "}"]).
Proof. reflexivity. Qed.





(** Every match reported by the search is an answer of the matcher. *)
Lemma exec_all_sound r m : forall s skip,
  In m (exec_all r s skip) ->
  exists s1 rest, match_at r s1 = Some (rest, m1 m).
Proof.
  induction s as [|a s IH]; intros skip Hin; [done|].
  simpl in Hin. destruct skip as [|k]; [|by eapply IH].
  destruct (match_at r (a :: s)) as [[rest cap]|] eqn:Hm; [|by eapply IH].
  destruct Hin as [<-|Hin]; [|by eapply IH]. simpl. eauto.
Qed.

(** Every candidate has a name that starts with an upper-case letter. *)
Lemma component_names_uppercase text file c :
  In c (WebDecompiler.found_components text file) ->
  exists a n, ExtractedComponent.name c = String a n /\ is_upper a = true.
Proof.
  unfold WebDecompiler.found_components.
  intros (pattern & Hp & Hc)%in_flat_map.
  apply in_flat_map in Hc as (m & Hm & Hc).
  apply exec_all_sound in Hm as (s1 & rest & Hm).
  apply match_at_sound in Hm as (w & _ & HL).
  assert (Hcap : exists a n, m1 m = Some (a :: n) /\ is_upper a = true).
  { simpl in Hp. destruct Hp as [<-|[<-|[<-|[]]]];
      [rewrite function_component_unfold in HL|..];
      apply keyword_pattern_capture in HL as (? & a & n & ? & _ & -> & _ & _ & Ha & _);
      try reflexivity; eauto. }
  destruct Hcap as (a & n & Hcap & Ha).
  unfold WebDecompiler.component_of in Hc. rewrite Hcap in Hc.
  destruct (Ascii.eqb a (toUpperCase a)); [|done].
  destruct Hc as [<-|[]]. simpl. eauto.
Qed.

End Components.

Section ComponentClaim.
Import Chars Regex Js Patterns Spec.



End ComponentClaim.



(* ===================================================================== *)
(** * Instances on the example sites *)
(* ===================================================================== *)

(** A style sheet in the head and a script at the end of the body: the
    script comes first in the bundle list, the document has it last. *)
Lemma discovery_order_counterexample :
  WebDecompiler.collect_bundles (H := Fake.platform Examples.stylesheet_first_site)
    (WebDecompiler.fresh Examples.root "job1" 0) Examples.stylesheet_first_doc 0
    = (Ok [Examples.bundle_js; Examples.style_css], 0)
  /\ Spec.discover_in_document_order (H := Fake.platform Examples.stylesheet_first_site)
       (WebDecompiler.fresh Examples.root "job1" 0) Examples.stylesheet_first_doc 0
     = (Ok [Examples.style_css; Examples.bundle_js], 0)
  /\ WebDecompiler.collect_bundles (H := Fake.platform Examples.stylesheet_first_site)
       (WebDecompiler.fresh Examples.root "job1" 0) Examples.stylesheet_first_doc 0
     <> Spec.discover_in_document_order (H := Fake.platform Examples.stylesheet_first_site)
          (WebDecompiler.fresh Examples.root "job1" 0) Examples.stylesheet_first_doc 0.
Proof.
  split; [by vm_compute|]. split; [by vm_compute|].
  vm_compute. discriminate.
Qed.

Lemma discovery_witness :
  exists js_bundles css_bundles,
    WebDecompiler.collect_bundles (H := Fake.platform Examples.stylesheet_first_site)
      (WebDecompiler.fresh Examples.root "job1" 0) Examples.stylesheet_first_doc 0
      = (Ok (js_bundles ++ css_bundles), 0) /\
    length (js_bundles ++ css_bundles) = 1 + 1.
Proof.
  destruct (discovery_lists_scripts_then_stylesheets
              (H := Fake.platform Examples.stylesheet_first_site)
              (WebDecompiler.fresh Examples.root "job1" 0)
              Examples.stylesheet_first_doc 0)
    as (jsb & cssb & Hrun & Hlen & _).
  - intros e ref He Hattr. vm_compute in He.
    apply list_elem_of_singleton in He as ->. injection Hattr as <-.
    split; [done|]. by eexists.
  - intros e ref He Hattr. vm_compute in He.
    apply list_elem_of_singleton in He as ->. injection Hattr as <-.
    split; [done|]. by eexists.
  - exists jsb, cssb. split; [exact Hrun|exact Hlen].
Defined.

(** The root document of [unreachable_site] cannot be retrieved. *)
Lemma fatal_failure_witness :
  (exists w1, axios_get (Platform := Fake.platform Examples.unreachable_site)
                Examples.root 15000 true 0 = (None, w1)) /\
  exists status error details w',
    Handlers.POST (H := Fake.platform Examples.unreachable_site)
      (DecompilationRequest.mk Examples.root "job1") ∅ 0
      = (PostError status error details, ∅, w') /\
    error <> "".
Proof.
  assert (Hfail : exists w1, axios_get (Platform := Fake.platform Examples.unreachable_site)
                               Examples.root 15000 true 0 = (None, w1))
    by (by eexists).
  split; [exact Hfail|].
  destruct (fatal_failure_aborts_the_job (H := Fake.platform Examples.unreachable_site)
              (DecompilationRequest.mk Examples.root "job1") ∅ 0 (or_introl Hfail))
    as (status & error & details & w' & Hpost & Herr & _).
  by exists status, error, details, w'.
Defined.

(** Two jobs whose file counter differs from the number of JS bundles
    recorded in the beautified-files map.  The script of
    [unformattable_script_site] is stored under the raw prefix and not
    counted.  Of the two scripts of [same_name_scripts_site] one is
    retrieved; both have their entry in the map, the same one. *)
Lemma counters_counterexample :
  (exists r,
     Examples.returned
       (Handlers.run_job (H := Fake.platform Examples.unformattable_script_site)
          Examples.root "job1" 0) = Some r /\
     DecompilationResult.beautifiedFiles r !! "raw_bundle.js"
       = Some "function Header(){return jsx}" /\
     Spec.recorded js r = 1 /\
     Analysis.jsFiles (DecompilationResult.analysis r) = 0 /\
     Analysis.jsFiles (DecompilationResult.analysis r) <> Spec.recorded js r) /\
  (exists r,
     Examples.returned
       (Handlers.run_job (H := Fake.platform Examples.same_name_scripts_site)
          Examples.root "job2" 0) = Some r /\
     DecompilationResult.beautifiedFiles r !! "beautified_app.js" = Some "var b = 1;" /\
     Spec.recorded js r = 2 /\
     Analysis.jsFiles (DecompilationResult.analysis r) = 1 /\
     Analysis.jsFiles (DecompilationResult.analysis r) <> Spec.recorded js r).
Proof.
  split; eexists; (split; [by vm_compute|]);
    (split; [by vm_compute|]); (split; [by vm_compute|]);
    (split; [by vm_compute|]); by vm_compute.
Qed.

Lemma counters_witness :
  Handlers.run_job (H := Fake.platform Examples.stylesheet_first_site)
    Examples.root "job1" 0 = (Ok Examples.stylesheet_first_result, 4) /\
  Analysis.components (DecompilationResult.analysis Examples.stylesheet_first_result)
    = length (DecompilationResult.components Examples.stylesheet_first_result) /\
  Analysis.modules (DecompilationResult.analysis Examples.stylesheet_first_result)
    = length (DecompilationResult.modules Examples.stylesheet_first_result) /\
  Analysis.jsFiles (DecompilationResult.analysis Examples.stylesheet_first_result)
    = Spec.stored_beautified js
        (DecompilationResult.bundles Examples.stylesheet_first_result)
        (DecompilationResult.beautifiedFiles Examples.stylesheet_first_result) /\
  Analysis.cssFiles (DecompilationResult.analysis Examples.stylesheet_first_result)
    = Spec.stored_beautified css
        (DecompilationResult.bundles Examples.stylesheet_first_result)
        (DecompilationResult.beautifiedFiles Examples.stylesheet_first_result).
Proof.
  assert (Hrun : Handlers.run_job (H := Fake.platform Examples.stylesheet_first_site)
                   Examples.root "job1" 0 = (Ok Examples.stylesheet_first_result, 4))
    by (by vm_compute).
  split; [exact Hrun|].
  destruct (counters_at_hand_off (H := Fake.platform Examples.stylesheet_first_site)
              _ _ _ _ _ Hrun) as (Hc & Hm & Hfiles).
  split; [exact Hc|]. split; [exact Hm|].
  apply Hfiles. simpl.
  apply NoDup_cons. split; [by intros [=]%list_elem_of_singleton|].
  apply NoDup_singleton.
Defined.


(* ===================================================================== *)
(** * Further properties: discovery *)
(* ===================================================================== *)

Section MoreDiscovery.
Import Chars Js Exc Spec Text.
Import DecompilationResult.
Context `{Platform}.

(** An invariant of the state that every turn of a loop keeps holds when
    the loop ends. *)
Lemma for_of_invariant {A S} (I : S -> Prop) (body : A -> S -> M S) (xs : list A) :
  (forall x s w s' w', x ∈ xs -> I s -> body x s w = (Ok s', w') -> I s') ->
  forall s w s' w', I s -> for_of xs body s w = (Ok s', w') -> I s'.
Proof.
  induction xs as [|x xs IH]; intros Hbody s w s' w' Hs Hrun; simpl in Hrun.
  - unfold Exc.ret in Hrun. by injection Hrun as <- _.
  - unfold Exc.bind in Hrun. destruct (body x s w) as [[s1|e] w1] eqn:Hb; [|done].
    eapply IH; [|eapply Hbody; [by left|exact Hs|exact Hb]|exact Hrun].
    intros y t v t' v' Hy. apply Hbody. by right.
Qed.

Lemma split_pop_fold sep (l acc : list ascii) :
  forallb (not_char sep) acc = true ->
  forallb (not_char sep)
    (fold_left (fun acc c => if Ascii.eqb c sep then [] else acc ++ [c]) l acc) = true.
Proof.
  revert acc. induction l as [|c l IH]; intros acc Hacc; simpl; [done|].
  apply IH. destruct (Ascii.eqb c sep) eqn:Hc; [done|].
  rewrite forallb_app, Hacc. simpl. unfold not_char.
  rewrite Ascii.eqb_sym, Hc. done.
Qed.

(** The last segment of a path holds no separator. *)
Lemma split_pop_no_slash (s : string) : no_slash (split_pop "/" s).
Proof.
  unfold no_slash, split_pop. rewrite chars_str. by apply split_pop_fold.
Qed.

Lemma or_else_nonempty (a b : string) : b <> "" -> or_else a b <> "".
Proof.
  intros Hb. unfold or_else. destruct (truthy a) eqn:Ha; [|done].
  by apply truthy_true.
Qed.

Lemma or_else_no_slash (a b : string) : no_slash a -> no_slash b -> no_slash (or_else a b).
Proof. intros Ha Hb. unfold or_else. by destruct (truthy a). Qed.

Lemma push_bundle_filenames this ty attrName placeholder e acc (w : World) acc' w' :
  placeholder <> "" -> no_slash placeholder ->
  Forall (fun b => BundleInfo.filename b <> "" /\ no_slash (BundleInfo.filename b)) acc ->
  WebDecompiler.push_bundle this ty attrName placeholder e acc w = (Ok acc', w') ->
  Forall (fun b => BundleInfo.filename b <> "" /\ no_slash (BundleInfo.filename b)) acc'.
Proof.
  intros Hp Hps Hacc. unfold WebDecompiler.push_bundle.
  destruct (WebDecompiler.attr _ _) as [src|]; [|by intros [= <- _]].
  destruct (truthy src); [|by intros [= <- _]].
  destruct (WebDecompiler.fullUrl this src) as [u|]; [|done].
  intros [= <- _]. apply Forall_app. split; [done|].
  constructor; [|done]. simpl. split.
  - by apply or_else_nonempty.
  - apply or_else_no_slash; [apply split_pop_no_slash|done].
Qed.

(** X1. Every bundle that discovery returns has a file name that is not
    empty and holds no slash. *)
Theorem discovered_filenames_are_plain
    (this : WebDecompiler.t) (doc : list Element) (w w' : World)
    (bundles : list BundleInfo.t) :
  WebDecompiler.collect_bundles this doc w = (Ok bundles, w') ->
  Forall (fun b => BundleInfo.filename b <> "" /\ no_slash (BundleInfo.filename b))
         bundles.
Proof.
  unfold WebDecompiler.collect_bundles, Exc.bind.
  destruct (for_of _ _ [] w) as [[bs1|e] w1] eqn:H1; [|done].
  intros H2.
  eapply (for_of_invariant
            (Forall (fun b => BundleInfo.filename b <> "" /\ no_slash (BundleInfo.filename b))));
    [| |exact H2].
  - intros e s v s' v' _ Hs Hb.
    eapply push_bundle_filenames; [| | exact Hs | exact Hb]; done.
  - eapply (for_of_invariant
              (Forall (fun b => BundleInfo.filename b <> "" /\ no_slash (BundleInfo.filename b))));
      [| |exact H1]; [|constructor].
    intros e s v s' v' _ Hs Hb.
    eapply push_bundle_filenames; [| | exact Hs | exact Hb]; done.
Qed.

(** A loop of [push_bundle] over elements one of which carries a
    reference that does not resolve throws. *)
Lemma push_all_throws this ty attrName placeholder (w : World)
    (elements : list Element) bad ref :
  bad ∈ elements ->
  WebDecompiler.attr (attribs bad) attrName = Some ref ->
  ref <> "" ->
  WebDecompiler.fullUrl this ref = None ->
  forall acc,
    for_of elements (WebDecompiler.push_bundle this ty attrName placeholder) acc w
    = (Throw "Invalid URL", w).
Proof.
  intros Hin Hattr Hne%truthy_true Hfull.
  induction elements as [|e elements IH]; intros acc; [by apply elem_of_nil in Hin|].
  cbn [for_of]. unfold Exc.bind.
  destruct (WebDecompiler.push_bundle this ty attrName placeholder e acc w)
    as [[acc'|msg] w1] eqn:Hpush.
  - pose proof (push_bundle_same_world _ _ _ _ _ _ _ _ _ Hpush) as ->.
    apply IH. apply elem_of_cons in Hin as [->|Hin]; [|done].
    unfold WebDecompiler.push_bundle, Exc.throw in Hpush.
    by rewrite Hattr, Hne, Hfull in Hpush.
  - pose proof (push_bundle_same_world _ _ _ _ _ _ _ _ _ Hpush) as ->.
    f_equal. f_equal. unfold WebDecompiler.push_bundle, Exc.ret, Exc.throw in Hpush.
    destruct (WebDecompiler.attr (attribs e) attrName) as [src|]; [|done].
    destruct (truthy src); [|done].
    destruct (WebDecompiler.fullUrl this src); [done|].
    by injection Hpush as <-.
Qed.

(** X2. One script source or stylesheet href that the URL constructor
    rejects is fatal for the whole job: when the root document is
    retrieved and holds such a reference, the job throws
    [Failed to analyze HTML structure], whatever the other references
    are. *)
Theorem unresolvable_reference_is_fatal
    (url jobId : string) (w w1 : World) (response : Response)
    (bad : Element) (attrName ref : string) :
  axios_get url 15000 true w = (Some response, w1) ->
  (attrName = "src" /\
   bad ∈ WebDecompiler.select WebDecompiler.is_script_src (cheerio_load (data response))) \/
  (attrName = "href" /\
   bad ∈ WebDecompiler.select WebDecompiler.is_stylesheet_link (cheerio_load (data response))) ->
  WebDecompiler.attr (attribs bad) attrName = Some ref ->
  ref <> "" ->
  WebDecompiler.fullUrl (WebDecompiler.fresh url jobId (Date_now w)) ref = None ->
  Handlers.run_job url jobId w = (Throw "Failed to analyze HTML structure", w1).
Proof.
  intros Hget Hbad Hattr Hne Hfull.
  unfold Handlers.run_job, WebDecompiler.constructor, WebDecompiler.runFullDecompilation.
  unfold Exc.bind at 1 2. unfold Exc.now, Exc.ret at 1, Exc.try_catch, Exc.bind at 1.
  unfold WebDecompiler.analyzeHTML, Exc.try_catch, Exc.bind at 1, Exc.get.
  cbn [WebDecompiler.baseUrl WebDecompiler.fresh]. rewrite Hget.
  unfold Exc.bind at 1.
  assert (Hcollect :
    WebDecompiler.collect_bundles (WebDecompiler.fresh url jobId (Date_now w))
      (cheerio_load (data response)) w1 = (Throw "Invalid URL", w1)).
  { unfold WebDecompiler.collect_bundles, Exc.bind.
    destruct Hbad as [[-> Hin]|[-> Hin]].
    - by rewrite (push_all_throws _ js "src" "script.js" w1 _ bad ref).
    - destruct (for_of _ _ [] w1) as [[bs|e] w2] eqn:H1.
      + apply for_of_same_world in H1 as ->;
          [|intros; by eapply push_bundle_same_world].
        by rewrite (push_all_throws _ css "href" "style.css" w1 _ bad ref).
      + assert (w2 = w1) as ->
          by (eapply for_of_same_world; [|exact H1]; intros; by eapply push_bundle_same_world).
        assert (Hmsg : forall (xs : list Element) acc v m v',
                  for_of xs (WebDecompiler.push_bundle
                               (WebDecompiler.fresh url jobId (Date_now w))
                               js "src" "script.js") acc v = (Throw m, v') ->
                  m = "Invalid URL").
        { induction xs as [|x xs IH]; intros acc v m v'; simpl; [done|].
          unfold Exc.bind.
          destruct (WebDecompiler.push_bundle _ js "src" "script.js" x acc v)
            as [[acc'|m'] v1] eqn:Hp; [by apply IH|].
          intros [= <- _]. unfold WebDecompiler.push_bundle, Exc.ret, Exc.throw in Hp.
          destruct (WebDecompiler.attr (attribs x) "src") as [src|]; [|done].
          destruct (truthy src); [|done].
          destruct (WebDecompiler.fullUrl _ src); [done|]. by injection Hp as <-. }
        by rewrite (Hmsg _ _ _ _ _ H1). }
  rewrite Hcollect. reflexivity.
Qed.

End MoreDiscovery.

(* ===================================================================== *)
(** * Further properties: the record at hand-off *)
(* ===================================================================== *)

Section HandOff.
Import Chars Regex Js Patterns Exc Spec Text.
Import DecompilationResult.
Context `{Platform}.

(** The four things processing a bundle can do, with the record that
    results. *)
Lemma process_bundle_cases (b : BundleInfo.t) (this : WebDecompiler.t) (w : World) :
  exists this' w',
    WebDecompiler.process_bundle b this w = (Ok this', w') /\
    WebDecompiler.baseUrl this' = WebDecompiler.baseUrl this /\
    let r := WebDecompiler.results this in
    let fn := BundleInfo.filename b in
    (WebDecompiler.results this' = r \/
     (exists content text,
        BundleInfo.type b = js /\
        WebDecompiler.results this' =
          WebDecompiler.extractModules text fn
            (WebDecompiler.extractReactComponents text fn
               (WebDecompiler.incr_jsFiles
                  (with_beautifiedFiles
                     (<["beautified_" +:+ fn := text]> (beautifiedFiles r))
                     (with_originalFiles (<[fn := content]> (originalFiles r)) r))))) \/
     (exists content,
        BundleInfo.type b = js /\
        WebDecompiler.results this' =
          with_beautifiedFiles (<["raw_" +:+ fn := content]> (beautifiedFiles r))
            (with_originalFiles (<[fn := content]> (originalFiles r)) r)) \/
     (exists content,
        BundleInfo.type b = css /\
        WebDecompiler.results this' =
          WebDecompiler.incr_cssFiles
            (with_beautifiedFiles
               (<["beautified_" +:+ fn := WebDecompiler.beautifyCSS content]>
                  (beautifiedFiles r))
               (with_originalFiles (<[fn := content]> (originalFiles r)) r)))).
Proof.
  unfold WebDecompiler.process_bundle.
  destruct b as [u ty fn]. destruct ty; simpl.
  - unfold WebDecompiler.downloadAndDecompileJS. unfold_monad. simpl.
    destruct (axios_get u 30000 true w) as [[resp|] w'].
    + destruct (beautify (data resp)) as [text|].
      * eexists _, _. split; [reflexivity|]. split; [done|].
        right. left. by exists (data resp), text.
      * eexists _, _. split; [reflexivity|]. split; [done|].
        right. right. left. by exists (data resp).
    + eexists _, _. split; [reflexivity|]. split; [done|]. by left.
  - unfold WebDecompiler.downloadAndDecompileCSS. unfold_monad. simpl.
    destruct (axios_get u 30000 true w) as [[resp|] w'].
    + eexists _, _. split; [reflexivity|]. split; [done|].
      right. right. right. by exists (data resp).
    + eexists _, _. split; [reflexivity|]. split; [done|]. by left.
Qed.

(** The stages a job that returns a record went through. *)
Lemma run_job_stages url jobId w r w' :
  Handlers.run_job url jobId w = (Ok r, w') ->
  exists response w1 bs this2 w2 this3,
    axios_get url 15000 true w = (Some response, w1) /\
    WebDecompiler.collect_bundles (WebDecompiler.fresh url jobId (Date_now w))
      (cheerio_load (data response)) w1 = (Ok bs, w1) /\
    bs <> [] /\
    WebDecompiler.trySourceMapRecovery
      (WebDecompiler.mk url
         (DecompilationResult.mk jobId url (Date_now w) bs [] []
            {["index.html" := data response]} ∅ (Analysis.mk 0 0 0 0))) w1
      = (Ok this2, w2) /\
    for_of bs WebDecompiler.process_bundle this2 w2 = (Ok this3, w') /\
    r = WebDecompiler.results this3.
Proof.
  intros Hrun.
  pose proof Hrun as Hrun0.
  unfold Handlers.run_job, WebDecompiler.constructor, WebDecompiler.runFullDecompilation
    in Hrun.
  unfold Exc.bind at 1 2 in Hrun.
  unfold Exc.now, Exc.ret at 1, Exc.try_catch, Exc.bind at 1 in Hrun.
  destruct (WebDecompiler.analyzeHTML (WebDecompiler.fresh url jobId (Date_now w)) w)
    as [[found|e] w1] eqn:Ha; [|unfold Exc.throw in Hrun; congruence].
  apply analyzeHTML_ok in Ha as (response & Hget & Hcollect & _).
  destruct found as [bs this1]. cbn [fst snd] in *.
  assert (Hne : bs <> []).
  { intros ->. simpl in Hrun. unfold Exc.throw in Hrun. congruence. }
  destruct (run_job_complete url jobId w response w1 bs Hget Hcollect Hne)
    as (this2 & w2 & this3 & w3 & Hrec & Hloop & Hrun').
  rewrite Hrun' in Hrun0. injection Hrun0 as <- <-.
  exists response, w1, bs, this2, w2, this3. auto 10.
Qed.

(** The fields that bundle processing never writes. *)
Lemma process_all_identity (bs : list BundleInfo.t) : forall this w this' w',
  for_of bs WebDecompiler.process_bundle this w = (Ok this', w') ->
  jobId (WebDecompiler.results this') = jobId (WebDecompiler.results this) /\
  url (WebDecompiler.results this') = url (WebDecompiler.results this) /\
  timestamp (WebDecompiler.results this') = timestamp (WebDecompiler.results this) /\
  bundles (WebDecompiler.results this') = bundles (WebDecompiler.results this).
Proof.
  intros this w this' w' Hrun.
  eapply (for_of_invariant
            (fun s => jobId (WebDecompiler.results s) = jobId (WebDecompiler.results this) /\
                      url (WebDecompiler.results s) = url (WebDecompiler.results this) /\
                      timestamp (WebDecompiler.results s)
                        = timestamp (WebDecompiler.results this) /\
                      bundles (WebDecompiler.results s)
                        = bundles (WebDecompiler.results this)));
    [| |exact Hrun]; [|done].
  intros b s v s' v' _ Hs Hb.
  destruct (process_bundle_cases b s v) as (s1 & v1 & Hb' & _ & Hcase).
  rewrite Hb' in Hb. injection Hb as <- <-. cbn zeta in Hcase.
  destruct Hcase as [->|[(c & t & _ & ->)|[(c & _ & ->)|(c & _ & ->)]]]; exact Hs.
Qed.

(** X3. The record a job returns carries the job id and the URL of the
    request and the time of its start; its bundle list is the list that
    discovery returned, and it is not empty. *)
Theorem hand_off_identity url jobId (w w' : World) r :
  Handlers.run_job url jobId w = (Ok r, w') ->
  DecompilationResult.jobId r = jobId /\
  DecompilationResult.url r = url /\
  timestamp r = Date_now w /\
  bundles r <> [] /\
  exists response w1,
    axios_get url 15000 true w = (Some response, w1) /\
    WebDecompiler.collect_bundles (WebDecompiler.fresh url jobId (Date_now w))
      (cheerio_load (data response)) w1 = (Ok (bundles r), w1).
Proof.
  intros (response & w1 & bs & this2 & w2 & this3 & Hget & Hcollect & Hne & Hrec & Hloop & ->)
    %run_job_stages.
  destruct (trySourceMapRecovery_frame
              (WebDecompiler.mk url
                 (DecompilationResult.mk jobId url (Date_now w) bs [] []
                    {["index.html" := data response]} ∅ (Analysis.mk 0 0 0 0))) w1)
    as (this2' & w2' & files & Hrec' & _ & Hr2).
  rewrite Hrec in Hrec'. injection Hrec' as <- <-.
  destruct (process_all_identity _ _ _ _ _ Hloop) as (Hj & Hu & Ht & Hb).
  rewrite Hr2 in Hj, Hu, Ht, Hb. simpl in *.
  rewrite Hj, Hu, Ht, Hb. eauto 10.
Qed.

End HandOff.

(* ===================================================================== *)
(** * Further properties: source-map recovery *)
(* ===================================================================== *)

Section MoreRecovery.
Import Chars Js Exc Spec Text.
Import DecompilationResult.
Context `{Platform}.

(** Every entry of [files'] is the one of [files], or a recovered source
    under a key [source_] + a plain segment. *)
Lemma recover_at_entries u sources contents files i k :
  WebDecompiler.recover_at u sources contents files i !! k = files !! k \/
  exists seg sourcePath content,
    k = "source_" +:+ seg /\ seg <> "" /\ no_slash seg /\
    WebDecompiler.recover_at u sources contents files i !! k
      = Some (WebDecompiler.recovered_text u sourcePath content).
Proof.
  unfold WebDecompiler.recover_at.
  destruct (mjoin (sources !! i)) as [sourcePath|]; [|by left].
  destruct (mjoin (contents !! i)) as [content|]; [|by left].
  destruct (truthy content && truthy sourcePath); [|by left].
  cbn zeta.
  set (seg := or_else (split_pop "/" _) "unknown.js").
  destruct (decide ("source_" +:+ seg = k)) as [<-|Hne].
  - right. exists seg, sourcePath, content. split; [done|].
    split; [by apply or_else_nonempty|].
    split; [apply or_else_no_slash; [apply split_pop_no_slash|done]|].
    apply lookup_insert_eq.
  - left. by apply lookup_insert_ne.
Qed.

Lemma recover_fold_entries u sources contents (indices : list nat) : forall files k,
  fold_left (WebDecompiler.recover_at u sources contents) indices files !! k = files !! k \/
  exists seg sourcePath content,
    k = "source_" +:+ seg /\ seg <> "" /\ no_slash seg /\
    fold_left (WebDecompiler.recover_at u sources contents) indices files !! k
      = Some (WebDecompiler.recovered_text u sourcePath content).
Proof.
  induction indices as [|i indices IH]; intros files k; simpl; [by left|].
  destruct (IH (WebDecompiler.recover_at u sources contents files i) k) as [Heq|Hnew];
    [|by right].
  rewrite Heq. apply recover_at_entries.
Qed.

Lemma recover_bundle_entries b this w :
  exists this' w' files,
    WebDecompiler.recover_bundle b this w = (Ok this', w') /\
    WebDecompiler.baseUrl this' = WebDecompiler.baseUrl this /\
    WebDecompiler.results this' = with_originalFiles files (WebDecompiler.results this) /\
    forall k,
      files !! k = originalFiles (WebDecompiler.results this) !! k \/
      exists seg u sourcePath content,
        k = "source_" +:+ seg /\ seg <> "" /\ no_slash seg /\
        files !! k = Some (WebDecompiler.recovered_text u sourcePath content).
Proof.
  assert (Hsame : exists files,
            WebDecompiler.results this = with_originalFiles files (WebDecompiler.results this) /\
            forall k,
              files !! k = originalFiles (WebDecompiler.results this) !! k \/
              exists seg u sourcePath content,
                k = "source_" +:+ seg /\ seg <> "" /\ no_slash seg /\
                files !! k = Some (WebDecompiler.recovered_text u sourcePath content)).
  { exists (originalFiles (WebDecompiler.results this)).
    split; [by rewrite with_originalFiles_id|]. by left. }
  destruct Hsame as (files0 & Hr0 & Hk0).
  unfold WebDecompiler.recover_bundle.
  destruct (BundleInfo.type b); unfold_monad;
    [|by eexists _, _, files0].
  destruct (axios_get _ _ _ w) as [[resp|] w1]; [|by eexists _, _, files0].
  destruct (Nat.eqb (status resp) 200); [|by eexists _, _, files0].
  destruct (JSON_parse (data resp)) as [sm|]; [|by eexists _, _, files0].
  unfold WebDecompiler.extractFromSourceMap.
  destruct (SourceMapInfo.sources sm) as [sources|]; [|by eexists _, _, files0].
  destruct (SourceMapInfo.sourcesContent sm) as [contents|]; [|by eexists _, _, files0].
  eexists _, _, _. split; [reflexivity|]. split; [done|]. split; [reflexivity|].
  intros k.
  destruct (recover_fold_entries (BundleInfo.url b) sources contents
              (seq 0 (length sources)) (originalFiles (WebDecompiler.results this)) k)
    as [Heq|(seg & sp & ct & Hk)]; [by left|].
  right. by exists seg, (BundleInfo.url b), sp, ct.
Qed.

Lemma recovery_entries (bs : list BundleInfo.t) : forall this w,
  exists this' w' files,
    for_of bs WebDecompiler.recover_bundle this w = (Ok this', w') /\
    WebDecompiler.baseUrl this' = WebDecompiler.baseUrl this /\
    WebDecompiler.results this' = with_originalFiles files (WebDecompiler.results this) /\
    forall k,
      files !! k = originalFiles (WebDecompiler.results this) !! k \/
      exists seg u sourcePath content,
        k = "source_" +:+ seg /\ seg <> "" /\ no_slash seg /\
        files !! k = Some (WebDecompiler.recovered_text u sourcePath content).
Proof.
  induction bs as [|b bs IH]; intros this w; simpl.
  - unfold_monad. exists this, w, (originalFiles (WebDecompiler.results this)).
    split; [done|]. split; [done|]. split; [by rewrite with_originalFiles_id|]. by left.
  - unfold Exc.bind at 1.
    destruct (recover_bundle_entries b this w) as (this1 & w1 & files1 & -> & Hb1 & Hr1 & Hk1).
    destruct (IH this1 w1) as (this' & w' & files & Hrun & Hb & Hr & Hk).
    exists this', w', files. split; [exact Hrun|]. split; [congruence|].
    split; [rewrite Hr, Hr1; by destruct (WebDecompiler.results this)|].
    intros k. destruct (Hk k) as [Heq|Hnew]; [|by right].
    rewrite Heq, Hr1. simpl. apply Hk1.
Qed.

(** X4. Source-map recovery never throws and writes nothing but
    [originalFiles]; there, every entry is either left as it was or is a
    recovered source: its key is [source_] followed by a segment that is
    not empty and holds no slash, its text the recovery header of some
    bundle and path followed by the content. *)
Theorem recovery_only_adds_sources (this : WebDecompiler.t) (w : World) :
  exists this' w' files,
    WebDecompiler.trySourceMapRecovery this w = (Ok this', w') /\
    WebDecompiler.baseUrl this' = WebDecompiler.baseUrl this /\
    WebDecompiler.results this' = with_originalFiles files (WebDecompiler.results this) /\
    forall k,
      files !! k = originalFiles (WebDecompiler.results this) !! k \/
      exists seg u sourcePath content,
        k = "source_" +:+ seg /\ seg <> "" /\ no_slash seg /\
        files !! k = Some (WebDecompiler.recovered_text u sourcePath content).
Proof. apply recovery_entries. Qed.

End MoreRecovery.

(* ===================================================================== *)
(** * Further properties: what the record holds at hand-off *)
(* ===================================================================== *)

Section HandOffContents.
Import Chars Regex Js Patterns Exc Spec Text.
Import DecompilationResult.
Context `{Platform}.

(** The record when the loop over the bundles starts. *)
Lemma run_job_loop url jobId w r w' :
  Handlers.run_job url jobId w = (Ok r, w') ->
  exists response w1 bs files this2 w2 this3,
    axios_get url 15000 true w = (Some response, w1) /\
    bs <> [] /\
    WebDecompiler.results this2 =
      DecompilationResult.mk jobId url (Date_now w) bs [] [] files ∅ (Analysis.mk 0 0 0 0) /\
    (forall k,
       files !! k = ({["index.html" := data response]} : gmap string string) !! k \/
       exists seg u sourcePath content,
         k = "source_" +:+ seg /\ seg <> "" /\ no_slash seg /\
         files !! k = Some (WebDecompiler.recovered_text u sourcePath content)) /\
    for_of bs WebDecompiler.process_bundle this2 w2 = (Ok this3, w') /\
    r = WebDecompiler.results this3.
Proof.
  intros (response & w1 & bs & this2 & w2 & this3 & Hget & Hcollect & Hne & Hrec & Hloop & ->)
    %run_job_stages.
  unfold WebDecompiler.trySourceMapRecovery in Hrec.
  destruct (recovery_entries bs
              (WebDecompiler.mk url
                 (DecompilationResult.mk jobId url (Date_now w) bs [] []
                    {["index.html" := data response]} ∅ (Analysis.mk 0 0 0 0))) w1)
    as (this2' & w2' & files & Hrec' & _ & Hr2 & Hk).
  cbn [WebDecompiler.results bundles] in Hrec.
  rewrite Hrec in Hrec'. injection Hrec' as <- <-.
  exists response, w1, bs, files, this2, w2, this3. simpl in Hr2, Hk. auto 10.
Qed.

Lemma index_html_not_source seg : "index.html" <> "source_" +:+ seg.
Proof. intros Heq. by simplify_eq/=. Qed.

(** Bundle processing removes no file. *)
Lemma process_all_keeps_files (bs : list BundleInfo.t) this w this' w' k :
  for_of bs WebDecompiler.process_bundle this w = (Ok this', w') ->
  is_Some (originalFiles (WebDecompiler.results this) !! k) ->
  is_Some (originalFiles (WebDecompiler.results this') !! k).
Proof.
  intros Hloop Hk.
  eapply (for_of_invariant
            (fun s => is_Some (originalFiles (WebDecompiler.results s) !! k)));
    [| |exact Hloop]; [|exact Hk].
  intros b s v s' v' _ Hs Hstep.
  destruct (process_bundle_cases b s v) as (s1 & v1 & Hb' & _ & Hcase).
  rewrite Hb' in Hstep. injection Hstep as <- <-. cbn zeta in Hcase.
  destruct Hcase as [->|[(c & t & _ & ->)|[(c & _ & ->)|(c & _ & ->)]]];
    [done|simpl; apply lookup_insert_is_Some'; by right..].
Qed.

(** X5. The record a job returns always has an entry [index.html] in
    [originalFiles]; unless a bundle has that file name, it is the root
    document as it was retrieved. *)
Theorem index_html_is_kept url jobId (w w' : World) r :
  Handlers.run_job url jobId w = (Ok r, w') ->
  is_Some (originalFiles r !! "index.html") /\
  exists response w1,
    axios_get url 15000 true w = (Some response, w1) /\
    ((forall b, b ∈ bundles r -> BundleInfo.filename b <> "index.html") ->
     originalFiles r !! "index.html" = Some (data response)).
Proof.
  intros Hrun.
  apply run_job_loop in Hrun
    as (response & w1 & bs & files & this2 & w2 & this3 & Hget & _ & Hr2 & Hk & Hloop & ->).
  assert (Hbs : bundles (WebDecompiler.results this3) = bs).
  { destruct (process_all_identity _ _ _ _ _ Hloop) as (_ & _ & _ & ->). by rewrite Hr2. }
  assert (Hstart : files !! "index.html" = Some (data response)).
  { destruct (Hk "index.html") as [->|(seg & ? & ? & ? & Heq & _)];
      [apply lookup_singleton_eq|by apply index_html_not_source in Heq]. }
  split.
  - eapply process_all_keeps_files; [exact Hloop|]. rewrite Hr2. simpl. by rewrite Hstart.
  - exists response, w1. split; [done|]. rewrite Hbs. intros Hnames.
    eapply (for_of_invariant
              (fun s => originalFiles (WebDecompiler.results s) !! "index.html"
                        = Some (data response)));
      [| |exact Hloop]; [|rewrite Hr2; simpl; exact Hstart].
    intros b s v s' v' Hin Hs Hstep.
    destruct (process_bundle_cases b s v) as (s1 & v1 & Hb' & _ & Hcase).
    rewrite Hb' in Hstep. injection Hstep as <- <-. cbn zeta in Hcase.
    destruct Hcase as [->|[(c & t & _ & ->)|[(c & _ & ->)|(c & _ & ->)]]];
      [done|simpl; rewrite lookup_insert_ne; [done|by apply Hnames]..].
Qed.

(** Bundle processing adds to [originalFiles] only keys that are file
    names of the bundles processed. *)
Lemma process_all_original_keys (bs : list BundleInfo.t) this w this' w' k :
  for_of bs WebDecompiler.process_bundle this w = (Ok this', w') ->
  is_Some (originalFiles (WebDecompiler.results this') !! k) ->
  is_Some (originalFiles (WebDecompiler.results this) !! k) \/
  exists b, b ∈ bs /\ k = BundleInfo.filename b.
Proof.
  intros Hloop.
  eapply (for_of_invariant
            (fun s => is_Some (originalFiles (WebDecompiler.results s) !! k) ->
               is_Some (originalFiles (WebDecompiler.results this) !! k) \/
               exists b, b ∈ bs /\ k = BundleInfo.filename b));
    [| |exact Hloop]; [|by left].
  intros b s v s' v' Hin Hs Hstep.
  destruct (process_bundle_cases b s v) as (s1 & v1 & Hb' & _ & Hcase).
  rewrite Hb' in Hstep. injection Hstep as <- <-. cbn zeta in Hcase.
  destruct Hcase as [->|[(c & t & _ & ->)|[(c & _ & ->)|(c & _ & ->)]]];
    [done|simpl; intros [<-|[_ Hold]]%lookup_insert_is_Some;
          [right; by exists b|by apply Hs]..].
Qed.

(** Bundle processing adds to [beautifiedFiles] only keys made of a prefix
    and the file name of a bundle processed. *)
Lemma process_all_beautified_keys (bs : list BundleInfo.t) this w this' w' :
  for_of bs WebDecompiler.process_bundle this w = (Ok this', w') ->
  keys_from bs (beautifiedFiles (WebDecompiler.results this)) ->
  keys_from bs (beautifiedFiles (WebDecompiler.results this')).
Proof.
  intros Hloop Hstart.
  eapply (for_of_invariant
            (fun s => keys_from bs (beautifiedFiles (WebDecompiler.results s))));
    [| |exact Hloop]; [|exact Hstart].
  intros b s v s' v' Hin Hs Hstep.
  destruct (process_bundle_cases b s v) as (s1 & v1 & Hb' & _ & Hcase).
  rewrite Hb' in Hstep. injection Hstep as <- <-. cbn zeta in Hcase.
  destruct Hcase as [->|[(c & t & _ & ->)|[(c & _ & ->)|(c & _ & ->)]]];
    [done|simpl; intros k [<-|[_ Hold]]%lookup_insert_is_Some;
          [exists b; auto|by apply Hs]..].
Qed.

(** X6. In the record a job returns, every key of [originalFiles] is
    [index.html], the file name of a discovered bundle, or [source_]
    followed by something; every key of [beautifiedFiles] is [beautified_]
    or [raw_] followed by the file name of a discovered bundle, and that
    map has no more entries than there are bundles. *)
Theorem stored_files_come_from_bundles url jobId (w w' : World) r :
  Handlers.run_job url jobId w = (Ok r, w') ->
  (forall k, is_Some (originalFiles r !! k) ->
     k = "index.html" \/
     (exists b, b ∈ bundles r /\ k = BundleInfo.filename b) \/
     exists seg, k = "source_" +:+ seg) /\
  keys_from (bundles r) (beautifiedFiles r) /\
  size (beautifiedFiles r) <= length (bundles r).
Proof.
  intros Hrun.
  apply run_job_loop in Hrun
    as (response & w1 & bs & files & this2 & w2 & this3 & Hget & _ & Hr2 & Hk & Hloop & ->).
  assert (Hbs : bundles (WebDecompiler.results this3) = bs).
  { destruct (process_all_identity _ _ _ _ _ Hloop) as (_ & _ & _ & ->). by rewrite Hr2. }
  rewrite Hbs. split; [|split].
  - intros k Hsome.
    destruct (process_all_original_keys _ _ _ _ _ _ Hloop Hsome) as [Hold|Hb]; [|auto].
    rewrite Hr2 in Hold. simpl in Hold.
    destruct (Hk k) as [Heq|(seg & ? & ? & ? & -> & _)]; [|right; right; by exists seg].
    rewrite Heq in Hold. left.
    destruct (decide (k = "index.html")) as [->|Hne]; [done|].
    rewrite lookup_singleton_ne in Hold by done. by destruct Hold.
  - eapply process_all_beautified_keys; [exact Hloop|].
    rewrite Hr2. simpl. intros k [v Hv]. by rewrite lookup_empty in Hv.
  - assert (Hsize : forall todo this w0 this' w0',
              for_of todo WebDecompiler.process_bundle this w0 = (Ok this', w0') ->
              size (beautifiedFiles (WebDecompiler.results this'))
              <= size (beautifiedFiles (WebDecompiler.results this)) + length todo).
    { induction todo as [|b todo IH]; intros this w0 this' w0' Hrun; simpl in Hrun.
      - unfold Exc.ret in Hrun. injection Hrun as <- _. simpl. lia.
      - unfold Exc.bind in Hrun.
        destruct (process_bundle_cases b this w0) as (s1 & v1 & Hb' & _ & Hcase).
        rewrite Hb' in Hrun. apply IH in Hrun. cbn zeta in Hcase.
        assert (Hins : forall k (v : string) (m : gmap string string),
                  size (<[k := v]> m) <= S (size m)).
        { intros k v m. destruct (m !! k) eqn:Hm.
          - rewrite map_size_insert_Some by eauto. lia.
          - rewrite map_size_insert_None by done. lia. }
        destruct Hcase as [Hr|[(c & t & _ & Hr)|[(c & _ & Hr)|(c & _ & Hr)]]];
          rewrite Hr in Hrun; simpl in Hrun; simpl.
        + lia.
        + pose proof (Hins ("beautified_" +:+ BundleInfo.filename b) t
                        (beautifiedFiles (WebDecompiler.results this))). lia.
        + pose proof (Hins ("raw_" +:+ BundleInfo.filename b) c
                        (beautifiedFiles (WebDecompiler.results this))). lia.
        + pose proof (Hins ("beautified_" +:+ BundleInfo.filename b)
                        (WebDecompiler.beautifyCSS c)
                        (beautifiedFiles (WebDecompiler.results this))). lia. }
    apply Hsize in Hloop. rewrite Hr2 in Hloop. simpl in Hloop.
    by rewrite map_size_empty in Hloop.
Qed.

End HandOffContents.

Section Continuation.
Import Chars Js Exc Spec Text.
Import DecompilationResult.
Context `{Platform}.







End Continuation.


Section Provenance.
Import Chars Regex Js Patterns Exc Spec Text.
Import DecompilationResult.
Context `{Platform}.

Lemma found_components_source text file c :
  In c (WebDecompiler.found_components text file) -> ExtractedComponent.source c = file.
Proof.
  unfold WebDecompiler.found_components.
  intros (pattern & _ & (m & _ & Hc)%in_flat_map)%in_flat_map.
  unfold WebDecompiler.component_of in Hc.
  destruct (m1 m) as [[|a n]|]; [done| |done].
  destruct (Ascii.eqb a (toUpperCase a)); [|done]. by destruct Hc as [<-|[]].
Qed.

Lemma found_modules_source text file m :
  In m (WebDecompiler.found_modules text file) ->
  ModuleInfo.source m = file /\ ModuleInfo.identifier m <> "".
Proof.
  unfold WebDecompiler.found_modules.
  intros (pattern & _ & (x & _ & Hm)%in_flat_map)%in_flat_map.
  unfold WebDecompiler.module_of in Hm.
  destruct (m1 x) as [[|a n]|]; [done| |done]. by destruct Hm as [<-|[]].
Qed.

(** The candidates that bundle processing adds have upper-case names and
    a JS bundle processed as their source. *)
Lemma process_all_components (bs : list BundleInfo.t) this w this' w' c :
  for_of bs WebDecompiler.process_bundle this w = (Ok this', w') ->
  In c (components (WebDecompiler.results this')) ->
  In c (components (WebDecompiler.results this)) \/
  ((exists b, b ∈ bs /\ BundleInfo.type b = js /\
              ExtractedComponent.source c = BundleInfo.filename b) /\
   exists a n, ExtractedComponent.name c = String a n /\ is_upper a = true).
Proof.
  intros Hloop.
  eapply (for_of_invariant
            (fun s => In c (components (WebDecompiler.results s)) ->
               In c (components (WebDecompiler.results this)) \/
               ((exists b, b ∈ bs /\ BundleInfo.type b = js /\
                           ExtractedComponent.source c = BundleInfo.filename b) /\
                exists a n, ExtractedComponent.name c = String a n /\ is_upper a = true)));
    [| |exact Hloop]; [|by left].
  intros b s v s' v' Hin Hs Hstep.
  destruct (process_bundle_cases b s v) as (s1 & v1 & Hb' & _ & Hcase).
  rewrite Hb' in Hstep. injection Hstep as <- <-. cbn zeta in Hcase.
  destruct Hcase as [->|[(x & t & Hty & ->)|[(x & _ & ->)|(x & _ & ->)]]];
    [done| |done|done].
  simpl. intros [Hold|Hnew]%in_app_or; [by apply Hs|]. right. split.
  - exists b. split; [done|]. split; [done|]. by eapply found_components_source.
  - by eapply component_names_uppercase.
Qed.

(** The module edges that bundle processing adds have an identifier and a
    JS bundle processed as their source. *)
Lemma process_all_modules (bs : list BundleInfo.t) this w this' w' m :
  for_of bs WebDecompiler.process_bundle this w = (Ok this', w') ->
  In m (modules (WebDecompiler.results this')) ->
  In m (modules (WebDecompiler.results this)) \/
  ((exists b, b ∈ bs /\ BundleInfo.type b = js /\
              ModuleInfo.source m = BundleInfo.filename b) /\
   ModuleInfo.identifier m <> "").
Proof.
  intros Hloop.
  eapply (for_of_invariant
            (fun s => In m (modules (WebDecompiler.results s)) ->
               In m (modules (WebDecompiler.results this)) \/
               ((exists b, b ∈ bs /\ BundleInfo.type b = js /\
                           ModuleInfo.source m = BundleInfo.filename b) /\
                ModuleInfo.identifier m <> "")));
    [| |exact Hloop]; [|by left].
  intros b s v s' v' Hin Hs Hstep.
  destruct (process_bundle_cases b s v) as (s1 & v1 & Hb' & _ & Hcase).
  rewrite Hb' in Hstep. injection Hstep as <- <-. cbn zeta in Hcase.
  destruct Hcase as [->|[(x & t & Hty & ->)|[(x & _ & ->)|(x & _ & ->)]]];
    [done| |done|done].
  simpl. intros [Hold|Hnew]%in_app_or; [by apply Hs|]. right.
  apply found_modules_source in Hnew as [Hsrc Hid]. split; [|done]. by exists b.
Qed.

(** X7. In the record a job returns, every component candidate names as
    its source the file name of a discovered JS bundle and has a name that
    starts with an upper-case letter; every module edge names as its source
    the file name of a discovered JS bundle and has an identifier that is
    not empty. *)
Theorem extracted_items_come_from_js_bundles url jobId (w w' : World) r :
  Handlers.run_job url jobId w = (Ok r, w') ->
  (forall c, In c (components r) ->
     (exists b, b ∈ bundles r /\ BundleInfo.type b = js /\
                ExtractedComponent.source c = BundleInfo.filename b) /\
     exists a n, ExtractedComponent.name c = String a n /\ is_upper a = true) /\
  (forall m, In m (modules r) ->
     (exists b, b ∈ bundles r /\ BundleInfo.type b = js /\
                ModuleInfo.source m = BundleInfo.filename b) /\
     ModuleInfo.identifier m <> "").
Proof.
  intros Hrun.
  apply run_job_loop in Hrun
    as (response & w1 & bs & files & this2 & w2 & this3 & Hget & _ & Hr2 & Hk & Hloop & ->).
  assert (Hbs : bundles (WebDecompiler.results this3) = bs).
  { destruct (process_all_identity _ _ _ _ _ Hloop) as (_ & _ & _ & ->). by rewrite Hr2. }
  rewrite Hbs. split.
  - intros c Hc.
    destruct (process_all_components _ _ _ _ _ _ Hloop Hc) as [Hold|Hnew]; [|done].
    by rewrite Hr2 in Hold.
  - intros m Hm.
    destruct (process_all_modules _ _ _ _ _ _ Hloop Hm) as [Hold|Hnew]; [|done].
    by rewrite Hr2 in Hold.
Qed.

Lemma process_all_counter_bounds (todo : list BundleInfo.t) : forall this w this' w',
  for_of todo WebDecompiler.process_bundle this w = (Ok this', w') ->
  Analysis.jsFiles (analysis (WebDecompiler.results this'))
    <= Analysis.jsFiles (analysis (WebDecompiler.results this))
       + length (List.filter (is_type js) todo) /\
  Analysis.cssFiles (analysis (WebDecompiler.results this'))
    <= Analysis.cssFiles (analysis (WebDecompiler.results this))
       + length (List.filter (is_type css) todo).
Proof.
  induction todo as [|b todo IH]; intros this w this' w' Hrun; simpl in Hrun.
  - unfold Exc.ret in Hrun. injection Hrun as <- _. simpl. lia.
  - unfold Exc.bind in Hrun.
    destruct (process_bundle_effect b this w) as (this1 & w1 & Hstep & _ & _ & _ & Heff).
    rewrite Hstep in Hrun. apply IH in Hrun as [Hjs Hcss].
    destruct Heff as [Heq|t _ Hj Hc|t _ Hj Hc].
    + rewrite Heq in Hjs, Hcss. destruct b as [u [] f]; simpl in *; lia.
    + rewrite Hj in Hjs. rewrite Hc in Hcss. destruct b as [u [] f]; simpl in *; lia.
    + rewrite Hj in Hjs. rewrite Hc in Hcss. destruct b as [u [] f]; simpl in *; lia.
Qed.

Lemma filter_type_split (l : list BundleInfo.t) :
  length (List.filter (is_type js) l) + length (List.filter (is_type css) l) = length l.
Proof.
  induction l as [|b l IHl]; [done|]. simpl. destruct b as [u [] f]; simpl; lia.
Qed.

(** X8. In the record a job returns, the JS file counter is at most the
    number of discovered JS bundles and the CSS file counter at most the
    number of discovered CSS bundles; together they are at most the number
    of bundles. *)
Theorem file_counters_are_bounded url jobId (w w' : World) r :
  Handlers.run_job url jobId w = (Ok r, w') ->
  Analysis.jsFiles (analysis r) <= length (List.filter (is_type js) (bundles r)) /\
  Analysis.cssFiles (analysis r) <= length (List.filter (is_type css) (bundles r)) /\
  Analysis.jsFiles (analysis r) + Analysis.cssFiles (analysis r) <= length (bundles r).
Proof.
  intros Hrun.
  apply run_job_loop in Hrun
    as (response & w1 & bs & files & this2 & w2 & this3 & Hget & _ & Hr2 & Hk & Hloop & ->).
  assert (Hbs : bundles (WebDecompiler.results this3) = bs).
  { destruct (process_all_identity _ _ _ _ _ Hloop) as (_ & _ & _ & ->). by rewrite Hr2. }
  rewrite Hbs.
  apply process_all_counter_bounds in Hloop as [Hjs Hcss].
  rewrite Hr2 in Hjs, Hcss. simpl in Hjs, Hcss.
  split; [done|]. split; [done|].
  pose proof (filter_type_split bs). lia.
Qed.

End Provenance.

(* ===================================================================== *)
(** * Further properties: the submission handler and the registry *)
(* ===================================================================== *)

Section MorePost.
Import Chars Js Exc Spec Text.
Import DecompilationResult.
Context `{Platform}.

(** X9. [POST] answers the status 400 exactly when the URL or the job id
    of the body is empty or the URL does not parse; it then makes no
    request (the world is as before) and leaves the registry as it was. *)
Theorem post_rejects_invalid_requests
    (body : DecompilationRequest.t) (storage : gmap string DecompilationResult.t)
    (w : World) :
  let url := DecompilationRequest.url body in
  let jobId := DecompilationRequest.jobId body in
  (url = "" \/ jobId = "" ->
   Handlers.POST body storage w
     = (PostError 400 "URL and jobId are required" None, storage, w)) /\
  (url <> "" -> jobId <> "" -> URL_href url None = None ->
   Handlers.POST body storage w
     = (PostError 400 "Invalid URL provided" None, storage, w)) /\
  (forall error details storage' w',
     Handlers.POST body storage w = (PostError 400 error details, storage', w') ->
     url = "" \/ jobId = "" \/ URL_href url None = None).
Proof.
  intros url jobId. unfold Handlers.POST. fold url. fold jobId.
  split; [|split].
  - intros [Hu|Hj].
    + rewrite Hu. reflexivity.
    + rewrite Hj. by destruct (truthy url).
  - intros Hu%truthy_true Hj%truthy_true Hhref. by rewrite Hu, Hj, Hhref.
  - intros error details storage' w'.
    destruct (truthy url) eqn:Hu.
    2:{ intros _. left. unfold truthy in Hu. apply negb_false_iff in Hu.
        by apply String.eqb_eq. }
    destruct (truthy jobId) eqn:Hj.
    2:{ intros _. right. left. unfold truthy in Hj. apply negb_false_iff in Hj.
        by apply String.eqb_eq. }
    simpl. destruct (URL_href url None); [|auto].
    destruct (Handlers.run_job url jobId w) as [[r|msg] w1]; intros [=].
Qed.

(** X10. Whatever it answers, [POST] changes no entry of the registry but
    the one of its own job id; and it changes that one only when it
    answers success. *)
Theorem post_touches_its_own_job_only
    (body : DecompilationRequest.t) (storage storage' : gmap string DecompilationResult.t)
    (w w' : World) (answer : PostResponse) :
  Handlers.POST body storage w = (answer, storage', w') ->
  (forall k, k <> DecompilationRequest.jobId body -> storage' !! k = storage !! k) /\
  ((forall status error details, answer = PostError status error details ->
    storage' = storage)).
Proof.
  unfold Handlers.POST.
  destruct (negb (truthy _) || negb (truthy _)); [by intros [= <- <- <-]|].
  destruct (URL_href _ None); [|by intros [= <- <- <-]].
  destruct (Handlers.run_job _ _ w) as [[r|msg] w1]; intros [= <- <- <-].
  - split; [|done]. intros k Hk. unfold jobStorage.save. by rewrite lookup_insert_ne.
  - done.
Qed.

(** X11. When [POST] answers success, the record the job returned is in
    the registry under the job id of the body, with the time of the save as
    its timestamp; the numbers of the answer are those of that record; the
    answer reports at least one bundle and at least one file, and no more
    JS and CSS files together than bundles. *)
Theorem post_success_saves_the_record
    (body : DecompilationRequest.t) (storage storage' : gmap string DecompilationResult.t)
    (w w' : World) (id : string) (nJs nCss nComponents nModules nBundles nFiles : nat) :
  Handlers.POST body storage w
    = (PostSuccess id nJs nCss nComponents nModules nBundles nFiles, storage', w') ->
  id = DecompilationRequest.jobId body /\
  exists r,
    Handlers.run_job (DecompilationRequest.url body) (DecompilationRequest.jobId body) w
      = (Ok r, w') /\
    jobStorage.get id storage' = Some (with_timestamp (Date_now w') r) /\
    nJs = Analysis.jsFiles (analysis r) /\
    nCss = Analysis.cssFiles (analysis r) /\
    nComponents = length (components r) /\
    nModules = length (modules r) /\
    nBundles = length (bundles r) /\
    nFiles = size (originalFiles r) + size (beautifiedFiles r) /\
    1 <= nBundles /\ 1 <= nFiles /\ nJs + nCss <= nBundles.
Proof.
  unfold Handlers.POST.
  destruct (negb (truthy _) || negb (truthy _)); [done|].
  destruct (URL_href _ None); [|done].
  destruct (Handlers.run_job _ _ w) as [[r|msg] w1] eqn:Hrun; [|done].
  intros [= <- <- <- <- <- <- <- <- <-]. split; [done|]. exists r.
  split; [done|]. split; [apply lookup_insert_eq|].
  apply run_job_loop in Hrun
    as (response & w0 & bs & files & this2 & w2 & this3 & Hget & Hne & Hr2 & Hk & Hloop & ->).
  destruct (process_all_frame _ _ _ _ _ Hloop) as [Hbs Hc].
  rewrite Hr2 in Hbs, Hc. simpl in Hbs. destruct Hc as [Hcomp Hmod]; [by split|].
  pose proof (process_all_counter_bounds _ _ _ _ _ Hloop) as [Hjs Hcss].
  rewrite Hr2 in Hjs, Hcss. simpl in Hjs, Hcss.
  pose proof (filter_type_split bs) as Hsplit.
  assert (Hidx : is_Some (originalFiles (WebDecompiler.results this3) !! "index.html")).
  { eapply process_all_keeps_files; [exact Hloop|]. rewrite Hr2. simpl.
    destruct (Hk "index.html") as [->|(seg & ? & ? & ? & Heq & _)];
      [by rewrite lookup_singleton_eq|by apply index_html_not_source in Heq]. }
  repeat (split; [done|]).
  rewrite Hbs.
  split; [destruct bs; [done|simpl; lia]|].
  split; [|lia].
  assert (size (originalFiles (WebDecompiler.results this3)) <> 0); [|lia].
  intros Hz. apply map_size_empty_iff in Hz. rewrite Hz in Hidx.
  destruct Hidx as [v Hv]. by rewrite lookup_empty in Hv.
Qed.

End MorePost.

Section Registry.
Import DecompilationResult.
Context `{Platform}.

(** X12. A record saved under a job id is what [get] returns for that id,
    with the time of the save as its timestamp and every other field as
    given; the entries of the other ids are not touched; and a second save
    under the same id replaces the first. *)
Theorem save_then_get
    (storage : gmap string DecompilationResult.t) (jobId : string)
    (result : DecompilationResult.t) (w : World) :
  jobStorage.get jobId (jobStorage.save jobId result storage w)
    = Some (with_timestamp (Date_now w) result) /\
  (forall other, other <> jobId ->
     jobStorage.get other (jobStorage.save jobId result storage w)
       = jobStorage.get other storage) /\
  (forall result2 w2,
     jobStorage.save jobId result2 (jobStorage.save jobId result storage w) w2
       = jobStorage.save jobId result2 storage w2).
Proof.
  unfold jobStorage.get, jobStorage.save. split; [apply lookup_insert_eq|]. split.
  - intros other Hne. by apply lookup_insert_ne.
  - intros result2 w2. apply insert_insert_eq.
Qed.

(** X13. [delete] answers whether the job id had an entry; afterwards the
    id has none and the other ids have what they had; deleting again
    answers false and changes nothing. *)
Theorem delete_removes_one_job
    (storage : gmap string DecompilationResult.t) (jobId : string) :
  let after := snd (jobStorage.delete jobId storage) in
  (fst (jobStorage.delete jobId storage) = true <->
   is_Some (jobStorage.get jobId storage)) /\
  jobStorage.get jobId after = None /\
  (forall other, other <> jobId ->
     jobStorage.get other after = jobStorage.get other storage) /\
  jobStorage.delete jobId after = (false, after).
Proof.
  unfold jobStorage.delete, jobStorage.get. simpl.
  split; [apply bool_decide_eq_true|].
  split; [apply lookup_delete_eq|].
  split; [intros other Hne; by apply lookup_delete_ne|].
  f_equal.
  - apply bool_decide_eq_false. rewrite lookup_delete_eq. by intros [? ?].
  - apply delete_id. apply lookup_delete_eq.
Qed.

Lemma newer_first_total : Total jobStorage.newer_first.
Proof.
  intros a b. unfold jobStorage.newer_first.
  destruct (Nat.le_ge_cases (timestamp a) (timestamp b)); auto.
Qed.

#[local] Existing Instance jobStorage.newer_first_dec.
#[local] Existing Instance newer_first_total.

(** X14. [list] returns the records of the registry, each stored record
    once, the more recent before the less recent; after [clear] it returns
    nothing. *)
Theorem list_is_sorted_by_recency (storage : gmap string DecompilationResult.t) :
  Sorted jobStorage.newer_first (jobStorage.list storage) /\
  jobStorage.list storage ≡ₚ (snd <$> map_to_list storage) /\
  length (jobStorage.list storage) = size storage /\
  (forall r, r ∈ jobStorage.list storage <-> exists jobId, storage !! jobId = Some r) /\
  jobStorage.list (jobStorage.clear storage) = [].
Proof.
  unfold jobStorage.list.
  pose proof (merge_sort_Permutation jobStorage.newer_first (snd <$> map_to_list storage))
    as Hperm.
  split; [apply Sorted_merge_sort; apply _|].
  split; [exact Hperm|].
  split; [by rewrite Hperm, length_fmap, length_map_to_list|].
  split; [|done].
  intros r. rewrite Hperm, list_elem_of_fmap. split.
  - intros ([k v] & -> & Hin). exists k. by apply elem_of_map_to_list.
  - intros [k Hk]. exists (k, r). split; [done|]. by apply elem_of_map_to_list.
Qed.

End Registry.

(* ===================================================================== *)
(** * Further properties: the files endpoint and the explorer *)
(* ===================================================================== *)

Section FilesEndpoint.
Import Chars Js Text.
Import DecompilationResult.

Lemma chars_app (a b : string) : chars (a +:+ b) = chars a ++ chars b.
Proof. induction a as [|c a IH]; [done|]. simpl. by rewrite <- IH. Qed.

Lemma is_prefix_app (p l : list ascii) : is_prefix p (p ++ l) = true.
Proof.
  induction p as [|a p IH]; [done|]. simpl. by rewrite Ascii.eqb_refl, IH.
Qed.

Lemma endsWith_app (a suffix : string) : endsWith (a +:+ suffix) suffix = true.
Proof.
  unfold endsWith. rewrite chars_app, rev_app_distr. apply is_prefix_app.
Qed.

Lemma filter_category_map {A} (g : A -> FileItem) (l : list A) (c category : Category) :
  (forall x, item_category (g x) = c) ->
  length (List.filter (fun file => FileExplorer.same_category (item_category file) category)
                      (map g l))
  = if FileExplorer.same_category c category then length l else 0.
Proof.
  intros Hg. induction l as [|x l IH]; simpl.
  - by destruct (FileExplorer.same_category c category).
  - rewrite Hg. destruct (FileExplorer.same_category c category); simpl; by rewrite IH.
Qed.

Lemma filter_category_imap {A} (l : list A) : forall (g : nat -> A -> FileItem)
    (c category : Category),
  (forall i x, item_category (g i x) = c) ->
  length (List.filter (fun file => FileExplorer.same_category (item_category file) category)
                      (imap g l))
  = if FileExplorer.same_category c category then length l else 0.
Proof.
  induction l as [|x l IH]; intros g c category Hg; simpl.
  - by destruct (FileExplorer.same_category c category).
  - rewrite Hg. specialize (IH (g ∘ S) c category (fun i y => Hg (S i) y)).
    destruct (FileExplorer.same_category c category); simpl; by rewrite IH.
Qed.

(** X15. Asked without a file name (or with an empty one) for a stored
    job, the endpoint answers the listing of that job; the three counts the
    explorer shows on its tabs, obtained by filtering the listing by
    category, are the number of entries of [originalFiles], the number of
    entries of [beautifiedFiles] and the number of components. *)
Theorem listing_counts_match_the_record
    (storage : gmap string DecompilationResult.t) (jobId : string)
    (fileName : option string) (result : DecompilationResult.t) :
  storage !! jobId = Some result ->
  Handlers.requested fileName = None ->
  exists files,
    Handlers.GET storage jobId fileName
      = GetListing jobId (url result) files (analysis result) (bundles result) /\
    length files = size (originalFiles result) + size (beautifiedFiles result)
                   + length (components result) /\
    length (FileExplorer.filterFilesByCategory
              (FileExplorer.files_of (Handlers.GET storage jobId fileName)) original)
      = size (originalFiles result) /\
    length (FileExplorer.filterFilesByCategory
              (FileExplorer.files_of (Handlers.GET storage jobId fileName)) beautified)
      = size (beautifiedFiles result) /\
    length (FileExplorer.filterFilesByCategory
              (FileExplorer.files_of (Handlers.GET storage jobId fileName))
              components_category)
      = length (components result).
Proof.
  intros Hjob Hreq. unfold Handlers.GET, jobStorage.get. rewrite Hjob, Hreq.
  unfold Handlers.listing. eexists. split; [reflexivity|].
  cbn [FileExplorer.files_of FileExplorer.filterFilesByCategory].
  split.
  - rewrite !length_app, !length_map, !length_map_to_list, length_imap. lia.
  - repeat split;
      rewrite !List.filter_app, !length_app,
        (filter_category_map _ _ original), (filter_category_map _ _ beautified),
        (filter_category_imap _ _ components_category) by done;
      simpl; rewrite ?length_map_to_list; lia.
Qed.





(** X17. The explorer gives every component of a listing the icon of a
    code file: the names of these items end in [.jsx], which the first
    test of [getFileIcon] catches, so the test on the category, and with it
    the package icon, is never reached for them. *)
Theorem listed_components_get_the_code_icon
    (jobId : string) (result : DecompilationResult.t) (files : list FileItem)
    (item : FileItem) :
  FileExplorer.files_of (Handlers.listing jobId result) = Some files ->
  In item files ->
  item_category item = components_category ->
  FileExplorer.getFileIcon (item_name item) (item_category item) = FileExplorer.FileCode.
Proof.
  unfold Handlers.listing. cbn [FileExplorer.files_of]. intros [= <-] Hin Hcat.
  apply in_app_or in Hin as [Hin|Hin].
  { apply in_map_iff in Hin as (kv & <- & _). done. }
  apply in_app_or in Hin as [Hin|Hin].
  { apply in_map_iff in Hin as (kv & <- & _). done. }
  apply list_elem_of_In, elem_of_lookup_imap in Hin as (i & c & -> & _).
  unfold FileExplorer.getFileIcon, Handlers.component_item. cbn [item_name].
  assert (Hends : endsWith (ExtractedComponent.name c +:+ "_" +:+ pretty i +:+ ".jsx") ".jsx"
                  = true).
  { unfold endsWith. rewrite !chars_app, !rev_app_distr, <- !app_assoc.
    apply is_prefix_app. }
  by rewrite Hends, orb_true_r.
Qed.

End FilesEndpoint.

Section ViewingComponents.
Import Chars Js Exc Spec Text.
Import DecompilationResult.
Context `{Platform}.




End ViewingComponents.

(* ===================================================================== *)
(** * Further properties: the download endpoint *)
(* ===================================================================== *)

Section DownloadEndpoint.
Import Chars Regex Js Text.
Import DecompilationResult.
Context `{Renderer}.

Lemma app_string_inj (p a b : string) : p +:+ a = p +:+ b -> a = b.
Proof. induction p as [|c p IH]; simpl; [done|]. intros [= Heq]. auto. Qed.

Lemma add_folder_lookup (folder : string) (files zip : gmap string string) :
  (forall f, Download.add_folder folder files zip !! (folder +:+ f)
             = match files !! f with
               | Some content => Some content
               | None => zip !! (folder +:+ f)
               end)
  /\ (forall k, (forall f, k <> folder +:+ f) ->
                Download.add_folder folder files zip !! k = zip !! k).
Proof.
  unfold Download.add_folder.
  apply (map_fold_weak_ind (fun r m =>
    (forall f, r !! (folder +:+ f)
               = match m !! f with
                 | Some content => Some content
                 | None => zip !! (folder +:+ f)
                 end)
    /\ (forall k, (forall f, k <> folder +:+ f) -> r !! k = zip !! k))).
  - split; [intros f; by rewrite lookup_empty|done].
  - intros i x m r Hi [IH1 IH2]. split.
    + intros f. destruct (decide (f = i)) as [->|Hne].
      * by rewrite !lookup_insert_eq.
      * rewrite lookup_insert_ne by (intros Heq; by apply app_string_inj in Heq).
        rewrite lookup_insert_ne by done. apply IH1.
    + intros k Hk. rewrite lookup_insert_ne by (intros <-; by apply (Hk i)).
      by apply IH2.
Qed.

Lemma pretty_N_char_digit (x : N) : is_digit (pretty_N_char x) = true.
Proof. unfold pretty_N_char. by repeat case_match. Qed.

Lemma pretty_N_go_digits (x : N) : forall s, digits s -> digits (pretty_N_go x s).
Proof.
  induction (N.lt_wf_0 x) as [x _ IH]; intros s Hs.
  assert (x = 0 \/ 0 < x)%N as [->|Hx] by lia.
  - by rewrite pretty_N_go_0.
  - rewrite pretty_N_go_step by done. apply IH; [by apply N.div_lt|].
    unfold digits. simpl. by rewrite pretty_N_char_digit.
Qed.

(** The decimal text of an index holds digits only. *)
Lemma pretty_nat_digits (n : nat) : digits (pretty n).
Proof.
  unfold pretty, pretty_nat, pretty, pretty_N.
  case_decide; [done|]. by apply pretty_N_go_digits.
Qed.

Lemma forallb_rev {A} (p : A -> bool) (l : list A) :
  forallb p (rev l) = forallb p l.
Proof.
  induction l as [|a l IH]; [done|]. simpl.
  rewrite forallb_app, IH. simpl. rewrite andb_true_r. apply andb_comm.
Qed.

Lemma chars_inj (a b : string) : chars a = chars b -> a = b.
Proof.
  intros Heq. apply (f_equal str) in Heq.
  unfold str, chars in Heq. by rewrite !string_of_list_ascii_of_string in Heq.
Qed.

(** The index can be read off the file name of a component: it is the run
    of digits between the last underscore and the extension. *)
Lemma component_filename_index (i j : nat) (c d : ExtractedComponent.t) :
  Download.component_filename i c = Download.component_filename j d -> i = j.
Proof.
  unfold Download.component_filename. intros Heq.
  apply (f_equal (fun s => rev (chars s))) in Heq.
  rewrite !chars_app, !rev_app_distr, <- !app_assoc in Heq.
  apply app_inv_head in Heq.
  apply run_unique with (p := is_digit) in Heq as [Heq _].
  - apply (f_equal (@rev ascii)) in Heq. rewrite !rev_involutive in Heq.
    apply chars_inj in Heq. by apply (inj pretty) in Heq.
  - rewrite forallb_rev. apply pretty_nat_digits.
  - rewrite forallb_rev. apply pretty_nat_digits.
  - done.
  - done.
Qed.

Lemma add_components_other (components : list ExtractedComponent.t) :
  forall (index : nat) (zip : gmap string string) (k : string),
  (forall i c, components !! i = Some c ->
     k <> "extracted/components/" +:+ Download.component_filename (index + i) c) ->
  Download.add_components index components zip !! k = zip !! k.
Proof.
  induction components as [|c0 rest IH]; intros index zip k Hk; [done|].
  simpl. rewrite IH.
  - rewrite lookup_insert_ne; [done|]. intros <-.
    apply (Hk 0 c0); [done|]. by rewrite Nat.add_0_r.
  - intros i c Hi. replace (S index + i) with (index + S i) by lia.
    by apply Hk.
Qed.

Lemma add_components_lookup (components : list ExtractedComponent.t) :
  forall (index : nat) (zip : gmap string string) (i : nat) (c : ExtractedComponent.t),
  components !! i = Some c ->
  Download.add_components index components zip
    !! ("extracted/components/" +:+ Download.component_filename (index + i) c)
  = Some (Download.component_text c).
Proof.
  induction components as [|c0 rest IH]; intros index zip i c Hi; [done|].
  destruct i as [|i]; simpl in Hi.
  - injection Hi as ->. simpl. rewrite add_components_other.
    + by rewrite Nat.add_0_r, lookup_insert_eq.
    + intros i d _ Heq. apply app_string_inj, component_filename_index in Heq. lia.
  - simpl. replace (index + S i) with (S index + i) by lia. by apply IH.
Qed.


Lemma add_folder_inv (folder : string) (files zip : gmap string string) :
  forall k v, Download.add_folder folder files zip !! k = Some v ->
  (exists f, k = folder +:+ f /\ files !! f = Some v) \/ zip !! k = Some v.
Proof.
  unfold Download.add_folder.
  apply (map_fold_weak_ind (fun r m =>
    forall k v, r !! k = Some v ->
    (exists f, k = folder +:+ f /\ m !! f = Some v) \/ zip !! k = Some v)).
  - by right.
  - intros i x m r Hi IH k v Hk.
    apply lookup_insert_Some in Hk as [[<- <-]|[Hne Hk]].
    + left. exists i. by rewrite lookup_insert_eq.
    + destruct (IH k v Hk) as [(f & -> & Hf)|Hzip]; [|by right].
      left. exists f. split; [done|].
      rewrite lookup_insert_ne; [done|]. by intros ->.
Qed.

Lemma add_components_inv (components : list ExtractedComponent.t) :
  forall (index : nat) (zip : gmap string string) (k v : string),
  Download.add_components index components zip !! k = Some v ->
  (exists i c, components !! i = Some c
     /\ k = "extracted/components/" +:+ Download.component_filename (index + i) c
     /\ v = Download.component_text c)
  \/ zip !! k = Some v.
Proof.
  induction components as [|c0 rest IH]; intros index zip k v Hk; [by right|].
  simpl in Hk. apply IH in Hk as [(i & c & Hi & -> & ->)|Hk].
  - left. exists (S i), c. split; [done|]. split; [|done].
    by replace (index + S i) with (S index + i) by lia.
  - apply lookup_insert_Some in Hk as [[<- <-]|[_ Hk]]; [|by right].
    left. exists 0, c0. by rewrite Nat.add_0_r.
Qed.

Lemma add_folder_size (folder : string) (files zip : gmap string string) :
  (forall f, zip !! (folder +:+ f) = None) ->
  size (Download.add_folder folder files zip) = size zip + size files.
Proof.
  intros Hfresh. unfold Download.add_folder.
  cut (size (map_fold (fun filename content z => <[folder +:+ filename := content]> z)
                      zip files) = size zip + size files
       /\ forall f, files !! f = None ->
            map_fold (fun filename content z => <[folder +:+ filename := content]> z)
                     zip files !! (folder +:+ f) = None); [by intros [? _]|].
  apply (map_fold_weak_ind (fun r m =>
    size r = size zip + size m
    /\ forall f, m !! f = None -> r !! (folder +:+ f) = None)).
  - rewrite map_size_empty. split; [lia|]. intros f _. apply Hfresh.
  - intros i x m r Hi [IHsize IHfresh]. split.
    + rewrite map_size_insert_None by by apply IHfresh.
      rewrite map_size_insert_None by done. lia.
    + intros f Hf. apply lookup_insert_None in Hf as [Hf Hne].
      rewrite lookup_insert_ne by (intros Heq; by apply app_string_inj in Heq).
      by apply IHfresh.
Qed.

Lemma add_components_size (components : list ExtractedComponent.t) :
  forall (index : nat) (zip : gmap string string),
  (forall i c, components !! i = Some c ->
     zip !! ("extracted/components/" +:+ Download.component_filename (index + i) c) = None) ->
  size (Download.add_components index components zip) = size zip + length components.
Proof.
  induction components as [|c0 rest IH]; intros index zip Hfresh; [simpl; lia|].
  simpl. rewrite IH.
  - rewrite map_size_insert_None; [lia|].
    specialize (Hfresh 0 c0 eq_refl). by rewrite Nat.add_0_r in Hfresh.
  - intros i c Hi. rewrite lookup_insert_ne.
    + replace (S index + i) with (index + S i) by lia. by apply Hfresh.
    + intros Heq. apply app_string_inj, component_filename_index in Heq. lia.
Qed.

(** X19. The archive of a stored job holds every original file under
    [original/], every beautified file under [beautified/], every extracted
    component under [extracted/components/] with the name that ends in its
    index, and the three fixed files; no entry is overwritten by another.
    The name of the download is made of the sanitized host name and the
    job id. *)
Theorem archive_holds_the_stored_files
    (storage : gmap string DecompilationResult.t) (jobId hostname : string)
    (result : DecompilationResult.t) :
  storage !! jobId = Some result ->
  URL_hostname (url result) = Some hostname ->
  exists zip,
    Download.GET storage jobId
    = DownloadZip ("decompiled_" +:+ Download.sanitize hostname +:+ "_" +:+ jobId +:+ ".zip") zip
    /\ (forall f, zip !! ("original/" +:+ f) = originalFiles result !! f)
    /\ (forall f, zip !! ("beautified/" +:+ f) = beautifiedFiles result !! f)
    /\ (forall i c, components result !! i = Some c ->
          zip !! ("extracted/components/" +:+ Download.component_filename i c)
          = Some (Download.component_text c))
    /\ zip !! "extracted/modules/modules.json"
       = Some (JSON_stringify_modules (modules result))
    /\ zip !! "analysis_report.json"
       = Some (JSON_stringify_report (Download.reportContent result))
    /\ zip !! "README.md" = Some (Download.readmeContent result).
Proof.
  intros Hjob Hhost. unfold Download.GET, jobStorage.get. rewrite Hjob, Hhost.
  eexists. split; [reflexivity|]. unfold Download.build_zip.
  pose proof (add_folder_lookup "original/" (originalFiles result) ∅) as [Ho1 Ho2].
  pose proof (add_folder_lookup "beautified/" (beautifiedFiles result)
                (Download.add_folder "original/" (originalFiles result) ∅)) as [Hb1 Hb2].
  repeat split.
  - intros f. do 3 (rewrite lookup_insert_ne by done).
    rewrite add_components_other by done.
    rewrite Hb2 by done. rewrite Ho1, lookup_empty. by destruct (originalFiles result !! f).
  - intros f. do 3 (rewrite lookup_insert_ne by done).
    rewrite add_components_other by done.
    rewrite Hb1, Ho2 by done. rewrite lookup_empty.
    by destruct (beautifiedFiles result !! f).
  - intros i c Hi. do 3 (rewrite lookup_insert_ne by done).
    by apply (add_components_lookup _ 0).
  - rewrite lookup_insert_ne by done. rewrite lookup_insert_ne by done.
    by rewrite lookup_insert_eq.
  - rewrite lookup_insert_ne by done. by rewrite lookup_insert_eq.
  - by rewrite lookup_insert_eq.
Qed.

(** X20. The archive holds nothing else: every file entry is a stored
    file, an extracted component, or one of the three fixed files. *)
Theorem archive_holds_nothing_else
    (storage : gmap string DecompilationResult.t) (jobId filename : string)
    (zip : gmap string string) (k v : string) :
  Download.GET storage jobId = DownloadZip filename zip ->
  zip !! k = Some v ->
  exists result, storage !! jobId = Some result /\
    ((exists f, k = "original/" +:+ f /\ originalFiles result !! f = Some v)
     \/ (exists f, k = "beautified/" +:+ f /\ beautifiedFiles result !! f = Some v)
     \/ (exists i c, components result !! i = Some c
           /\ k = "extracted/components/" +:+ Download.component_filename i c
           /\ v = Download.component_text c)
     \/ (k = "extracted/modules/modules.json"
           /\ v = JSON_stringify_modules (modules result))
     \/ (k = "analysis_report.json"
           /\ v = JSON_stringify_report (Download.reportContent result))
     \/ (k = "README.md" /\ v = Download.readmeContent result)).
Proof.
  unfold Download.GET, jobStorage.get. intros HGET Hk.
  destruct (storage !! jobId) as [result|]; [|done].
  destruct (URL_hostname (url result)) as [hostname|]; [|done].
  injection HGET as _ <-. exists result. split; [done|].
  unfold Download.build_zip in Hk.
  apply lookup_insert_Some in Hk as [[<- <-]|[_ Hk]]; [by auto 10|].
  apply lookup_insert_Some in Hk as [[<- <-]|[_ Hk]]; [by auto 10|].
  apply lookup_insert_Some in Hk as [[<- <-]|[_ Hk]]; [by auto 10|].
  apply add_components_inv in Hk as [(i & c & Hi & -> & ->)|Hk].
  { right. right. left. by exists i, c. }
  apply add_folder_inv in Hk as [(f & -> & Hf)|Hk]; [right; left; by exists f|].
  apply add_folder_inv in Hk as [(f & -> & Hf)|Hk]; [left; by exists f|].
  by rewrite lookup_empty in Hk.
Qed.

(** X21. The archive has one file entry for each file counted by
    [totalFiles] of its own report, one for each extracted component, and
    three more. *)
Theorem archive_size_matches_the_report (result : DecompilationResult.t) :
  size (Download.build_zip result)
  = Report.totalFiles (Download.reportContent result)
    + Report.extractedComponents (Download.reportContent result) + 3.
Proof.
  unfold Download.build_zip. simpl.
  pose proof (add_folder_lookup "original/" (originalFiles result) ∅) as [_ Ho2].
  pose proof (add_folder_lookup "beautified/" (beautifiedFiles result)
                (Download.add_folder "original/" (originalFiles result) ∅)) as [_ Hb2].
  assert (Hfresh : forall k,
            (forall f, k <> "original/" +:+ f) -> (forall f, k <> "beautified/" +:+ f) ->
            Download.add_folder "beautified/" (beautifiedFiles result)
              (Download.add_folder "original/" (originalFiles result) ∅) !! k = None).
  { intros k H1 H2. by rewrite Hb2, Ho2. }
  rewrite map_size_insert_None.
  2: { do 2 (rewrite lookup_insert_ne by done).
       rewrite add_components_other by done. by apply Hfresh. }
  rewrite map_size_insert_None.
  2: { rewrite lookup_insert_ne by done.
       rewrite add_components_other by done. by apply Hfresh. }
  rewrite map_size_insert_None.
  2: { rewrite add_components_other by done. by apply Hfresh. }
  rewrite add_components_size by (intros i c _; by apply Hfresh).
  rewrite add_folder_size.
  2: { intros f. by rewrite Ho2. }
  rewrite add_folder_size by (intros f; apply lookup_empty).
  rewrite map_size_empty. lia.
Qed.


Lemma sanitize_chars (l : list ascii) :
  replace_all (Cls (fun c => negb (is_alnum c))) (chars "_") l 0
  = map (fun c => if is_alnum c then c else "_"%char) l.
Proof.
  induction l as [|c l IH]; [done|].
  cbn [replace_all map]. unfold match_at. cbn [rmatch].
  destruct (is_alnum c); cbn [negb]; [by rewrite IH|].
  replace (length (c :: l) - length l) with 1 by (simpl; lia).
  cbn iota. by rewrite IH.
Qed.

Lemma str_length (l : list ascii) : String.length (str l) = length l.
Proof. induction l as [|c l IH]; [done|]. simpl. by rewrite IH. Qed.

Lemma chars_length (s : string) : length (chars s) = String.length s.
Proof. induction s as [|c s IH]; [done|]. simpl. by rewrite IH. Qed.

(** X22. The host name in the name of the download holds letters, digits
    and underscores only, is as long as the host name, and is the host name
    itself when that holds letters and digits only. *)
Theorem download_name_is_a_plain_word (hostname : string) :
  word_chars (Download.sanitize hostname)
  /\ String.length (Download.sanitize hostname) = String.length hostname
  /\ (forallb is_alnum (chars hostname) = true -> Download.sanitize hostname = hostname).
Proof.
  unfold Download.sanitize, word_chars. rewrite sanitize_chars.
  split; [|split].
  - rewrite chars_str. induction (chars hostname) as [|c l IH]; [done|].
    cbn [forallb map]. rewrite IH, andb_true_r.
    destruct (is_alnum c) eqn:Hc; [by rewrite Hc|by vm_compute].
  - by rewrite str_length, length_map, chars_length.
  - intros Hall. apply chars_inj. rewrite chars_str.
    induction (chars hostname) as [|c l IH]; [done|].
    cbn [forallb map] in *. apply andb_true_iff in Hall as [-> Hall]. by rewrite IH.
Qed.

End DownloadEndpoint.

(* ===================================================================== *)
(** * Further properties: the lines of the beautified CSS *)
(* ===================================================================== *)

Section CssLines.
Import Chars Regex Js Text Patterns Spec.

(** What remains to be matched after the first line feed of [blank_lines]. *)
Lemma match_blank_lines (c : ascii) (s : list ascii) :
  match_at blank_lines (c :: s)
  = if is_char LF c
    then star_cls is_space s
           (fun s' => match s' with
                      | [] => None
                      | c0 :: s'0 => if is_char LF c0 then Some (s'0, None) else None
                      end)
    else None.
Proof. reflexivity. Qed.

Lemma LF_is_space (c : ascii) : is_char LF c = true -> is_space c = true.
Proof. intros Hc. by apply Ascii.eqb_eq in Hc as <-. Qed.

Lemma star_blank_none (s : list ascii) :
  star_cls is_space s
    (fun s' => match s' with
               | [] => None
               | c0 :: s'0 => if is_char LF c0 then Some (s'0, @None (list ascii)) else None
               end) = None ->
  calm s = true.
Proof.
  induction s as [|c s IH]; [done|]. cbn [star_cls calm].
  destruct (is_space c) eqn:Hsp.
  - destruct (star_cls _ _ _) as [x|]; [done|].
    destruct (is_char LF c); [done|]. intros _. by apply IH.
  - by destruct (is_char LF c).
Qed.

(** The match is greedy: what follows it has no line feed before its first
    character that is not white space. *)
Lemma star_blank_some (s rest : list ascii) (cap : option (list ascii)) :
  star_cls is_space s
    (fun s' => match s' with
               | [] => None
               | c0 :: s'0 => if is_char LF c0 then Some (s'0, None) else None
               end) = Some (rest, cap) ->
  calm rest = true.
Proof.
  induction s as [|c s IH]; [done|]. cbn [star_cls].
  destruct (is_space c) eqn:Hsp.
  - destruct (star_cls _ _ _) as [x|] eqn:Hstar.
    + intros [= ->]. by apply IH.
    + destruct (is_char LF c); [|done]. intros [= <- _].
      by apply star_blank_none.
  - destruct (is_char LF c) eqn:HLF; [|done].
    apply LF_is_space in HLF. congruence.
Qed.

Lemma blank_lines_replaced (s : list ascii) : forall seen,
  (seen = true -> calm s = true) ->
  blank_free seen (replace_all blank_lines [LF] s 0) = true.
Proof.
  remember (length s) as n eqn:Hn.
  revert s Hn. induction n as [n IH] using lt_wf_ind. intros s -> seen Hcalm.
  destruct s as [|c s']; [done|].
  cbn [replace_all].
  destruct (match_at blank_lines (c :: s')) as [[rest cap]|] eqn:Hm.
  - pose proof Hm as (w & Hw & HL)%match_at_sound.
    rewrite match_blank_lines in Hm.
    destruct (is_char LF c) eqn:HLF; [|done].
    apply star_blank_some in Hm.
    assert (Hseen : seen = false).
    { destruct seen; [|done]. specialize (Hcalm eq_refl).
      cbn [calm] in Hcalm. by rewrite HLF in Hcalm. }
    subst seen.
    pose proof (Lang_nonempty _ _ _ _ HL eq_refl) as Hne.
    destruct w as [|a w']; [done|]. simpl in Hw. injection Hw as <- ->.
    replace (length (c :: w' ++ rest) - length rest) with (S (length w'))
      by (simpl; rewrite length_app; lia).
    rewrite replace_all_skip.
    change ([LF] ++ ?x) with (LF :: x). cbn [blank_free].
    unfold is_char at 1. rewrite Ascii.eqb_refl.
    eapply IH; [|reflexivity|by intros _].
    simpl. rewrite length_app. lia.
  - rewrite match_blank_lines in Hm. cbn [blank_free].
    destruct (is_char LF c) eqn:HLF.
    + assert (Hseen : seen = false).
      { destruct seen; [|done]. specialize (Hcalm eq_refl).
        cbn [calm] in Hcalm. by rewrite HLF in Hcalm. }
      subst seen. eapply IH; [|reflexivity|]; [simpl; lia|].
      intros _. by apply star_blank_none.
    + destruct (is_space c) eqn:Hsp.
      * eapply IH; [|reflexivity|]; [simpl; lia|].
        intros Hs. specialize (Hcalm Hs). cbn [calm] in Hcalm.
        by rewrite HLF, Hsp in Hcalm.
      * eapply IH; [|reflexivity|done]. simpl; lia.
Qed.

Lemma blank_free_suffix (pre l : list ascii) : forall seen,
  blank_free seen (pre ++ l) = true -> exists seen', blank_free seen' l = true.
Proof.
  induction pre as [|c pre IH]; intros seen Hb; [by exists seen|].
  cbn [app blank_free] in Hb. destruct (is_char LF c).
  - destruct seen; [done|]. by apply IH in Hb.
  - destruct (is_space c); by apply IH in Hb.
Qed.

Lemma blank_free_blanks (ws post : list ascii) :
  forallb is_space ws = true -> blank_free true (ws ++ LF :: post) = false.
Proof.
  induction ws as [|c ws IH]; intros Hws.
  - cbn [app blank_free]. unfold is_char. by rewrite Ascii.eqb_refl.
  - simpl in Hws. apply andb_true_iff in Hws as [Hc Hws].
    cbn [app blank_free]. rewrite Hc. destruct (is_char LF c); [done|]. by apply IH.
Qed.

Lemma blank_free_sound (l : list ascii) :
  blank_free false l = true -> ~ has_blank_line l.
Proof.
  intros Hb (pre & ws & post & Hws & ->).
  apply blank_free_suffix in Hb as [seen Hb].
  change ([LF] ++ ws ++ [LF] ++ post) with (LF :: ws ++ LF :: post) in Hb.
  cbn [blank_free] in Hb. unfold is_char in Hb. rewrite Ascii.eqb_refl in Hb.
  destruct seen; [done|]. by rewrite blank_free_blanks in Hb.
Qed.

Lemma trim_start_split (l : list ascii) : exists sp, l = sp ++ trim_start l.
Proof.
  induction l as [|c l [sp IH]]; [by exists []|]. simpl.
  destruct (is_space c); [|by exists []].
  exists (c :: sp). simpl. by rewrite <- IH.
Qed.

Lemma has_blank_line_trim_start (l : list ascii) :
  has_blank_line (trim_start l) -> has_blank_line l.
Proof.
  intros (pre & ws & post & Hws & Heq).
  destruct (trim_start_split l) as [sp Hsp].
  exists (sp ++ pre), ws, post. split; [done|].
  rewrite Hsp at 1. rewrite Heq. by rewrite <- app_assoc.
Qed.

Lemma has_blank_line_rev (l : list ascii) :
  has_blank_line (rev l) -> has_blank_line l.
Proof.
  intros (pre & ws & post & Hws & Heq).
  exists (rev post), (rev ws), (rev pre). split; [by rewrite forallb_rev|].
  rewrite <- (rev_involutive l), Heq.
  rewrite !rev_app_distr. simpl. by rewrite <- !app_assoc.
Qed.

Lemma has_blank_line_trim (l : list ascii) :
  has_blank_line (trim l) -> has_blank_line l.
Proof.
  unfold trim. intros Hb.
  by apply has_blank_line_trim_start, has_blank_line_rev,
           has_blank_line_trim_start, has_blank_line_rev.
Qed.

(** X23. The beautified CSS has no blank line: between two line feeds of
    the result there is always a character that is not white space. *)
Theorem beautifyCSS_leaves_no_blank_line (css : string) :
  ~ has_blank_line (chars (WebDecompiler.beautifyCSS css)).
Proof.
  unfold WebDecompiler.beautifyCSS. rewrite chars_str.
  intros Hb%has_blank_line_trim. revert Hb.
  apply blank_free_sound, blank_lines_replaced. done.
Qed.

Lemma trim_start_outside (l : list ascii) : starts_outside is_space (trim_start l).
Proof.
  induction l as [|c l IH]; [done|]. simpl.
  destruct (is_space c) eqn:Hc; [done|]. done.
Qed.

Lemma trim_start_keeps_last (x : list ascii) (c : ascii) :
  is_space c = false -> exists y, trim_start (x ++ [c]) = y ++ [c].
Proof.
  intros Hc. induction x as [|a x [y IH]].
  - exists []. simpl. by rewrite Hc.
  - simpl. destruct (is_space a); [by exists y|]. by exists (a :: x).
Qed.

Lemma trim_outside (l : list ascii) :
  starts_outside is_space (trim l) /\ starts_outside is_space (rev (trim l)).
Proof.
  unfold trim. split; [|rewrite rev_involutive; apply trim_start_outside].
  pose proof (trim_start_outside l) as Hm.
  destruct (trim_start l) as [|c m]; [done|]. simpl in Hm.
  destruct (trim_start_keeps_last (rev m) c Hm) as [y Hy].
  simpl rev. rewrite Hy, rev_app_distr. done.
Qed.

(** X24. The beautified CSS neither starts nor ends with white space, and
    a style sheet of white space only is beautified to the empty text. *)
Theorem beautifyCSS_result_is_trimmed (css : string) :
  starts_outside is_space (chars (WebDecompiler.beautifyCSS css))
  /\ starts_outside is_space (rev (chars (WebDecompiler.beautifyCSS css)))
  /\ (forallb is_space (chars css) = true -> WebDecompiler.beautifyCSS css = "").
Proof.
  pose proof (beautifyCSS_keeps_tokens css) as Htok.
  unfold WebDecompiler.beautifyCSS in *. rewrite chars_str in *.
  match goal with |- context [trim ?l] =>
    pose proof (trim_outside l) as [Hfirst Hlast]; set (out := trim l) in * end.
  split; [done|]. split; [done|].
  intros Hws. rewrite (strip_ws_spaces _ Hws) in Htok.
  destruct out as [|c out']; [done|].
  simpl in Hfirst. unfold strip_ws in Htok. simpl in Htok.
  by rewrite Hfirst in Htok.
Qed.

End CssLines.

(* ===================================================================== *)
(** * Further properties: what the extraction loops report *)
(* ===================================================================== *)

Section Pieces.
Import Chars Regex Js Text Patterns.

(** Every match reported by the search is a piece of the text, and is in
    the language of the pattern with the reported capture. *)
Lemma exec_all_piece r m : forall s skip,
  In m (exec_all r s skip) ->
  exists pre rest, s = pre ++ m0 m ++ rest /\ Lang r (m0 m) None (m1 m).
Proof.
  induction s as [|a s IH]; intros skip Hin; [done|].
  assert (Hlater : forall k, In m (exec_all r s k) ->
            exists pre rest, a :: s = pre ++ m0 m ++ rest /\ Lang r (m0 m) None (m1 m)).
  { intros k (pre & rest & -> & HL)%IH. by exists (a :: pre), rest. }
  simpl in Hin. destruct skip as [|k]; [|by eapply Hlater].
  destruct (match_at r (a :: s)) as [[rest cap]|] eqn:Hm; [|by eapply Hlater].
  destruct Hin as [<-|Hin]; [|by eapply Hlater].
  apply match_at_sound in Hm as (w & Hw & HL).
  exists [], rest. cbn [m0 m1 app]. rewrite Hw, consumed_app. done.
Qed.

(** The capture, when the match sets it, is a piece of the match. *)
Lemma Lang_capture_piece r w c c' :
  Lang r w c c' ->
  c' = c \/ exists cap pre post, c' = Some cap /\ w = pre ++ cap ++ post.
Proof.
  induction 1 as [c|p a c Hp|r1 r2 w1 w2 c c1 c2 H1 IH1 H2 IH2|r1 r2 w c c' H1 IH1
                 |r1 r2 w c c' H1 IH1|r w c c' H1 IH1|r c|p w c Hw|r w c c' H1 IH1];
    try (by left); try done.
  - destruct IH2 as [->|(cap & pre & post & -> & ->)].
    + destruct IH1 as [->|(cap & pre & post & -> & ->)]; [by left|].
      right. exists cap, pre, (post ++ w2). split; [done|]. by rewrite <- !app_assoc.
    + right. exists cap, (w1 ++ pre), post. split; [done|]. by rewrite <- !app_assoc.
  - right. exists w, [], []. split; [done|]. simpl. by rewrite app_nil_r.
Qed.

Lemma str_app (a b : list ascii) : str (a ++ b) = str a +:+ str b.
Proof. induction a as [|c a IH]; [done|]. simpl. by rewrite IH. Qed.

(** What one match of one pattern gives: a text that is a piece of the
    searched text, and a capture that is a piece of that piece. *)
Lemma match_pieces r (text : string) m capture :
  In m (exec_all r (chars text) 0) ->
  m1 m = Some capture ->
  (exists pre post, text = pre +:+ str (m0 m) +:+ post)
  /\ (exists pre post, str (m0 m) = pre +:+ str capture +:+ post).
Proof.
  intros (pre & rest & Htext & HL)%exec_all_piece Hcap. rewrite Hcap in HL. split.
  - exists (str pre), (str rest). apply chars_inj.
    by rewrite <- !str_app, chars_str.
  - apply Lang_capture_piece in HL as [?|(cap & pre' & post' & [= <-] & ->)]; [done|].
    exists (str pre'), (str post'). by rewrite !str_app.
Qed.

(** X25. The code of an extracted component is a piece of the searched
    text, and the name of the component, which is not empty, is a piece of
    that code. *)
Theorem component_is_a_piece_of_the_bundle (jsContent sourceFile : string)
    (c : ExtractedComponent.t) :
  In c (WebDecompiler.found_components jsContent sourceFile) ->
  (exists pre post, jsContent = pre +:+ ExtractedComponent.code c +:+ post)
  /\ (exists pre post,
        ExtractedComponent.code c = pre +:+ ExtractedComponent.name c +:+ post)
  /\ ExtractedComponent.name c <> "".
Proof.
  unfold WebDecompiler.found_components.
  intros (pattern & _ & (m & Hm & Hc)%in_flat_map)%in_flat_map.
  unfold WebDecompiler.component_of in Hc.
  destruct (m1 m) as [[|a cs]|] eqn:Hcap; try done.
  destruct (Ascii.eqb a (toUpperCase a)); [|done].
  destruct Hc as [<-|[]]. cbn [ExtractedComponent.code ExtractedComponent.name].
  destruct (match_pieces _ _ _ _ Hm Hcap) as [Htext Hname]. done.
Qed.

(** X26. The match of an extracted module is a piece of the searched
    text, and its identifier, which is not empty, is a piece of that
    match. *)
Theorem module_is_a_piece_of_the_bundle (jsContent sourceFile : string)
    (m : ModuleInfo.t) :
  In m (WebDecompiler.found_modules jsContent sourceFile) ->
  (exists pre post, jsContent = pre +:+ ModuleInfo.match_ m +:+ post)
  /\ (exists pre post,
        ModuleInfo.match_ m = pre +:+ ModuleInfo.identifier m +:+ post)
  /\ ModuleInfo.identifier m <> "".
Proof.
  unfold WebDecompiler.found_modules.
  intros (pattern & _ & (mr & Hmr & Hm)%in_flat_map)%in_flat_map.
  unfold WebDecompiler.module_of in Hm.
  destruct (m1 mr) as [[|a cs]|] eqn:Hcap; try done.
  destruct Hm as [<-|[]]. cbn [ModuleInfo.match_ ModuleInfo.identifier].
  destruct (match_pieces _ _ _ _ Hmr Hcap) as [Htext Hname]. done.
Qed.

End Pieces.

(* ===================================================================== *)
(** * Further properties: the sizes the explorer shows *)
(* ===================================================================== *)

Section ShownSizes.
Import Chars Js Text.
Import DecompilationResult.

Lemma pretty_N_digits (n : N) : digits (pretty n).
Proof.
  unfold pretty, pretty_N. case_decide; [done|]. by apply pretty_N_go_digits.
Qed.

Lemma string_app_assoc (a b c : string) : (a +:+ b) +:+ c = a +:+ b +:+ c.
Proof.
  induction a as [|x a IH]; [done|].
  change (String x ((a +:+ b) +:+ c) = String x (a +:+ b +:+ c)). by rewrite IH.
Qed.

(** A text that starts with the decimal text of a number, or with what
    follows it, does not start with a letter. *)
Lemma number_text_not_Unknown (n : N) (c : ascii) (rest : string) :
  is_digit c = false -> c <> "U"%char ->
  pretty n +:+ String c rest <> "Unknown".
Proof.
  intros Hc HU Heq. pose proof (pretty_N_digits n) as Hd. unfold digits in Hd.
  destruct (pretty n) as [|a s]; simpl in *.
  - injection Heq as -> _. done.
  - injection Heq as -> _. by vm_compute in Hd.
Qed.

(** X27. The explorer shows the size [Unknown] exactly for a size that is
    missing and for the size 0: an original file with an empty content,
    which the listing has with the size 0, is shown with the size
    [Unknown]. *)
Theorem empty_file_is_shown_with_unknown_size
    (jobId : string) (result : DecompilationResult.t) :
  (forall size, FileExplorer.formatFileSize size = "Unknown"
                <-> size = None \/ size = Some 0) /\
  (forall files f,
     FileExplorer.files_of (Handlers.listing jobId result) = Some files ->
     originalFiles result !! f = Some "" ->
     exists item, In item files /\ item_name item = f /\ item_category item = original /\
                  FileExplorer.formatFileSize (Some (item_size item)) = "Unknown").
Proof.
  split.
  - intros [n|]; [|by split; auto]. unfold FileExplorer.formatFileSize.
    destruct (N.eqb_spec (N.of_nat n) 0) as [Hz|Hnz].
    + split; [|done]. intros _. right. f_equal. lia.
    + split; [|intros [?|[= ->]]; done]. intros Heq. exfalso.
      unfold FileExplorer.toFixed1 in Heq.
      destruct (N.of_nat n <? 1024)%N;
        [|destruct (N.of_nat n <? 1024 * 1024)%N].
      * by apply number_text_not_Unknown in Heq.
      * rewrite !string_app_assoc in Heq.
        by apply number_text_not_Unknown in Heq.
      * rewrite !string_app_assoc in Heq.
        by apply number_text_not_Unknown in Heq.
  - intros files f [= <-] Hf.
    exists (mkFileItem f 0 original). repeat split.
    apply in_or_app. left. apply in_map_iff. exists (f, "").
    split; [done|]. apply list_elem_of_In. by apply elem_of_map_to_list.
Qed.

End ShownSizes.

Section EndToEnd.
Import Chars Js Exc Spec Text.
Import DecompilationResult.
Context `{Platform} `{Renderer}.


End EndToEnd.

Section RelAttribute.
Import Chars Js.

Lemma lowercase_length (s : string) : String.length (lowercase s) = String.length s.
Proof. unfold lowercase. by rewrite str_length, length_map, chars_length. Qed.

(** The links that discovery takes: the elements [link] whose [rel] is
    [stylesheet] in any mix of upper and lower case. *)
Lemma stylesheet_link_rel (e : Element) :
  WebDecompiler.is_stylesheet_link e = true <->
  tagName e = "link" /\
  exists rel, WebDecompiler.attr (attribs e) "rel" = Some rel /\
              lowercase rel = "stylesheet".
Proof.
  unfold WebDecompiler.is_stylesheet_link, WebDecompiler.attr_is.
  rewrite andb_true_iff, String.eqb_eq.
  split; intros [Htag Hrel]; (split; [exact Htag|]).
  - destruct (WebDecompiler.attr (attribs e) "rel") as [rel|]; [|done].
    apply andb_true_iff in Hrel as [_ Hrel%String.eqb_eq]. by exists rel.
  - destruct Hrel as (rel & -> & Hrel).
    apply andb_true_iff. split.
    + apply Nat.eqb_eq. by rewrite <- (lowercase_length rel), Hrel.
    + apply String.eqb_eq. by rewrite Hrel.
Qed.

End RelAttribute.

(** A style sheet that is linked with [rel=Stylesheet] is a bundle. *)
Lemma capital_rel_is_discovered :
  WebDecompiler.collect_bundles (H := Fake.platform Examples.stylesheet_first_site)
    (WebDecompiler.fresh Examples.root "job1" 0) MoreExamples.capital_rel_doc 0
  = (Ok [BundleInfo.mk "https://example.com/upper.css" css "upper.css"], 0).
Proof. by vm_compute. Qed.

(* ===================================================================== *)
(** * Instances of the further properties *)
(* ===================================================================== *)

(** The two bundles of [stylesheet_first_site]. *)
Lemma discovered_filenames_witness :
  WebDecompiler.collect_bundles (H := Fake.platform Examples.stylesheet_first_site)
    (WebDecompiler.fresh Examples.root "job1" 0) Examples.stylesheet_first_doc 0
    = (Ok [Examples.bundle_js; Examples.style_css], 0) /\
  Forall (fun b => BundleInfo.filename b <> "" /\ Text.no_slash (BundleInfo.filename b))
         [Examples.bundle_js; Examples.style_css].
Proof.
  assert (Hrun : WebDecompiler.collect_bundles
                   (H := Fake.platform Examples.stylesheet_first_site)
                   (WebDecompiler.fresh Examples.root "job1" 0)
                   Examples.stylesheet_first_doc 0
                 = (Ok [Examples.bundle_js; Examples.style_css], 0))
    by (by vm_compute).
  split; [exact Hrun|].
  exact (discovered_filenames_are_plain
           (H := Fake.platform Examples.stylesheet_first_site) _ _ _ _ _ Hrun).
Defined.

(** The second script of [empty_host_site] has a source that the URL
    constructor rejects; the first one would have been retrieved. *)
Lemma unresolvable_reference_witness :
  WebDecompiler.fullUrl (H := MoreExamples.strict_platform MoreExamples.empty_host_site)
    (WebDecompiler.fresh Examples.root "job1" 0) "//" = None /\
  Handlers.run_job (H := MoreExamples.strict_platform MoreExamples.empty_host_site)
    Examples.root "job1" 0
    = (Throw "Failed to analyze HTML structure", 1).
Proof.
  split; [by vm_compute|].
  apply (unresolvable_reference_is_fatal
           (H := MoreExamples.strict_platform MoreExamples.empty_host_site)
           Examples.root "job1" 0 1
           (Fake.ok_page "<script src=/bundle.js></script><script src=//></script>")
           (Fake.script "//") "src" "//").
  - by vm_compute.
  - left. split; [done|]. vm_compute. apply elem_of_cons. right.
    apply elem_of_cons. by left.
  - by vm_compute.
  - done.
  - by vm_compute.
Defined.

Lemma hand_off_identity_witness :
  Handlers.run_job (H := Fake.platform Examples.stylesheet_first_site)
    Examples.root "job1" 0 = (Ok Examples.stylesheet_first_result, 4) /\
  DecompilationResult.jobId Examples.stylesheet_first_result = "job1" /\
  DecompilationResult.url Examples.stylesheet_first_result = Examples.root /\
  DecompilationResult.bundles Examples.stylesheet_first_result <> [].
Proof.
  assert (Hrun : Handlers.run_job (H := Fake.platform Examples.stylesheet_first_site)
                   Examples.root "job1" 0 = (Ok Examples.stylesheet_first_result, 4))
    by (by vm_compute).
  split; [exact Hrun|].
  destruct (hand_off_identity (H := Fake.platform Examples.stylesheet_first_site)
              _ _ _ _ _ Hrun) as (Hid & Hurl & _ & Hbundles & _).
  split; [exact Hid|]. split; [exact Hurl|exact Hbundles].
Defined.

Lemma index_html_witness :
  Handlers.run_job (H := Fake.platform Examples.stylesheet_first_site)
    Examples.root "job1" 0 = (Ok Examples.stylesheet_first_result, 4) /\
  is_Some (DecompilationResult.originalFiles Examples.stylesheet_first_result
             !! "index.html").
Proof.
  assert (Hrun : Handlers.run_job (H := Fake.platform Examples.stylesheet_first_site)
                   Examples.root "job1" 0 = (Ok Examples.stylesheet_first_result, 4))
    by (by vm_compute).
  split; [exact Hrun|].
  exact (proj1 (index_html_is_kept (H := Fake.platform Examples.stylesheet_first_site)
                  _ _ _ _ _ Hrun)).
Defined.

Lemma stored_files_witness :
  Handlers.run_job (H := Fake.platform Examples.stylesheet_first_site)
    Examples.root "job1" 0 = (Ok Examples.stylesheet_first_result, 4) /\
  Spec.keys_from (DecompilationResult.bundles Examples.stylesheet_first_result)
    (DecompilationResult.beautifiedFiles Examples.stylesheet_first_result) /\
  size (DecompilationResult.beautifiedFiles Examples.stylesheet_first_result)
    <= length (DecompilationResult.bundles Examples.stylesheet_first_result).
Proof.
  assert (Hrun : Handlers.run_job (H := Fake.platform Examples.stylesheet_first_site)
                   Examples.root "job1" 0 = (Ok Examples.stylesheet_first_result, 4))
    by (by vm_compute).
  split; [exact Hrun|].
  exact (proj2 (stored_files_come_from_bundles
                  (H := Fake.platform Examples.stylesheet_first_site)
                  _ _ _ _ _ Hrun)).
Defined.

Lemma extracted_items_witness :
  Handlers.run_job (H := Fake.platform Examples.stylesheet_first_site)
    Examples.root "job1" 0 = (Ok Examples.stylesheet_first_result, 4) /\
  exists b, b ∈ DecompilationResult.bundles Examples.stylesheet_first_result /\
            BundleInfo.type b = js /\
            ExtractedComponent.source MoreExamples.Header = BundleInfo.filename b.
Proof.
  assert (Hrun : Handlers.run_job (H := Fake.platform Examples.stylesheet_first_site)
                   Examples.root "job1" 0 = (Ok Examples.stylesheet_first_result, 4))
    by (by vm_compute).
  split; [exact Hrun|].
  exact (proj1 (proj1 (extracted_items_come_from_js_bundles
                         (H := Fake.platform Examples.stylesheet_first_site)
                         _ _ _ _ _ Hrun)
                  MoreExamples.Header (or_introl eq_refl))).
Defined.

Lemma file_counters_witness :
  Handlers.run_job (H := Fake.platform Examples.stylesheet_first_site)
    Examples.root "job1" 0 = (Ok Examples.stylesheet_first_result, 4) /\
  Analysis.jsFiles (DecompilationResult.analysis Examples.stylesheet_first_result)
  + Analysis.cssFiles (DecompilationResult.analysis Examples.stylesheet_first_result)
  <= length (DecompilationResult.bundles Examples.stylesheet_first_result).
Proof.
  assert (Hrun : Handlers.run_job (H := Fake.platform Examples.stylesheet_first_site)
                   Examples.root "job1" 0 = (Ok Examples.stylesheet_first_result, 4))
    by (by vm_compute).
  split; [exact Hrun|].
  exact (proj2 (proj2 (file_counters_are_bounded
                         (H := Fake.platform Examples.stylesheet_first_site)
                         _ _ _ _ _ Hrun))).
Defined.

(** A body without a URL. *)
Lemma post_rejects_witness :
  Handlers.POST (H := Fake.platform Examples.stylesheet_first_site)
    (DecompilationRequest.mk "" "job1") MoreExamples.registry 7
  = (PostError 400 "URL and jobId are required" None, MoreExamples.registry, 7).
Proof.
  exact (proj1 (post_rejects_invalid_requests
                  (H := Fake.platform Examples.stylesheet_first_site)
                  (DecompilationRequest.mk "" "job1") MoreExamples.registry 7)
           (or_introl eq_refl)).
Defined.

(** A second job, submitted when the registry holds the first one. *)
Lemma post_touches_witness :
  (exists answer storage' w',
     Handlers.POST (H := Fake.platform Examples.same_name_scripts_site)
       (DecompilationRequest.mk Examples.root "job2") MoreExamples.registry 0
     = (answer, storage', w') /\
     storage' !! "job1" = MoreExamples.registry !! "job1").
Proof.
  destruct (Handlers.POST (H := Fake.platform Examples.same_name_scripts_site)
              (DecompilationRequest.mk Examples.root "job2") MoreExamples.registry 0)
    as [[answer storage'] w'] eqn:Hpost.
  exists answer, storage', w'. split; [reflexivity|].
  exact (proj1 (post_touches_its_own_job_only
                  (H := Fake.platform Examples.same_name_scripts_site)
                  _ _ _ _ _ _ Hpost) "job1" ltac:(discriminate)).
Defined.

Lemma post_success_witness :
  Handlers.POST (H := Fake.platform Examples.stylesheet_first_site)
    (DecompilationRequest.mk Examples.root "job1") ∅ 0
  = (PostSuccess "job1" 1 1 1 0 2 5, MoreExamples.registry, 4) /\
  exists r,
    jobStorage.get "job1" MoreExamples.registry
      = Some (DecompilationResult.with_timestamp 4 r) /\
    length (DecompilationResult.bundles r) = 2.
Proof.
  assert (Hpost : Handlers.POST (H := Fake.platform Examples.stylesheet_first_site)
                    (DecompilationRequest.mk Examples.root "job1") ∅ 0
                  = (PostSuccess "job1" 1 1 1 0 2 5, MoreExamples.registry, 4))
    by (by vm_compute).
  split; [exact Hpost|].
  destruct (post_success_saves_the_record
              (H := Fake.platform Examples.stylesheet_first_site)
              _ _ _ _ _ _ _ _ _ _ _ _ Hpost)
    as (_ & r & _ & Hget & _ & _ & _ & _ & Hbundles & _).
  exists r. split; [exact Hget|]. by symmetry.
Defined.

(** Saving a second job leaves the first one as it was. *)
Lemma save_then_get_witness :
  jobStorage.get "job1"
    (jobStorage.save (H := Fake.platform Examples.stylesheet_first_site)
       "job2" Examples.stylesheet_first_result MoreExamples.registry 9)
  = jobStorage.get "job1" MoreExamples.registry.
Proof.
  exact (proj1 (proj2 (save_then_get
                         (H := Fake.platform Examples.stylesheet_first_site)
                         MoreExamples.registry "job2"
                         Examples.stylesheet_first_result 9))
           "job1" ltac:(discriminate)).
Defined.

(** Deleting a job that is not there leaves the first one as it was. *)
Lemma delete_witness :
  jobStorage.get "job1" (snd (jobStorage.delete "job2" MoreExamples.registry))
  = jobStorage.get "job1" MoreExamples.registry.
Proof.
  exact (proj1 (proj2 (proj2 (delete_removes_one_job MoreExamples.registry "job2")))
           "job1" ltac:(discriminate)).
Defined.

Lemma listing_counts_witness :
  MoreExamples.registry !! "job1" = Some MoreExamples.stored_result /\
  exists files,
    Handlers.GET MoreExamples.registry "job1" None
      = GetListing "job1" Examples.root files
          (DecompilationResult.analysis MoreExamples.stored_result)
          (DecompilationResult.bundles MoreExamples.stored_result) /\
    length files = 3 + 2 + 1.
Proof.
  assert (Hjob : MoreExamples.registry !! "job1" = Some MoreExamples.stored_result)
    by (by vm_compute).
  split; [exact Hjob|].
  destruct (listing_counts_match_the_record MoreExamples.registry "job1" None
              MoreExamples.stored_result Hjob eq_refl)
    as (files & HGET & Hlen & _).
  exists files. split; [exact HGET|exact Hlen].
Defined.


Lemma code_icon_witness :
  In (Handlers.component_item 0 MoreExamples.Header)
     (default [] (FileExplorer.files_of
                    (Handlers.listing "job1" MoreExamples.stored_result))) /\
  FileExplorer.getFileIcon
    (item_name (Handlers.component_item 0 MoreExamples.Header))
    (item_category (Handlers.component_item 0 MoreExamples.Header))
  = FileExplorer.FileCode.
Proof.
  assert (Hin : In (Handlers.component_item 0 MoreExamples.Header)
                   (default [] (FileExplorer.files_of
                                  (Handlers.listing "job1" MoreExamples.stored_result)))).
  { vm_compute. do 5 right. by left. }
  split; [exact Hin|].
  exact (listed_components_get_the_code_icon "job1" MoreExamples.stored_result
           _ _ eq_refl Hin eq_refl).
Defined.


Lemma archive_witness :
  MoreExamples.registry !! "job1" = Some MoreExamples.stored_result /\
  exists zip,
    Download.GET (H := MoreExamples.renderer) MoreExamples.registry "job1"
    = DownloadZip "decompiled_example_com_job1.zip" zip /\
    zip !! "original/bundle.js" = Some "function Header(){return jsx}" /\
    zip !! "extracted/components/Header_0.jsx"
    = Some (Download.component_text MoreExamples.Header).
Proof.
  assert (Hjob : MoreExamples.registry !! "job1" = Some MoreExamples.stored_result)
    by (by vm_compute).
  split; [exact Hjob|].
  destruct (archive_holds_the_stored_files (H := MoreExamples.renderer)
              MoreExamples.registry "job1" "example.com" MoreExamples.stored_result
              Hjob eq_refl)
    as (zip & HGET & Horiginal & _ & Hcomponents & _).
  exists zip. split; [exact HGET|]. split.
  - exact (Horiginal "bundle.js").
  - exact (Hcomponents 0 MoreExamples.Header eq_refl).
Defined.

Lemma archive_entries_witness :
  Download.GET (H := MoreExamples.renderer) MoreExamples.registry "job1"
  = DownloadZip "decompiled_example_com_job1.zip"
      (Download.build_zip (H := MoreExamples.renderer) MoreExamples.stored_result) /\
  exists result, MoreExamples.registry !! "job1" = Some result.
Proof.
  assert (HGET : Download.GET (H := MoreExamples.renderer) MoreExamples.registry "job1"
                 = DownloadZip "decompiled_example_com_job1.zip"
                     (Download.build_zip (H := MoreExamples.renderer)
                        MoreExamples.stored_result))
    by (by vm_compute).
  split; [exact HGET|].
  destruct (archive_holds_nothing_else (H := MoreExamples.renderer)
              MoreExamples.registry "job1" _ _ "README.md"
              (Download.readmeContent (H := MoreExamples.renderer)
                 MoreExamples.stored_result)
              HGET ltac:(by vm_compute))
    as (result & Hjob & _).
  by exists result.
Defined.

(** A host name of letters only is kept. *)
Lemma download_name_witness :
  Download.sanitize "localhost" = "localhost".
Proof.
  exact (proj2 (proj2 (download_name_is_a_plain_word "localhost")) eq_refl).
Defined.

(** A style sheet of two blanks and a line feed. *)
Lemma trimmed_witness :
  WebDecompiler.beautifyCSS (String " " (String " " (String Chars.LF ""))) = "".
Proof.
  exact (proj2 (proj2 (beautifyCSS_result_is_trimmed
                         (String " " (String " " (String Chars.LF "")))))
           eq_refl).
Defined.

Lemma component_piece_witness :
  In MoreExamples.Header
     (WebDecompiler.found_components "var x; function Header(){return jsx} var y;"
        "bundle.js") /\
  (exists pre post,
     "var x; function Header(){return jsx} var y;"
     = pre +:+ ExtractedComponent.code MoreExamples.Header +:+ post).
Proof.
  assert (Hin : In MoreExamples.Header
                  (WebDecompiler.found_components
                     "var x; function Header(){return jsx} var y;" "bundle.js"))
    by (by left).
  split; [exact Hin|].
  exact (proj1 (component_is_a_piece_of_the_bundle _ _ _ Hin)).
Defined.

Lemma module_piece_witness :
  In (ModuleInfo.mk "App" "export default function App" "bundle.js")
     (WebDecompiler.found_modules "export default function App() {}" "bundle.js") /\
  (exists pre post,
     "export default function App"
     = pre +:+ "App" +:+ post).
Proof.
  assert (Hin : In (ModuleInfo.mk "App" "export default function App" "bundle.js")
                   (WebDecompiler.found_modules "export default function App() {}"
                      "bundle.js"))
    by (by left).
  split; [exact Hin|].
  exact (proj1 (proj2 (module_is_a_piece_of_the_bundle _ _ _ Hin))).
Defined.

Lemma shown_size_witness :
  DecompilationResult.originalFiles MoreExamples.empty_stylesheet_result !! "style.css"
    = Some "" /\
  exists item,
    item_name item = "style.css" /\
    FileExplorer.formatFileSize (Some (item_size item)) = "Unknown".
Proof.
  assert (Hf : DecompilationResult.originalFiles MoreExamples.empty_stylesheet_result
                 !! "style.css" = Some "") by (by vm_compute).
  split; [exact Hf|].
  destruct (proj2 (empty_file_is_shown_with_unknown_size "job1"
                     MoreExamples.empty_stylesheet_result)
              (default [] (FileExplorer.files_of
                             (Handlers.listing "job1" MoreExamples.empty_stylesheet_result)))
              "style.css" eq_refl Hf)
    as (item & _ & Hname & _ & Hshown).
  exists item. split; [exact Hname|exact Hshown].
Defined.


